(** * Kerong BT lock driver (bt-lock.js): protocol engine

    A shallow embedding of [bt-lock.js] and the properties of its packet
    codec, BCD codec, cipher, user-record parser, fragment reassembly and
    session handling.

    Conventions of the embedding:
    - a JavaScript number that is only ever an integer or [NaN] is a
      [number]; sums stay far below 2^53, so [Z] arithmetic is exact;
      the one computation in fractions, the battery percentage, is done
      on IEEE 754 doubles ([spec_float] at precision 53);
    - the 32-bit conversions of the bitwise operators are written out
      ([ToInt32]); a [Uint8Array] is a [list Z] whose elements were
      reduced modulo 256 when it was built;
    - a JavaScript string is a [string]: every character the driver
      builds comes from a byte or from an ASCII literal;
    - [undefined] and [null] are both [None]: the driver only tests
      them for truthiness or dereferences them;
    - driver code runs in a monad of state and exceptions over a
      [World]: the module's variables ([Session]) and the host ([Host]),
      which holds the transport (an oracle telling which GATT writes
      are accepted), the promises, the timers, a trace of what went out
      and the events that arrive while an operation is suspended;
    - an [async] function is the computation of its body, an exception
      standing for the rejection of its promise; every [await] is a
      suspension point at which pending events are handled.

    Device discovery ([connectToDevice]) and [setConfig] are outside
    the protocol engine: sessions are taken as they leave them. *)

From Stdlib Require Import ZArith List String Ascii Lia Bool SpecFloat.
From stdpp Require Import base list strings gmap.
Import ListNotations.
Open Scope Z_scope.

(** ** JavaScript numbers and their conversions *)

Inductive number : Type :=
| NaN
| Num (z : Z).

(** [a + b] on numbers. *)
Definition add (a b : number) : number :=
  match a, b with
  | Num x, Num y => Num (x + y)
  | _, _ => NaN
  end.

(** [ToInt32] on an integer: wrap into [-2^31, 2^31). *)
Definition wrap32 (z : Z) : Z := (z + 2 ^ 31) mod 2 ^ 32 - 2 ^ 31.

Definition ToInt32 (n : number) : Z :=
  match n with
  | NaN => 0
  | Num z => wrap32 z
  end.

(** Storing a number in a [Uint8Array] slot. *)
Definition ToUint8 (n : number) : Z :=
  match n with
  | NaN => 0
  | Num z => z mod 256
  end.

(** [new Uint8Array([...])]. *)
Definition Uint8Array (l : list number) : list Z := map ToUint8 l.

(** [arr.reduce((a, b) => a + b, 0)] on numbers and on integers. *)
Definition reduce_add (l : list number) : number := fold_left add l (Num 0).

Definition reduce_addZ (l : list Z) : Z := fold_left Z.add l 0.

(** [arr.slice(i, j)] with [0 <= i]. *)
Definition slice {A} (i j : nat) (l : list A) : list A := take (j - i) (drop i l).

Definition is_byte (b : Z) : Prop := 0 <= b <= 255.

(** ** Packet codec *)

(** [createPacket(cmd, data = [])]:
    STX CMD ASK DATALEN ETX SUM DATA. *)
Definition createPacket (cmd : Z) (data : list number) : list Z :=
  let STX := 0xF5 in
  let ETX := 0x5F in
  let packet := [Num STX; Num cmd; Num 0x00; Num (Z.of_nat (length data)); Num ETX] in
  let sum := add (reduce_add packet) (reduce_add data) in
  Uint8Array (packet ++ [Num (Z.land (ToInt32 sum) 0xFF)] ++ data).

(** The fields [handleNotifications] reads from an inbound frame:
    [response[1]], [response[2]], [response[3]] and
    [response.slice(6, 6 + dataLength)]; an index past the end is
    [undefined], and [6 + undefined] is [NaN], an empty slice. *)
Record Header : Type := mkHeader {
  h_cmd : option Z;
  h_status : option Z;
  h_dataLength : option Z
}.

Definition readHeader (response : list Z) : Header :=
  {| h_cmd := response !! 1%nat;
     h_status := response !! 2%nat;
     h_dataLength := response !! 3%nat |}.

Definition payloadOf (response : list Z) (dataLength : option Z) : list Z :=
  match dataLength with
  | Some n => slice 6 (6 + Z.to_nat n) response
  | None => []
  end.

(** ** Cipher *)

(** [encryptData(plainData, key)]: [(b ^ key) % 256]; [%] truncates. *)
Definition encryptData (plainData : list number) (key : number) : list number :=
  map (fun b => Num (Z.rem (Z.lxor (ToInt32 b) (ToInt32 key)) 256)) plainData.

(** ** BCD codec *)

(** [decToBcd(dec)]: [((Math.floor(dec / 10) << 4) | (dec % 10)) & 0xFF]. *)
Definition decToBcd (dec : Z) : Z :=
  Z.land (Z.lor (wrap32 (Z.shiftl (wrap32 (dec / 10)) 4)) (wrap32 (Z.rem dec 10))) 0xFF.

(** [bcdToDec(byte)]. *)
Definition bcdToDec (byte : Z) : Z :=
  let high := Z.land (Z.shiftr (wrap32 byte) 4) 0x0F in
  let low := Z.land (wrap32 byte) 0x0F in
  high * 10 + low.

(** A [Date], seen through the getters [dateToBcd] calls. *)
Record Date : Type := mkDate {
  getFullYear : Z;
  getMonth : Z;
  getDate : Z;
  getHours : Z;
  getMinutes : Z
}.

Definition dateToBcd (date : Date) : list Z :=
  [ decToBcd (Z.rem (getFullYear date) 100);
    decToBcd (getMonth date + 1);
    decToBcd (getDate date);
    decToBcd (getHours date);
    decToBcd (getMinutes date) ].

(** ** Strings *)

Fixpoint replicate_char (n : nat) (c : ascii) : string :=
  match n with
  | O => EmptyString
  | S n' => String c (replicate_char n' c)
  end.

(** [s.padStart(targetLength, c)] for a one-character filler. *)
Definition padStart (targetLength : nat) (c : ascii) (s : string) : string :=
  replicate_char (targetLength - String.length s) c +:+ s.

(** [s.substr(start, len)]. *)
Definition substr (start len : nat) (s : string) : string := substring start len s.

Definition char_code (c : ascii) : Z := Z.of_N (N_of_ascii c).

Definition code_char (b : Z) : ascii := ascii_of_N (Z.to_N (b mod 256)).

(** The white space [parseInt] skips, among the code units below 256. *)
Definition is_white_space (c : ascii) : bool :=
  let n := char_code c in
  ((9 <=? n) && (n <=? 13)) || (n =? 32) || (n =? 160).

Definition hex_value (c : ascii) : option Z :=
  let n := char_code c in
  if (48 <=? n) && (n <=? 57) then Some (n - 48)
  else if (97 <=? n) && (n <=? 102) then Some (n - 87)
  else if (65 <=? n) && (n <=? 70) then Some (n - 55)
  else None.

Fixpoint skip_white_space (s : string) : string :=
  match s with
  | String c r => if is_white_space c then skip_white_space r else s
  | EmptyString => EmptyString
  end.

(** Value of the longest prefix of hexadecimal digits, [None] if empty. *)
Fixpoint hex_prefix (s : string) (acc : option Z) : option Z :=
  match s with
  | String c r =>
      match hex_value c with
      | Some d => hex_prefix r (Some (16 * default 0 acc + d))
      | None => acc
      end
  | EmptyString => acc
  end.

(** [parseInt(s, 16)]: white space, a sign, an optional [0x], then the
    longest run of hexadecimal digits; [NaN] when there is none. *)
Definition parseInt16 (s : string) : number :=
  let s1 := skip_white_space s in
  let '(neg, s2) :=
    match s1 with
    | String "-" r => (true, r)
    | String "+" r => (false, r)
    | _ => (false, s1)
    end in
  let s3 :=
    match s2 with
    | String "0" (String "x" r) => r
    | String "0" (String "X" r) => r
    | _ => s2
    end in
  match hex_prefix s3 None with
  | Some v => Num (if neg then - v else v)
  | None => NaN
  end.

Definition digit_char (d : Z) : ascii :=
  code_char (if d <? 10 then 48 + d else 87 + d).

Fixpoint digits_of (fuel : nat) (radix n : Z) (acc : string) : string :=
  match fuel with
  | O => acc
  | S fuel' =>
      let acc' := String (digit_char (n mod radix)) acc in
      if n / radix =? 0 then acc' else digits_of fuel' radix (n / radix) acc'
  end.

(** [z.toString(radix)] for an integer; one bit of [z] per unit of fuel
    is more than its number of digits. *)
Definition Z_toString (radix z : Z) : string :=
  if z <? 0
  then String "-" (digits_of (S (Z.to_nat (Z.log2 (- z)))) radix (- z) EmptyString)
  else digits_of (S (Z.to_nat (Z.log2 z))) radix z EmptyString.

Definition toString (radix : Z) (n : number) : string :=
  match n with
  | NaN => "NaN"
  | Num z => Z_toString radix z
  end.

(** A value the driver turns into a string with [String(v)] or a
    template: [undefined], a number or a string. *)
Inductive value : Type :=
| Undefined
| Number (n : number)
| Str (s : string).

Definition String_of (v : value) : string :=
  match v with
  | Undefined => "undefined"
  | Number n => toString 10 n
  | Str s => s
  end.

(** [String.fromCharCode(...bytes)] on elements of a [Uint8Array]. *)
Definition fromCharCode (bytes : list Z) : string :=
  string_of_list_ascii (map code_char bytes).

(** [s.replace(/^0+/, '')]. *)
Fixpoint strip_leading_zeros (s : string) : string :=
  match s with
  | String "0" r => strip_leading_zeros r
  | _ => s
  end.

(** [s.replace(/\0/g, '')]. *)
Fixpoint remove_nul (s : string) : string :=
  match s with
  | String c r => if (char_code c =? 0) then remove_nul r else String c (remove_nul r)
  | EmptyString => EmptyString
  end.

(** ** Phone numbers and user ids *)

(** [parsePhoneNumber(phone)]: pad to 12 characters, read 6 pairs in
    base 16. *)
Definition parsePhoneNumber (phone : value) : list number :=
  let padded := padStart 12 "0" (String_of phone) in
  [ parseInt16 (substr 0 2 padded);
    parseInt16 (substr 2 2 padded);
    parseInt16 (substr 4 2 padded);
    parseInt16 (substr 6 2 padded);
    parseInt16 (substr 8 2 padded);
    parseInt16 (substr 10 2 padded) ].

(** [parseUserId(bytes)]. *)
Definition parseUserId (bytes : list number) : string :=
  strip_leading_zeros
    (String.concat EmptyString (map (fun b => padStart 2 "0" (toString 16 b)) bytes)).

(** [parsePassword(bytes)]. *)
Definition parsePassword (bytes : list Z) : string :=
  remove_nul (fromCharCode bytes).

(** [getType(byte)]. *)
Definition getType (byte : Z) : string :=
  if byte =? 0x02 then "Periodic user"
  else if byte =? 0x03 then "Once code/user"
  else if byte =? 0x82 then "Expired periodic code"
  else if byte =? 0x83 then "Expired once code"
  else "Onbekend (0x" +:+ Z_toString 16 byte +:+ ")".

(** ** Date and time of a user record *)

(** [bytes[i]] handed to [bcdToDec]: [undefined] converts to 0 under
    [>>] and [&]. *)
Definition bcd_at (bytes : list Z) (i : nat) : Z :=
  bcdToDec (default 0 (bytes !! i)).

Definition pad2 (z : Z) : string := padStart 2 "0" (Z_toString 10 z).

(** The string [parseDateTime(bytes)] returns: the [throw]s of the
    validation are caught by the function's own [catch], which returns
    the marker string. The function as it runs, with what the [catch]
    prints, is [parseDateTimeM] below. *)
Definition parseDateTime (bytes : list Z) : string :=
  let year := bcd_at bytes 0 + 2000 in
  let month := bcd_at bytes 1 in
  let day := bcd_at bytes 2 in
  let hour := bcd_at bytes 3 in
  let minute := bcd_at bytes 4 in
  if (month <? 1) || (12 <? month) || (day <? 1) || (31 <? day)
     || (23 <? hour) || (59 <? minute)
  then "Invalid date/time (" +:+ String.concat ":" (map (Z_toString 16) bytes) +:+ ")"
  else Z_toString 10 year +:+ "-" +:+ pad2 month +:+ "-" +:+ pad2 day
       +:+ " " +:+ pad2 hour +:+ ":" +:+ pad2 minute.

(** ** User records *)

Record User : Type := mkUser {
  valid : bool;
  type : string;
  userId : string;
  password : string;
  validFrom : string;
  validTo : string;
  raw : list Z
}.

(** The record built by the body of the loop of [parseUserData] on one
    24-byte chunk. *)
Definition parseRecord (chunk : list Z) : User :=
  let checksum := default 0 (chunk !! 23%nat) in
  let calculated := Z.land (wrap32 (reduce_addZ (slice 0 23 chunk))) 0xFF in
  {| valid := checksum =? calculated;
     type := getType (default 0 (chunk !! 0%nat));
     userId := parseUserId (map Num (slice 1 7 chunk));
     password := parsePassword (slice 7 13 chunk);
     validFrom := parseDateTime (slice 13 18 chunk);
     validTo := parseDateTime (slice 18 23 chunk);
     raw := chunk |}.

(** [for (let i = 0; i < dataBuffer.length; i += 24)], stopping at a
    chunk shorter than 24 bytes. *)
Fixpoint parseUserData_from (fuel i : nat) (dataBuffer : list Z) : list User :=
  match fuel with
  | O => []
  | S fuel' =>
      if (i <? length dataBuffer)%nat then
        let chunk := slice i (i + 24) dataBuffer in
        if (length chunk <? 24)%nat then []
        else parseRecord chunk :: parseUserData_from fuel' (i + 24) dataBuffer
      else []
  end.

(** The array [parseUserData(dataBuffer)] returns; the loop runs at
    most once per byte. *)
Definition parseUserData (dataBuffer : list Z) : list User :=
  parseUserData_from (length dataBuffer) 0 dataBuffer.

(** ** Log entries *)

(** [Number(s)] for the strings [b.toString(16)] yields on a byte: the
    decimal value when every character is a decimal digit, else [NaN]. *)
Fixpoint decimal_prefix (s : string) (acc : option Z) : option Z :=
  match s with
  | String c r =>
      let n := char_code c in
      if (48 <=? n) && (n <=? 57)
      then decimal_prefix r (Some (10 * default 0 acc + (n - 48)))
      else None
  | EmptyString => acc
  end.

Definition Number_of_hex_string (s : string) : number :=
  match decimal_prefix s None with
  | Some v => Num v
  | None => NaN
  end.

Record LogEntry : Type := mkLogEntry {
  log_type : string;
  telefoonnummer : string;
  datum : string;
  tijd : string
}.

Definition show_at (bytes : list Z) (i : nat) : string :=
  match bytes !! i with
  | Some b => Z_toString 10 b
  | None => "undefined"
  end.

(** [parseLogData(response)]: [logBytes] is a [Uint8Array], so the
    [map] to hexadecimal strings stores each string back as a byte. *)
Definition parseLogData (response : list Z) : LogEntry :=
  let logBytes := drop 5 response in
  let phone := Uint8Array (map (fun b => Number_of_hex_string (Z_toString 16 b))
                               (slice 1 7 logBytes)) in
  {| log_type := if decide (logBytes !! 0%nat = Some 0x01) then "Beheerder" else "Gebruiker";
     telefoonnummer := String.concat ":" (map (Z_toString 10) phone);
     datum := show_at logBytes 7 +:+ "-" +:+ show_at logBytes 8 +:+ "-" +:+ show_at logBytes 9;
     tijd := show_at logBytes 10 +:+ ":" +:+ show_at logBytes 11 |}.

(** ** Session state and the host environment *)

(** What the driver can throw or reject with. *)
Inductive exn : Type :=
| Error (message : string)
| ReferenceError (identifier : string)
| TypeError (message : string)
| WriteError (attempt : nat).

Record Config : Type := mkConfig {
  PAIRING_PASSWORD : option string;
  ADMIN_PHONE : value;
  ADMIN_PASSWORD : option string;
  BATTERY_MIN_MV : option Z;
  BATTERY_MAX_MV : option Z
}.

Record Device : Type := mkDevice {
  device_name : string;
  gatt_connected : bool
}.

Record Characteristic : Type := mkCharacteristic {
  uuid : string
}.

(** The closure stored in [pendingBatteryResolve]: it clears the timer
    [timeout] and resolves the promise of the call that made it. *)
Record BatteryResolver : Type := mkBatteryResolver {
  br_timeout : nat;
  br_promise : nat
}.

(** An entry [{ resolve }] of the map of pending passwords. *)
Record Handler : Type := mkHandler {
  resolve : option nat
}.

(** The module's variables. [pendingCreateUserPassword] is a [Map], in
    insertion order; [latestPasswords] is an object keyed by [String(userId)]. *)
Record Session : Type := mkSession {
  CONFIG : Config;
  bluetoothDevice : option Device;
  writeCharacteristic : option Characteristic;
  notifyCharacteristic : option Characteristic;
  randomCode : option Z;
  userDataBuffer : list Z;
  isAuthenticated : bool;
  pendingBatteryResolve : option BatteryResolver;
  pendingCreateUserPassword : list (value * Handler);
  latestPasswords : gmap string string
}.

(** [let btDebug = true], never assigned again. *)
Definition btDebug : bool := true.

(** Percentage in tenths of a percent; [None] is [NaN]. *)
Record BatteryStatus : Type := mkBatteryStatus {
  voltage : Z;
  voltageString : string;
  percentage : option Z;
  battery_raw : list Z
}.

Inductive PromiseValue : Type :=
| BatteryValue (b : BatteryStatus)
| PasswordValue (p : string).

Inductive PromiseState : Type :=
| Pending
| Fulfilled (v : PromiseValue)
| Rejected (e : exn).

(** The callback of the one [setTimeout] that is not a plain delay. *)
Inductive TimerAction : Type :=
| BatteryTimeout (promise : nat).

Record Timer : Type := mkTimer {
  delay : Z;
  action : TimerAction;
  active : bool
}.

Inductive Event : Type :=
| Notification (response : list Z)
| TimerFired (timer : nat).

(** Arguments of a console call, kept unrendered; [Message e] is
    [e.message]. *)
Inductive LogData : Type :=
| NoData
| Bytes (l : list Z)
| Numbers (l : list number)
| Users (l : list User)
| Entry (e : LogEntry)
| Thrown (e : exn)
| Message (e : exn).

Inductive Effect : Type :=
| Wrote (packet : list Z)
| Slept (ms : Z)
| Disconnected
| Console (text : string) (data : LogData)
| Uncaught (e : exn).

(** The host: [link n] tells whether the transport accepts the [n]-th
    GATT write; [inbox] holds the events that arrive at each later
    suspension point ([await]) of a running operation. *)
Record Host : Type := mkHost {
  link : nat -> bool;
  attempts : nat;
  promises : list PromiseState;
  timers : list Timer;
  trace : list Effect;
  inbox : list (list Event)
}.

Record World : Type := mkWorld {
  session : Session;
  host : Host
}.

(** *** Field updates *)

Definition set_bluetoothDevice (v : option Device) (s : Session) : Session :=
  mkSession (CONFIG s) v (writeCharacteristic s) (notifyCharacteristic s)
    (randomCode s) (userDataBuffer s) (isAuthenticated s)
    (pendingBatteryResolve s) (pendingCreateUserPassword s) (latestPasswords s).

Definition set_writeCharacteristic (v : option Characteristic) (s : Session) : Session :=
  mkSession (CONFIG s) (bluetoothDevice s) v (notifyCharacteristic s)
    (randomCode s) (userDataBuffer s) (isAuthenticated s)
    (pendingBatteryResolve s) (pendingCreateUserPassword s) (latestPasswords s).

Definition set_randomCode (v : option Z) (s : Session) : Session :=
  mkSession (CONFIG s) (bluetoothDevice s) (writeCharacteristic s)
    (notifyCharacteristic s) v (userDataBuffer s) (isAuthenticated s)
    (pendingBatteryResolve s) (pendingCreateUserPassword s) (latestPasswords s).

Definition set_userDataBuffer (v : list Z) (s : Session) : Session :=
  mkSession (CONFIG s) (bluetoothDevice s) (writeCharacteristic s)
    (notifyCharacteristic s) (randomCode s) v (isAuthenticated s)
    (pendingBatteryResolve s) (pendingCreateUserPassword s) (latestPasswords s).

Definition set_isAuthenticated (v : bool) (s : Session) : Session :=
  mkSession (CONFIG s) (bluetoothDevice s) (writeCharacteristic s)
    (notifyCharacteristic s) (randomCode s) (userDataBuffer s) v
    (pendingBatteryResolve s) (pendingCreateUserPassword s) (latestPasswords s).

Definition set_pendingBatteryResolve (v : option BatteryResolver) (s : Session) : Session :=
  mkSession (CONFIG s) (bluetoothDevice s) (writeCharacteristic s)
    (notifyCharacteristic s) (randomCode s) (userDataBuffer s)
    (isAuthenticated s) v (pendingCreateUserPassword s) (latestPasswords s).

Definition set_pendingCreateUserPassword (v : list (value * Handler)) (s : Session) : Session :=
  mkSession (CONFIG s) (bluetoothDevice s) (writeCharacteristic s)
    (notifyCharacteristic s) (randomCode s) (userDataBuffer s)
    (isAuthenticated s) (pendingBatteryResolve s) v (latestPasswords s).

Definition set_latestPasswords (v : gmap string string) (s : Session) : Session :=
  mkSession (CONFIG s) (bluetoothDevice s) (writeCharacteristic s)
    (notifyCharacteristic s) (randomCode s) (userDataBuffer s)
    (isAuthenticated s) (pendingBatteryResolve s) (pendingCreateUserPassword s) v.

Definition set_attempts (v : nat) (h : Host) : Host :=
  mkHost (link h) v (promises h) (timers h) (trace h) (inbox h).

Definition set_promises (v : list PromiseState) (h : Host) : Host :=
  mkHost (link h) (attempts h) v (timers h) (trace h) (inbox h).

Definition set_timers (v : list Timer) (h : Host) : Host :=
  mkHost (link h) (attempts h) (promises h) v (trace h) (inbox h).

Definition set_trace (v : list Effect) (h : Host) : Host :=
  mkHost (link h) (attempts h) (promises h) (timers h) v (inbox h).

Definition set_inbox (v : list (list Event)) (h : Host) : Host :=
  mkHost (link h) (attempts h) (promises h) (timers h) (trace h) v.

(** ** The monad of driver code: state and exceptions *)

Inductive Outcome (A : Type) : Type :=
| Return (a : A)
| Throw (e : exn).
Arguments Return {A} a.
Arguments Throw {A} e.

Definition M (A : Type) : Type := World -> Outcome A * World.

Definition ret {A} (a : A) : M A := fun w => (Return a, w).

Definition bind {A B} (m : M A) (k : A -> M B) : M B := fun w =>
  match m w with
  | (Return a, w') => k a w'
  | (Throw e, w') => (Throw e, w')
  end.

Declare Scope js_scope.
Delimit Scope js_scope with js.
Bind Scope js_scope with M.
Notation "x <- m ;; k" := (bind m (fun x => k))
  (at level 100, m at next level, right associativity) : js_scope.
Notation "m ;; k" := (bind m (fun _ => k))
  (at level 100, right associativity) : js_scope.
Open Scope js_scope.

Definition throw {A} (e : exn) : M A := fun w => (Throw e, w).

(** [try { m } catch (e) { h e }]. *)
Definition try_catch {A} (m : M A) (h : exn -> M A) : M A := fun w =>
  match m w with
  | (Return a, w') => (Return a, w')
  | (Throw e, w') => h e w'
  end.

Definition gets {A} (f : Session -> A) : M A := fun w => (Return (f (session w)), w).

Definition getsH {A} (f : Host -> A) : M A := fun w => (Return (f (host w)), w).

Definition modify (f : Session -> Session) : M unit := fun w =>
  (Return tt, mkWorld (f (session w)) (host w)).

Definition modifyH (f : Host -> Host) : M unit := fun w =>
  (Return tt, mkWorld (session w) (f (host w))).

Definition emit (e : Effect) : M unit :=
  modifyH (fun h => set_trace (trace h ++ [e]) h).

Definition console (text : string) (data : LogData) : M unit :=
  emit (Console text data).

Definition when (b : bool) (m : M unit) : M unit := if b then m else ret tt.

(** *** Promises and timers *)

(** [new Promise(...)]: a fresh pending promise. *)
Definition newPromise : M nat :=
  ps <- getsH promises;;
  modifyH (set_promises (ps ++ [Pending]));;
  ret (length ps).

(** Settling a promise a second time does nothing. *)
Definition settle (p : nat) (st : PromiseState) : M unit :=
  ps <- getsH promises;;
  match ps !! p with
  | Some Pending => modifyH (set_promises (<[p := st]> ps))
  | _ => ret tt
  end.

Definition setTimeout (ms : Z) (a : TimerAction) : M nat :=
  ts <- getsH timers;;
  modifyH (set_timers (ts ++ [mkTimer ms a true]));;
  ret (length ts).

Definition clearTimeout (t : nat) : M unit :=
  ts <- getsH timers;;
  match ts !! t with
  | Some tm => modifyH (set_timers (<[t := mkTimer (delay tm) (action tm) false]> ts))
  | None => ret tt
  end.

(** *** The parser of user records as it runs *)

(** [parseDateTime(bytes)]: an invalid field throws, and the [catch]
    prints the message of the error before it returns the marker string. *)
Definition parseDateTimeM (bytes : list Z) : M string :=
  try_catch
    (let year := bcd_at bytes 0 + 2000 in
     let month := bcd_at bytes 1 in
     let day := bcd_at bytes 2 in
     let hour := bcd_at bytes 3 in
     let minute := bcd_at bytes 4 in
     (if (month <? 1) || (12 <? month) then throw (Error "Invalid month") else ret tt);;
     (if (day <? 1) || (31 <? day) then throw (Error "Invalid day") else ret tt);;
     (if 23 <? hour then throw (Error "Invalid hour") else ret tt);;
     (if 59 <? minute then throw (Error "Invalid minute") else ret tt);;
     ret (Z_toString 10 year +:+ "-" +:+ pad2 month +:+ "-" +:+ pad2 day
          +:+ " " +:+ pad2 hour +:+ ":" +:+ pad2 minute))
    (fun e =>
       console "Datetime parse error:" (Message e);;
       ret ("Invalid date/time (" +:+ String.concat ":" (map (Z_toString 16) bytes) +:+ ")")).

(** The body of the loop of [parseUserData]: the fields are evaluated
    in the order of the object literal. *)
Definition parseRecordM (chunk : list Z) : M User :=
  let checksum := default 0 (chunk !! 23%nat) in
  let calculated := Z.land (wrap32 (reduce_addZ (slice 0 23 chunk))) 0xFF in
  from <- parseDateTimeM (slice 13 18 chunk);;
  to <- parseDateTimeM (slice 18 23 chunk);;
  ret {| valid := checksum =? calculated;
         type := getType (default 0 (chunk !! 0%nat));
         userId := parseUserId (map Num (slice 1 7 chunk));
         password := parsePassword (slice 7 13 chunk);
         validFrom := from;
         validTo := to;
         raw := chunk |}.

Fixpoint parseUserDataM_from (fuel i : nat) (dataBuffer : list Z) : M (list User) :=
  match fuel with
  | O => ret []
  | S fuel' =>
      if (i <? length dataBuffer)%nat then
        let chunk := slice i (i + 24) dataBuffer in
        if (length chunk <? 24)%nat then ret []
        else
          user <- parseRecordM chunk;;
          users <- parseUserDataM_from fuel' (i + 24) dataBuffer;;
          ret (user :: users)
      else ret []
  end.

(** [parseUserData(dataBuffer)] as the handler calls it. *)
Definition parseUserDataM (dataBuffer : list Z) : M (list User) :=
  parseUserDataM_from (length dataBuffer) 0 dataBuffer.

(** *** The transport *)

(** [writeCharacteristic.writeValue(packet)] up to the point where the
    platform has taken the packet: a [TypeError] on a missing
    characteristic, else the rejection the returned promise will
    settle with, if any. *)
Definition startWrite (packet : list Z) : M (option exn) :=
  wc <- gets writeCharacteristic;;
  match wc with
  | None => throw (TypeError "Cannot read properties of undefined (reading 'writeValue')")
  | Some _ =>
      n <- getsH attempts;;
      accept <- getsH link;;
      modifyH (set_attempts (S n));;
      if accept n then emit (Wrote packet);; ret None
      else ret (Some (WriteError n))
  end.

(** ** Notifications *)

(** [x === b] for an array element [x] that may be [undefined]. *)
Definition same (x : option Z) (b : Z) : bool :=
  match x with
  | Some v => v =? b
  | None => false
  end.

(** A number of the configuration or a voltage as a double. *)
Definition double_of_Z (z : Z) : spec_float := binary_normalize 53 1024 z 0 false.

(** [Math.max(a, b)] and [Math.min(a, b)]: [NaN] when either is. *)
Definition Math_max (a b : spec_float) : spec_float :=
  match SFcompare a b with
  | Some Lt => b
  | Some _ => a
  | None => S754_nan
  end.

Definition Math_min (a b : spec_float) : spec_float :=
  match SFcompare a b with
  | Some Gt => b
  | Some _ => a
  | None => S754_nan
  end.

(** [parseFloat(x.toFixed(1))] for [x >= 0], as the number of tenths:
    the integer [n] with [n / 10] nearest to the exact value of the
    double, the larger one on a tie; [None] is [NaN]. *)
Definition toFixed1 (x : spec_float) : option Z :=
  match x with
  | S754_zero _ => Some 0
  | S754_finite _ m e =>
      Some (if 0 <=? e then 10 * Z.pos m * 2 ^ e
            else (20 * Z.pos m + 2 ^ (- e)) / (2 * 2 ^ (- e)))
  | _ => None
  end.

(** [calculateBatteryPercentage(mv)], in tenths of a percent. *)
Definition calculateBatteryPercentage (cfg : Config) (mv : Z) : option Z :=
  let or_default o d := match o with Some v => if v =? 0 then d else v | None => d end in
  let min := double_of_Z (or_default (BATTERY_MIN_MV cfg) 3962) in
  let max := double_of_Z (or_default (BATTERY_MAX_MV cfg) 6000) in
  let perc :=
    SFmul 53 1024
      (SFdiv 53 1024 (SFsub 53 1024 (double_of_Z mv) min) (SFsub 53 1024 max min))
      (double_of_Z 100) in
  toFixed1 (Math_min (double_of_Z 100) (Math_max (double_of_Z 0) perc)).

(** Calling the closure held in [pendingBatteryResolve]. *)
Definition callBatteryResolve (r : BatteryResolver) (result : BatteryStatus) : M unit :=
  clearTimeout (br_timeout r);;
  settle (br_promise r) (Fulfilled (BatteryValue result)).

#[global] Instance number_eq_dec : EqDecision number.
Proof. solve_decision. Defined.

#[global] Instance value_eq_dec : EqDecision value.
Proof. solve_decision. Defined.

(** The module declares the map of pending passwords under the name
    [pendingCreateUserPassword]; reading an identifier that no
    declaration binds throws a [ReferenceError]. *)
Definition pendingMap (identifier : string) : M (list (value * Handler)) :=
  if decide (identifier = "pendingCreateUserPassword")
  then gets pendingCreateUserPassword
  else throw (ReferenceError identifier).

(** [map.set(key, h)]: an existing key keeps its place. *)
Fixpoint map_set (key : value) (h : Handler) (m : list (value * Handler))
  : list (value * Handler) :=
  match m with
  | [] => [(key, h)]
  | (k, h') :: rest =>
      if decide (k = key) then (k, h) :: rest else (k, h') :: map_set key h rest
  end.

(** [map.delete(key)]. *)
Definition map_delete (key : value) (m : list (value * Handler))
  : list (value * Handler) :=
  filter (fun e => e.1 <> key) m.

(** [!latestPasswords[userId]]. *)
Definition no_password (latest : gmap string string) (userId : value) : bool :=
  match latest !! String_of userId with
  | Some p => String.eqb p EmptyString
  | None => true
  end.

(** The [for ... of] loop of the 0x68 case over the entries of the map. *)
Fixpoint passwordLoop (identifier : string) (password : string) (response : list Z)
    (entries : list (value * Handler)) : M unit :=
  match entries with
  | [] => ret tt
  | (userId, handler) :: rest =>
      latest <- gets latestPasswords;;
      if no_password latest userId then
        modify (set_latestPasswords (<[String_of userId := password]> latest));;
        match resolve handler with
        | Some p => settle p (Fulfilled (PasswordValue password))
        | None => throw (TypeError "handler.resolve is not a function")
        end;;
        m <- pendingMap identifier;;
        modify (set_pendingCreateUserPassword (map_delete userId m));;
        when btDebug
          (console ("Created password for user " +:+ String_of userId +:+ ": " +:+ password)
                   NoData)
      else
        console "Duplicate or unexpected password response:" (Bytes response);;
        passwordLoop identifier password response rest
  end.

(** [authenticateAdmin()]. *)
Definition authenticateAdmin : M unit :=
  cfg <- gets CONFIG;;
  let phone := parsePhoneNumber (ADMIN_PHONE cfg) in
  match ADMIN_PASSWORD cfg with
  | None => throw (TypeError "undefined is not iterable")
  | Some pw =>
      let adminData :=
        Num 0x01 :: phone ++ map (fun c => Num (char_code c)) (list_ascii_of_string pw) in
      rc <- gets randomCode;;
      let key := match rc with Some k => Num k | None => NaN end in
      let encryptedData := encryptData adminData key in
      let authPacket := createPacket 0x21 encryptedData in
      when btDebug
        (console "Sending auth-packet:" (Bytes authPacket);;
         console "Encrypted data:" (Numbers encryptedData));;
      _ <- startWrite authPacket;;
      ret tt
  end.

(** [handleNotifications(event)], on the bytes of the event's value. *)
Definition handleNotifications (response : list Z) : M unit :=
  let cmd := response !! 1%nat in
  let status := response !! 2%nat in
  let dataLength := response !! 3%nat in
  when btDebug (console "Received response:" (Bytes response));;
  if same cmd 0x0F then
    if same status 0x10 then
      console "Pairing successfull! Ask for a random code (CMD=0x20)..." NoData;;
      let randomCodePacket := createPacket 0x20 [] in
      when btDebug (console "Sending random-code-packet:" (Bytes randomCodePacket));;
      _ <- startWrite randomCodePacket;;
      ret tt
    else ret tt
  else if same cmd 0x20 then
    if same status 0x10 then
      modify (set_randomCode (last response));;
      when btDebug (console "Random code:" (Bytes (option_list (last response))));;
      authenticateAdmin
    else ret tt
  else if same cmd 0x21 then
    modify (set_isAuthenticated (same status 0x10));;
    when btDebug
      (if same status 0x10 then console "Authentication status: Authenticated" NoData
       else match status with
            | Some st =>
                console ("Authentication status: Error: 0x" +:+ Z_toString 16 st) NoData
            | None =>
                throw (TypeError "Cannot read properties of undefined (reading 'toString')")
            end)
  else if same cmd 0x60 then
    if same status 0x10 then
      let byte_at i := wrap32 (default 0 (response !! i)) in
      let voltage := Z.lor (wrap32 (Z.shiftl (byte_at 8%nat) 8)) (byte_at 9%nat) in
      pending <- gets pendingBatteryResolve;;
      match pending with
      | Some r =>
          cfg <- gets CONFIG;;
          callBatteryResolve r
            {| voltage := voltage;
               voltageString := Z_toString 10 voltage +:+ "mV";
               percentage := calculateBatteryPercentage cfg voltage;
               battery_raw := response |};;
          modify (set_pendingBatteryResolve None)
      | None => ret tt
      end
    else ret tt
  else if same cmd 0x6C then
    if same status 0x24 then
      let payload := payloadOf response dataLength in
      modify (fun s => set_userDataBuffer (userDataBuffer s ++ payload) s);;
      when btDebug
        (console "Received packet/part:" (Bytes [Z.of_nat (length payload)]))
    else if same status 0x10 then
      let payload := payloadOf response dataLength in
      modify (fun s => set_userDataBuffer (userDataBuffer s ++ payload) s);;
      when btDebug
        (console "Last packet/part received:" (Bytes [Z.of_nat (length payload)]));;
      buffer <- gets userDataBuffer;;
      users <- parseUserDataM buffer;;
      when btDebug (console "All users:" (Users users));;
      modify (set_userDataBuffer [])
    else ret tt
  else if same cmd 0x68 then
    if same status 0x10 then
      let password := fromCharCode (slice 6 12 response) in
      entries <- pendingMap "pendingCreateUserPasswords";;
      passwordLoop "pendingCreateUserPasswords" password response entries
    else ret tt
  else if same cmd 0x6B then
    if same status 0x10 then console "All users deleted." NoData
    else match status with
         | Some st =>
             console ("Error during deleting: status=0x" +:+ Z_toString 16 st) NoData
         | None =>
             throw (TypeError "Cannot read properties of undefined (reading 'toString')")
         end
  else if same cmd 0x72 then
    if same status 0x10 then
      when btDebug (console "Logs received:" (Entry (parseLogData response)))
    else ret tt
  else ret tt.

(** ** Timers and the event loop *)

(** The callback given to [setTimeout] in [getBatteryLevel]. *)
Definition runTimer (a : TimerAction) : M unit :=
  match a with
  | BatteryTimeout p =>
      modify (set_pendingBatteryResolve None);;
      settle p (Rejected (Error "Timeout after 5 seconds"))
  end.

(** A timer that is still active fires once. *)
Definition fireTimer (t : nat) : M unit :=
  ts <- getsH timers;;
  match ts !! t with
  | Some tm =>
      if active tm then clearTimeout t;; runTimer (action tm) else ret tt
  | None => ret tt
  end.

Definition dispatch (e : Event) : M unit :=
  match e with
  | Notification response => handleNotifications response
  | TimerFired t => fireTimer t
  end.

(** An exception of a listener or timer callback is reported by the
    host; it does not reach the operation that is suspended. *)
Definition deliver (e : Event) : M unit :=
  try_catch (dispatch e) (fun x => emit (Uncaught x)).

Fixpoint deliverAll (es : list Event) : M unit :=
  match es with
  | [] => ret tt
  | e :: rest => deliver e;; deliverAll rest
  end.

(** A suspension point: the events that arrive meanwhile are handled
    before the operation resumes. *)
Definition yield : M unit :=
  box <- getsH inbox;;
  match box with
  | [] => ret tt
  | batch :: rest => modifyH (set_inbox rest);; deliverAll batch
  end.

(** [await new Promise(resolve => setTimeout(resolve, ms))]. *)
Definition sleep (ms : Z) : M unit :=
  emit (Slept ms);; yield.

(** [await writeCharacteristic.writeValue(packet)]. *)
Definition writeValue (packet : list Z) : M unit :=
  r <- startWrite packet;;
  yield;;
  match r with
  | None => ret tt
  | Some e => throw e
  end.

(** ** Operations *)

(** The [for] loop of [writeWithRetry], from attempt [i] with [todo]
    iterations left. *)
Fixpoint writeWithRetry_from (todo i : nat) (packet : list Z) (retries : nat) : M unit :=
  match todo with
  | O => ret tt
  | S todo' =>
      try_catch
        (when btDebug (console "Writing packet:" (Bytes packet));;
         writeValue packet)
        (fun e =>
           console ("Write error (attempt " +:+ Z_toString 10 (Z.of_nat i + 1) +:+ "):")
                   (Thrown e);;
           if (Z.of_nat i =? Z.of_nat retries - 1) then throw e
           else sleep 100;; writeWithRetry_from todo' (S i) packet retries)
  end.

(** [writeWithRetry(packet, retries = 3)]. *)
Definition writeWithRetry (packet : list Z) (retries : nat) : M unit :=
  writeWithRetry_from retries 0 packet retries.

(** [pairAndAuthenticate()]. *)
Definition pairAndAuthenticate : M unit :=
  cfg <- gets CONFIG;;
  match PAIRING_PASSWORD cfg with
  | Some (String c r) =>
      let pairingData := map (fun c => Num (char_code c)) (list_ascii_of_string (String c r)) in
      let pairingPacket := createPacket 0x0F pairingData in
      when btDebug (console "Sending pairing-packet:" (Bytes pairingPacket));;
      writeWithRetry pairingPacket 3
  | _ => throw (Error "CONFIG.PAIRING_PASSWORD is missing or empty!")
  end.

(** [getUsers()] and [getLogs()]. *)
Definition getUsers : M unit :=
  when btDebug (console "Requesting Userdata..." NoData);;
  writeValue (createPacket 0x6C []).

Definition getLogs : M unit :=
  when btDebug (console "Requesting Logs..." NoData);;
  writeValue (createPacket 0x72 []).

(** [getBatteryLevel()]: the promise it returns. *)
Definition getBatteryLevel : M nat :=
  when btDebug (console "[Requesting Battery Status..." NoData);;
  p <- newPromise;;
  pending <- gets pendingBatteryResolve;;
  match pending with
  | Some _ =>
      settle p (Rejected (Error "There is already a battery request running."));;
      ret p
  | None =>
      timeout <- setTimeout 5000 (BatteryTimeout p);;
      modify (set_pendingBatteryResolve (Some (mkBatteryResolver timeout p)));;
      try_catch
        (writeWithRetry (createPacket 0x60 []) 3)
        (fun error =>
           modify (set_pendingBatteryResolve None);;
           settle p (Rejected error));;
      ret p
  end.

(** [deleteAllUsers()]. *)
Definition deleteAllUsers : M unit :=
  auth <- gets isAuthenticated;;
  if negb auth then throw (Error "Please authenticate first.")
  else
    when btDebug (console "Deleting all users..." NoData);;
    writeWithRetry (createPacket 0x6B []) 3.

(** [systemExit()]. *)
Definition systemExit : M unit :=
  try_catch
    (writeWithRetry (createPacket 0x6F []) 3;;
     sleep 500;;
     dev <- gets bluetoothDevice;;
     match dev with
     | Some d =>
         if gatt_connected d then
           modify (set_bluetoothDevice (Some (mkDevice (device_name d) false)));;
           emit Disconnected;;
           yield
         else ret tt
     | None => ret tt
     end;;
     modify (set_bluetoothDevice None);;
     modify (set_writeCharacteristic None);;
     modify (set_isAuthenticated false);;
     when btDebug (console "Successfully logged and disconnected Bluetooth." NoData))
    (fun error =>
       console "Error during disconnect:" (Thrown error);;
       throw error).

Record Options : Type := mkOptions {
  once : bool
}.

(** [createUser(userId, startDate, endDate, options = {})]: the promise
    of the password. *)
Definition createUser (userId : value) (startDate endDate : Date) (options : Options)
  : M nat :=
  auth <- gets isAuthenticated;;
  if negb auth then throw (Error "Please authenticate first.")
  else
    let type := if once options then 0x03 else 0x02 in
    let startBCD := dateToBcd startDate in
    let endBCD := dateToBcd endDate in
    let userData :=
      Num type :: parsePhoneNumber userId ++ map Num startBCD ++ map Num endBCD in
    m <- pendingMap "pendingCreateUserPasswords";;
    modify (set_pendingCreateUserPassword (map_set userId (mkHandler None) m));;
    pwdPromise <- newPromise;;
    m' <- pendingMap "pendingCreateUserPasswords";;
    modify (set_pendingCreateUserPassword (map_set userId (mkHandler (Some pwdPromise)) m'));;
    writeWithRetry (createPacket 0x68 userData) 3;;
    ret pwdPromise.

(** ** Specification predicates *)

(** What a receiver reads back from [frame]: [cmd] at byte 1, status
    0x00 at byte 2, the length of [data] at byte 3, [data] from byte 6
    on, and at byte 5 the low byte of the sum of the five header bytes
    and the data bytes. *)
Definition decodes_to (frame : list Z) (cmd : Z) (data : list Z) : Prop :=
  h_cmd (readHeader frame) = Some cmd
  /\ h_status (readHeader frame) = Some 0x00
  /\ h_dataLength (readHeader frame) = Some (Z.of_nat (length data))
  /\ drop 6 frame = data
  /\ frame !! 5%nat = Some ((reduce_addZ (take 5 frame) + reduce_addZ data) mod 256).

(** The checksum equation of a 24-byte user record: its last byte is
    the low byte of the sum of the 23 bytes before it. *)
Definition checksum_holds (record : list Z) : Prop :=
  record !! 23%nat = Some (reduce_addZ (take 23 record) mod 256).

(** The record read from a 24-byte chunk, field by field: the type
    from byte 0, the id from bytes 1..6, the password from bytes 7..12,
    the two dates from bytes 13..17 and 18..22, and [valid] telling
    whether byte 23 is the low byte of the sum of the 23 bytes before. *)
Definition record_of (chunk : list Z) (u : User) : Prop :=
  valid u = (default 0 (chunk !! 23%nat)
             =? Z.land (wrap32 (reduce_addZ (take 23 chunk))) 0xFF)
  /\ type u = getType (default 0 (chunk !! 0%nat))
  /\ userId u = parseUserId (map Num (take 6 (drop 1 chunk)))
  /\ password u = parsePassword (take 6 (drop 7 chunk))
  /\ validFrom u = parseDateTime (take 5 (drop 13 chunk))
  /\ validTo u = parseDateTime (take 5 (drop 18 chunk))
  /\ raw u = chunk.

(** [logged tr w]: the world [w] after the effects [tr]. *)
Definition logged (tr : list Effect) (w : World) : World :=
  mkWorld (session w) (set_trace (trace (host w) ++ tr) (host w)).

(** Lines printed by the [catch] of [parseDateTime]. *)
Definition date_errors (tr : list Effect) : Prop :=
  Forall (fun e => exists x, e = Console "Datetime parse error:" (Message x)) tr.

(** The lists of records the handler has printed, in order. *)
Fixpoint user_lists (tr : list Effect) : list (list User) :=
  match tr with
  | [] => []
  | Console _ (Users users) :: rest => users :: user_lists rest
  | _ :: rest => user_lists rest
  end.

(** Strings of decimal digits, and strings of zeros. *)
Definition is_digit (c : ascii) : bool :=
  (48 <=? char_code c) && (char_code c <=? 57).

Fixpoint all_digits (s : string) : bool :=
  match s with
  | String c r => is_digit c && all_digits r
  | EmptyString => true
  end.

Fixpoint all_zeros (s : string) : bool :=
  match s with
  | String c r => (char_code c =? 48) && all_zeros r
  | EmptyString => true
  end.

(** ** Sample worlds *)

(** The configuration of the README. *)
Definition readme_config : Config :=
  {| PAIRING_PASSWORD := Some "9155";
     ADMIN_PHONE := Str "15814015470";
     ADMIN_PASSWORD := Some "000000";
     BATTERY_MIN_MV := None;
     BATTERY_MAX_MV := None |}.

(** The module's variables when it is loaded. *)
Definition initial_session : Session :=
  {| CONFIG := mkConfig None Undefined None None None;
     bluetoothDevice := None;
     writeCharacteristic := None;
     notifyCharacteristic := None;
     randomCode := None;
     userDataBuffer := [];
     isAuthenticated := false;
     pendingBatteryResolve := None;
     pendingCreateUserPassword := [];
     latestPasswords := ∅ |}.

(** After [connectToDevice()] and [setConfig(config)]. *)
Definition connected_session : Session :=
  {| CONFIG := readme_config;
     bluetoothDevice := Some (mkDevice "SN:0000000799" true);
     writeCharacteristic := Some (mkCharacteristic "0000fff2-0000-1000-8000-00805f9b34fb");
     notifyCharacteristic := Some (mkCharacteristic "0000fff1-0000-1000-8000-00805f9b34fb");
     randomCode := None;
     userDataBuffer := [];
     isAuthenticated := false;
     pendingBatteryResolve := None;
     pendingCreateUserPassword := [];
     latestPasswords := ∅ |}.

(** After the handshake, with random code 0x7A. *)
Definition authenticated_session : Session :=
  set_isAuthenticated true (set_randomCode (Some 0x7A) connected_session).

(** A host that has seen nothing yet, over a given transport. *)
Definition fresh_host (accept : nat -> bool) : Host :=
  {| link := accept; attempts := 0; promises := []; timers := [];
     trace := []; inbox := [] |}.

Definition reliable : nat -> bool := fun _ => true.

Definition broken : nat -> bool := fun _ => false.

(** An inbound frame as the lock sends it, for a payload of at most
    255 bytes. *)
Definition notification (cmd status : Z) (payload : list Z) : list Z :=
  let header := [0xF5; cmd; status; Z.of_nat (length payload) mod 256; 0x5F] in
  header ++ [(reduce_addZ header + reduce_addZ payload) mod 256] ++ payload.

Definition ascii_bytes (s : string) : list Z := map char_code (list_ascii_of_string s).

Definition some_date : Date := mkDate 2025 0 15 12 30.

(** User records as the lock lists them: 23 bytes and their checksum.
    The second one has month 0x13 in its end date. *)
Definition with_checksum (body : list Z) : list Z :=
  body ++ [reduce_addZ body mod 256].

Definition record_1000 : list Z :=
  with_checksum
    ([0x02; 0x00; 0x00; 0x00; 0x00; 0x10; 0x00] ++ ascii_bytes "123456"
     ++ [0x25; 0x01; 0x15; 0x12; 0x30] ++ [0x25; 0x02; 0x15; 0x12; 0x30]).

Definition record_1001 : list Z :=
  with_checksum
    ([0x03; 0x00; 0x00; 0x00; 0x00; 0x10; 0x01] ++ ascii_bytes "654321"
     ++ [0x25; 0x01; 0x15; 0x12; 0x30] ++ [0x25; 0x13; 0x15; 0x12; 0x30]).

Definition record_1002 : list Z :=
  with_checksum
    ([0x82; 0x00; 0x00; 0x00; 0x00; 0x10; 0x02] ++ ascii_bytes "000000"
     ++ [0x24; 0x01; 0x01; 0x00; 0x00] ++ [0x24; 0x12; 0x31; 0x23; 0x59]).

(** Whether the transport accepts one of the next [todo] writes. *)
Fixpoint accepted_from (accept : nat -> bool) (n todo : nat) : bool :=
  match todo with
  | O => false
  | S todo' => accept n || accepted_from accept (S n) todo'
  end.

Definition accepted_within (todo : nat) (h : Host) : bool :=
  accepted_from (link h) (attempts h) todo.

(** [quiet w w']: from [w] to [w'] only the transport counter and the
    trace moved. *)
Definition quiet (w w' : World) : Prop :=
  session w' = session w
  /\ link (host w') = link (host w)
  /\ promises (host w') = promises (host w)
  /\ timers (host w') = timers (host w)
  /\ inbox (host w') = inbox (host w)
  /\ exists tr, trace (host w') = trace (host w) ++ tr.

(** Two user-creation requests registered under the declared name of
    the map, with their pending promises 0 and 1. *)
Definition two_pending : World :=
  mkWorld
    (set_pendingCreateUserPassword
       [ (Number (Num 1000), mkHandler (Some 0%nat));
         (Number (Num 1001), mkHandler (Some 1%nat)) ]
       authenticated_session)
    (set_promises [Pending; Pending] (fresh_host reliable)).

(** What a battery request depends on: the pending slot, the promises
    and the timers. *)
Definition battery_frame (w w' : World) : Prop :=
  pendingBatteryResolve (session w') = pendingBatteryResolve (session w)
  /\ promises (host w') = promises (host w)
  /\ timers (host w') = timers (host w).

Definition keeps {A} (m : M A) : Prop := forall w, battery_frame w (m w).2.


(** ** Further specification predicates *)

(** A byte both of whose nibbles are decimal digits. *)
Definition is_bcd (b : Z) : bool := (b / 16 <=? 9) && (b mod 16 <=? 9).

(** A string without the character of code 0. *)
Fixpoint nul_free (s : string) : bool :=
  match s with
  | String c r => negb (char_code c =? 0) && nul_free r
  | EmptyString => true
  end.

(** The packets the transport took, in order, among the effects of a
    trace. *)
Fixpoint wrotes (tr : list Effect) : list (list Z) :=
  match tr with
  | [] => []
  | Wrote packet :: rest => packet :: wrotes rest
  | _ :: rest => wrotes rest
  end.

(** The delays of a trace, in order. *)
Fixpoint sleeps (tr : list Effect) : list Z :=
  match tr with
  | [] => []
  | Slept ms :: rest => ms :: sleeps rest
  | _ :: rest => sleeps rest
  end.

(** What a notification with command byte [cmd] may change: the
    variables below are compared before and after. *)
Definition handler_frame (cmd : option Z) (w w' : World) : Prop :=
  CONFIG (session w') = CONFIG (session w)
  /\ bluetoothDevice (session w') = bluetoothDevice (session w)
  /\ writeCharacteristic (session w') = writeCharacteristic (session w)
  /\ notifyCharacteristic (session w') = notifyCharacteristic (session w)
  /\ pendingCreateUserPassword (session w') = pendingCreateUserPassword (session w)
  /\ latestPasswords (session w') = latestPasswords (session w)
  /\ link (host w') = link (host w)
  /\ inbox (host w') = inbox (host w)
  /\ (cmd <> Some 0x21 -> isAuthenticated (session w') = isAuthenticated (session w))
  /\ (cmd <> Some 0x20 -> randomCode (session w') = randomCode (session w))
  /\ (cmd <> Some 0x6C -> userDataBuffer (session w') = userDataBuffer (session w))
  /\ (cmd <> Some 0x60 ->
      pendingBatteryResolve (session w') = pendingBatteryResolve (session w)
      /\ promises (host w') = promises (host w)
      /\ timers (host w') = timers (host w))
  /\ (cmd <> Some 0x0F -> cmd <> Some 0x20 ->
      attempts (host w') = attempts (host w)
      /\ wrotes (trace (host w')) = wrotes (trace (host w))).

(** [holds R m]: running [m] relates the world before to the world
    after by [R], whether [m] returns or throws. *)
Definition holds {A} (R : World -> World -> Prop) (m : M A) : Prop :=
  forall w, R w (m w).2.

(** A frame the handler only logs. *)
Definition ignored (response : list Z) : bool :=
  let cmd := response !! 1%nat in
  let status := response !! 2%nat in
  if same cmd 0x21 || same cmd 0x6B then false
  else if same cmd 0x6C then negb (same status 0x24) && negb (same status 0x10)
  else if same cmd 0x0F || same cmd 0x20 || same cmd 0x60 || same cmd 0x68 || same cmd 0x72
       then negb (same status 0x10)
  else true.

(** A host to which nothing but ignored frames will arrive. *)
Definition harmless (e : Event) : bool :=
  match e with
  | Notification response => ignored response
  | TimerFired _ => false
  end.

Definition calm (h : Host) : bool := forallb (forallb harmless) (inbox h).

(** * Properties *)

(** ** Arithmetic of the conversions *)

Section Conversions.

Lemma wrap32_small (z : Z) : - 2 ^ 31 <= z < 2 ^ 31 -> wrap32 z = z.
Proof.
  intros Hz. unfold wrap32.
  rewrite Z.mod_small by lia. lia.
Qed.

Lemma wrap32_byte (b : Z) : is_byte b -> wrap32 b = b.
Proof. intros Hb. apply wrap32_small. unfold is_byte in Hb. lia. Qed.

(** The low byte survives the 32-bit wrap. *)
Lemma land_wrap32_low_byte (z : Z) : Z.land (wrap32 z) 0xFF = z mod 256.
Proof.
  change 0xFF with (Z.ones 8). rewrite Z.land_ones by lia.
  unfold wrap32.
  rewrite (Z.mod_eq (z + 2 ^ 31) (2 ^ 32)) by lia.
  set (q := (z + 2 ^ 31) / 2 ^ 32).
  replace (z + 2 ^ 31 - 2 ^ 32 * q - 2 ^ 31) with (z + (- (2 ^ 24) * q) * 2 ^ 8) by lia.
  apply Z_mod_plus_full.
Qed.

Lemma byte_mod (b : Z) : is_byte b -> b mod 256 = b.
Proof. intros Hb. apply Z.mod_small. unfold is_byte in Hb. lia. Qed.

Lemma lxor_byte (a b : Z) : is_byte a -> is_byte b -> is_byte (Z.lxor a b).
Proof.
  unfold is_byte. intros Ha Hb.
  assert (Hnn : 0 <= Z.lxor a b) by (apply Z.lxor_nonneg; lia).
  split; [exact Hnn|].
  destruct (Z.eq_dec (Z.lxor a b) 0) as [->|Hne]; [lia|].
  assert (Hlog : Z.log2 (Z.lxor a b) < 8).
  { eapply Z.le_lt_trans; [apply Z.log2_lxor; lia|].
    apply Z.max_lub_lt.
    - destruct (Z.eq_dec a 0) as [->|]; [reflexivity|].
      apply Z.log2_lt_pow2; lia.
    - destruct (Z.eq_dec b 0) as [->|]; [reflexivity|].
      apply Z.log2_lt_pow2; lia. }
  apply Z.log2_lt_pow2 in Hlog; lia.
Qed.

(** Checking a decidable property on every integer of a range. *)
Lemma forallb_range (f : Z -> bool) (lo : Z) (n : nat) :
  forallb f (map (fun i => lo + Z.of_nat i) (seq 0 n)) = true ->
  forall z, lo <= z < lo + Z.of_nat n -> f z = true.
Proof.
  intros Hall z Hz.
  rewrite forallb_forall in Hall. apply Hall.
  apply in_map_iff. exists (Z.to_nat (z - lo)). split; [lia|].
  apply in_seq. lia.
Qed.

Lemma reduce_addZ_from (l : list Z) (a : Z) : fold_left Z.add l a = a + reduce_addZ l.
Proof.
  unfold reduce_addZ. revert a.
  induction l as [|x l IH]; intros a; simpl; [lia|].
  rewrite (IH (a + x)), (IH (0 + x)). lia.
Qed.

Lemma reduce_addZ_cons (x : Z) (l : list Z) : reduce_addZ (x :: l) = x + reduce_addZ l.
Proof. unfold reduce_addZ at 1. simpl. apply reduce_addZ_from. Qed.

Lemma reduce_addZ_app (l1 l2 : list Z) :
  reduce_addZ (l1 ++ l2) = reduce_addZ l1 + reduce_addZ l2.
Proof.
  induction l1 as [|x l1 IH]; simpl.
  - unfold reduce_addZ at 2. simpl. lia.
  - rewrite !reduce_addZ_cons, IH. lia.
Qed.

Lemma reduce_add_from (l : list Z) (a : Z) :
  fold_left add (map Num l) (Num a) = Num (a + reduce_addZ l).
Proof.
  revert a. induction l as [|x l IH]; intros a; simpl.
  - unfold reduce_addZ. simpl. f_equal. lia.
  - rewrite IH, reduce_addZ_cons. f_equal. lia.
Qed.

(** On integers the sum of [reduce] is the integer sum. *)
Lemma reduce_add_Num (l : list Z) : reduce_add (map Num l) = Num (reduce_addZ l).
Proof. unfold reduce_add. rewrite reduce_add_from. reflexivity. Qed.

Lemma Uint8Array_bytes (l : list Z) : Forall is_byte l -> Uint8Array (map Num l) = l.
Proof.
  intros Hl. unfold Uint8Array. rewrite map_map.
  rewrite <- (map_id l) at 2. apply map_ext_Forall.
  eapply Forall_impl; [exact Hl|].
  intros b Hb. simpl. apply byte_mod, Hb.
Qed.

End Conversions.

(** ** Cipher *)

Lemma encrypt_byte (b k : Z) :
  is_byte b -> is_byte k ->
  Z.rem (Z.lxor (wrap32 b) (wrap32 k)) 256 = Z.lxor b k.
Proof.
  intros Hb Hk. rewrite !wrap32_byte by assumption.
  pose proof (lxor_byte b k Hb Hk) as Hx. unfold is_byte in Hx.
  apply Z.rem_small. lia.
Qed.

Lemma encryptData_bytes (l : list Z) (k : Z) :
  Forall is_byte l -> is_byte k ->
  encryptData (map Num l) (Num k) = map Num (map (fun b => Z.lxor b k) l).
Proof.
  intros Hl Hk. unfold encryptData. rewrite !map_map.
  apply map_ext_Forall. eapply Forall_impl; [exact Hl|].
  intros b Hb. simpl. f_equal. apply encrypt_byte; assumption.
Qed.

(** C8. Applying [encryptData] twice with the same key [k] in 0..255
    gives back the input: for a single byte [b], and element-wise for
    every list of bytes. *)
Theorem encryptData_twice :
  (forall b k : Z, is_byte b -> is_byte k ->
     encryptData (encryptData [Num b] (Num k)) (Num k) = [Num b])
  /\ (forall (data : list Z) (k : Z), Forall is_byte data -> is_byte k ->
     encryptData (encryptData (map Num data) (Num k)) (Num k) = map Num data).
Proof.
  assert (Hlist : forall (data : list Z) (k : Z), Forall is_byte data -> is_byte k ->
     encryptData (encryptData (map Num data) (Num k)) (Num k) = map Num data).
  { intros data k Hd Hk.
    rewrite encryptData_bytes by assumption.
    rewrite encryptData_bytes.
    - f_equal. rewrite map_map.
      rewrite <- (map_id data) at 2. apply map_ext. intros b.
      rewrite Z.lxor_assoc, Z.lxor_nilpotent, Z.lxor_0_r. reflexivity.
    - apply Forall_map. eapply Forall_impl; [exact Hd|].
      intros b Hb. simpl. apply lxor_byte; assumption.
    - assumption. }
  split; [|exact Hlist].
  intros b k Hb Hk. apply (Hlist [b] k); [|assumption].
  constructor; [assumption|constructor].
Qed.

Lemma encryptData_twice_witness :
  encryptData (encryptData [Num 0x01] (Num 0x7A)) (Num 0x7A) = [Num 0x01]
  /\ encryptData (encryptData (map Num [0x01; 0x58; 0x14; 0x30]) (Num 0x7A)) (Num 0x7A)
     = map Num [0x01; 0x58; 0x14; 0x30].
Proof.
  split.
  - apply (proj1 encryptData_twice); unfold is_byte; lia.
  - apply (proj2 encryptData_twice).
    + repeat constructor; unfold is_byte; lia.
    + unfold is_byte; lia.
Defined.

(** ** BCD codec *)

Lemma bcd_roundtrip_check :
  forallb (fun n => bcdToDec (decToBcd n) =? n)
          (map (fun i => 0 + Z.of_nat i) (seq 0 100)) = true.
Proof. vm_compute. reflexivity. Qed.

(** C9. [bcdToDec(decToBcd(n)) = n] for every [n] in 0..99, and
    [decToBcd] maps 0, 9, 23, 59 to 0x00, 0x09, 0x23, 0x59. *)
Theorem bcd_roundtrip :
  (forall n : Z, 0 <= n <= 99 -> bcdToDec (decToBcd n) = n)
  /\ decToBcd 0 = 0x00 /\ decToBcd 9 = 0x09
  /\ decToBcd 23 = 0x23 /\ decToBcd 59 = 0x59.
Proof.
  split; [|repeat split; reflexivity].
  intros n Hn.
  apply Z.eqb_eq.
  apply (forallb_range (fun n => bcdToDec (decToBcd n) =? n) 0 100 bcd_roundtrip_check).
  lia.
Qed.

Lemma bcd_roundtrip_witness : bcdToDec (decToBcd 59) = 59.
Proof. apply (proj1 bcd_roundtrip). lia. Defined.

(** ** Packet codec *)

Lemma createPacket_bytes (cmd : Z) (data : list Z) :
  is_byte cmd -> Forall is_byte data ->
  createPacket cmd (map Num data)
  = [0xF5; cmd; 0x00; Z.of_nat (length data) mod 256; 0x5F;
     (0xF5 + cmd + Z.of_nat (length data) + 0x5F + reduce_addZ data) mod 256] ++ data.
Proof.
  intros Hc Hd. unfold createPacket.
  rewrite reduce_add_Num, length_map.
  unfold reduce_add, Uint8Array. cbn [fold_left add ToInt32 app map ToUint8].
  rewrite land_wrap32_low_byte.
  fold (Uint8Array (map Num data)). rewrite Uint8Array_bytes by assumption.
  rewrite (byte_mod cmd) by assumption.
  rewrite Z.mod_mod by lia.
  change (245 mod 256) with 245. change (0 mod 256) with 0. change (95 mod 256) with 95.
  do 5 f_equal. f_equal. f_equal. lia.
Qed.

(** C1, as first stated, fails: byte 3 holds the length modulo 256, so
    a payload of 256 bytes reads back with length 0. *)
Lemma createPacket_length_wraps :
  ~ decodes_to (createPacket 0x0F (map Num (repeat 0x39 256))) 0x0F (repeat 0x39 256).
Proof.
  intros (_ & _ & Hlen & _).
  vm_compute in Hlen. discriminate Hlen.
Qed.

(** C1. For every command byte [cmd] and every list [data] of at most
    255 bytes, the frame [createPacket(cmd, data)] reads back as [cmd],
    status 0x00, length [len(data)] and payload [data], and its byte 5
    is the low byte of the sum of the five header bytes and the data. *)
Theorem createPacket_roundtrip (cmd : Z) (data : list Z) :
  is_byte cmd -> Forall is_byte data -> (length data <= 255)%nat ->
  decodes_to (createPacket cmd (map Num data)) cmd data.
Proof.
  intros Hc Hd Hlen.
  rewrite createPacket_bytes by assumption.
  rewrite (Z.mod_small (Z.of_nat (length data))) by lia.
  unfold decodes_to, readHeader. cbn [h_cmd h_status h_dataLength].
  repeat split.
  cbn [lookup list_lookup app take].
  f_equal. f_equal.
  rewrite !reduce_addZ_cons. change (reduce_addZ []) with 0. lia.
Qed.

Lemma createPacket_roundtrip_witness :
  decodes_to (createPacket 0x68 (map Num [0x02; 0x00; 0x10; 0x00])) 0x68
             [0x02; 0x00; 0x10; 0x00].
Proof.
  apply createPacket_roundtrip.
  - unfold is_byte; lia.
  - repeat constructor; unfold is_byte; lia.
  - simpl; lia.
Defined.

(** The payload slice of [handleNotifications] recovers the data too. *)
Lemma createPacket_payload (cmd : Z) (data : list Z) :
  is_byte cmd -> Forall is_byte data -> (length data <= 255)%nat ->
  let frame := createPacket cmd (map Num data) in
  payloadOf frame (h_dataLength (readHeader frame)) = data.
Proof.
  intros Hc Hd Hlen frame. subst frame.
  rewrite createPacket_bytes by assumption.
  rewrite (Z.mod_small (Z.of_nat (length data))) by lia.
  unfold readHeader, payloadOf, slice. cbn [h_dataLength lookup list_lookup app drop].
  rewrite Nat2Z.id.
  replace (6 + length data - 6)%nat with (length data) by lia.
  apply firstn_all.
Qed.

(** ** User records *)

Lemma parseUserData_from_step (fuel i : nat) (dataBuffer : list Z) :
  parseUserData_from (S fuel) i dataBuffer
  = if (i <? length dataBuffer)%nat then
      if (length (slice i (i + 24) dataBuffer) <? 24)%nat then []
      else parseRecord (slice i (i + 24) dataBuffer)
           :: parseUserData_from fuel (i + 24) dataBuffer
    else [].
Proof. reflexivity. Qed.

Lemma slice_length {A} (i j : nat) (l : list A) :
  (j <= length l)%nat -> length (slice i j l) = (j - i)%nat.
Proof. intros Hj. unfold slice. rewrite length_take, length_drop. lia. Qed.

Lemma slice_all {A} (l : list A) : slice 0 (length l) l = l.
Proof. unfold slice. rewrite drop_0, Nat.sub_0_r. apply firstn_all. Qed.

(** A buffer of exactly 24 bytes is one record. *)
Lemma parseUserData_one (record : list Z) :
  length record = 24%nat -> parseUserData record = [parseRecord record].
Proof.
  intros Hlen.
  assert (Hchunk : slice 0 24 record = record)
    by (rewrite <- Hlen; apply slice_all).
  unfold parseUserData. rewrite Hlen.
  rewrite parseUserData_from_step, Hlen.
  change (0 + 24)%nat with 24%nat. rewrite Hchunk, Hlen.
  change (0 <? 24)%nat with true. change (24 <? 24)%nat with false. cbv iota.
  rewrite parseUserData_from_step, Hlen. reflexivity.
Qed.

Lemma valid_parseRecord (record : list Z) :
  valid (parseRecord record)
  = (default 0 (record !! 23%nat) =? reduce_addZ (take 23 record) mod 256).
Proof.
  unfold parseRecord. cbn [valid]. rewrite land_wrap32_low_byte.
  unfold slice. rewrite drop_0. reflexivity.
Qed.

Lemma reduce_addZ_insert (l : list Z) (i : nat) (old b : Z) :
  l !! i = Some old -> reduce_addZ (<[i := b]> l) = reduce_addZ l - old + b.
Proof.
  revert i. induction l as [|x l IH]; intros i Hi; [discriminate Hi|].
  destruct i as [|i].
  - change (<[0%nat := b]> (x :: l)) with (b :: l).
    injection Hi as ->. rewrite !reduce_addZ_cons. lia.
  - change (<[S i := b]> (x :: l)) with (x :: <[i := b]> l).
    change ((x :: l) !! S i) with (l !! i) in Hi.
    rewrite !reduce_addZ_cons, (IH i Hi). lia.
Qed.

(** C4. A 24-byte record whose last byte satisfies the checksum
    equation is reported with [valid = true]; changing exactly one of
    its 24 bytes to another byte, and nothing else, gives a record
    reported with [valid = false]. *)
Theorem parseUserData_valid (record : list Z) :
  length record = 24%nat -> Forall is_byte record -> checksum_holds record ->
  (exists u, parseUserData record = [u] /\ valid u = true)
  /\ (forall (i : nat) (b : Z),
        (i < 24)%nat -> is_byte b -> record !! i <> Some b ->
        exists u', parseUserData (<[i := b]> record) = [u'] /\ valid u' = false).
Proof.
  intros Hlen Hbytes Hsum. unfold checksum_holds in Hsum. split.
  - exists (parseRecord record). split; [apply parseUserData_one, Hlen|].
    rewrite valid_parseRecord, Hsum. apply Z.eqb_refl.
  - intros i b Hi Hb Hne.
    exists (parseRecord (<[i := b]> record)).
    split; [apply parseUserData_one; rewrite length_insert; exact Hlen|].
    rewrite valid_parseRecord. apply Z.eqb_neq.
    destruct (decide (i = 23%nat)) as [->|Hi23].
    + rewrite list_lookup_insert_eq by lia.
      rewrite take_insert_ge by lia. cbn [from_option id].
      intros ->. apply Hne. exact Hsum.
    + rewrite list_lookup_insert_ne by lia. rewrite Hsum. cbn [from_option id].
      rewrite take_insert_lt by lia.
      destruct (lookup_lt_is_Some_2 record i) as [old Hold]; [lia|].
      assert (Hold_byte : is_byte old).
      { rewrite Forall_lookup in Hbytes. exact (Hbytes i old Hold). }
      rewrite (reduce_addZ_insert (take 23 record) i old b)
        by (rewrite lookup_take_lt by lia; exact Hold).
      assert (Hdiff : old <> b) by (intros ->; apply Hne; exact Hold).
      unfold is_byte in Hb, Hold_byte.
      set (s := reduce_addZ (take 23 record)).
      intros Heq.
      assert (Hdiv : (b - old) mod 256 = 0).
      { replace (b - old) with ((s - old + b) - s) by lia.
        rewrite Zminus_mod, <- Heq, Z.sub_diag. reflexivity. }
      apply Z.mod_divide in Hdiv; [|lia].
      destruct Hdiv as [q Hq]. lia.
Qed.

Lemma parseUserData_valid_witness :
  (exists u, parseUserData (repeat 1 23 ++ [23]) = [u] /\ valid u = true)
  /\ (exists u', parseUserData (<[4%nat := 2]> (repeat 1 23 ++ [23])) = [u']
                 /\ valid u' = false).
Proof.
  assert (Hlen : length (repeat 1 23 ++ [23]) = 24%nat) by reflexivity.
  assert (Hbytes : Forall is_byte (repeat 1 23 ++ [23])).
  { apply Forall_forall. intros x Hx.
    apply list_elem_of_In, in_app_iff in Hx. unfold is_byte.
    destruct Hx as [Hx%repeat_spec | [<- | []]]; lia. }
  assert (Hsum : checksum_holds (repeat 1 23 ++ [23])) by reflexivity.
  destruct (parseUserData_valid _ Hlen Hbytes Hsum) as [Hvalid Hflip].
  split; [exact Hvalid|].
  apply Hflip.
  - lia.
  - unfold is_byte; lia.
  - simpl. discriminate.
Defined.

(** ** User ids *)

Section UserId.

Lemma is_digit_cases (c : ascii) :
  is_digit c = true ->
  In c ["0"; "1"; "2"; "3"; "4"; "5"; "6"; "7"; "8"; "9"]%char.
Proof.
  destruct c as [[] [] [] [] [] [] [] []]; intros H;
    try (vm_compute in H; discriminate H); simpl; tauto.
Qed.

(** Two decimal digits read in base 16 and printed in base 16 again. *)
Lemma digit_pair (a b : ascii) :
  is_digit a = true -> is_digit b = true ->
  padStart 2 "0" (toString 16 (parseInt16 (String a (String b EmptyString))))
  = String a (String b EmptyString).
Proof.
  intros Ha%is_digit_cases Hb%is_digit_cases.
  simpl in Ha, Hb.
  repeat match goal with
         | H : _ \/ _ |- _ => destruct H as [H|H]
         | H : False |- _ => destruct H
         end; subst a b; vm_compute; reflexivity.
Qed.

Lemma strip_replicate_zeros (n : nat) (s : string) :
  strip_leading_zeros (replicate_char n "0" +:+ s) = strip_leading_zeros s.
Proof. induction n as [|n IH]; simpl; [reflexivity|exact IH]. Qed.

Lemma length_replicate_append (n : nat) (c : ascii) (s : string) :
  String.length (replicate_char n c +:+ s) = (n + String.length s)%nat.
Proof. induction n as [|n IH]; simpl; [reflexivity|]. rewrite IH. reflexivity. Qed.

Lemma all_digits_replicate_zeros (n : nat) (s : string) :
  all_digits s = true -> all_digits (replicate_char n "0" +:+ s) = true.
Proof. intros Hs. induction n as [|n IH]; simpl; [exact Hs|exact IH]. Qed.

(** The six pairs of a 12-digit string print back as the string. *)
Lemma twelve_digits (p : string) :
  String.length p = 12%nat -> all_digits p = true ->
  parseUserId
    [ parseInt16 (substr 0 2 p); parseInt16 (substr 2 2 p);
      parseInt16 (substr 4 2 p); parseInt16 (substr 6 2 p);
      parseInt16 (substr 8 2 p); parseInt16 (substr 10 2 p) ]
  = strip_leading_zeros p.
Proof.
  intros Hlen Hdig.
  do 12 (destruct p as [|? p]; [discriminate Hlen|]).
  destruct p; [|discriminate Hlen].
  cbn [all_digits] in Hdig.
  repeat match type of Hdig with
         | (_ && _) = true => apply andb_prop in Hdig; destruct Hdig as [? Hdig]
         end.
  unfold parseUserId. cbn [substr substring map].
  rewrite !digit_pair by assumption.
  reflexivity.
Qed.

Lemma parseUserId_parsePhoneNumber (s : string) :
  all_digits s = true -> (String.length s <= 12)%nat ->
  parseUserId (parsePhoneNumber (Str s)) = strip_leading_zeros s.
Proof.
  intros Hdig Hlen.
  unfold parsePhoneNumber. cbn [String_of]. cbv zeta.
  rewrite twelve_digits.
  - apply strip_replicate_zeros.
  - unfold padStart. rewrite length_replicate_append. lia.
  - apply all_digits_replicate_zeros, Hdig.
Qed.

Lemma strip_all_zeros (s : string) :
  all_zeros s = true -> strip_leading_zeros s = EmptyString.
Proof.
  induction s as [|c s IH]; [reflexivity|].
  cbn [all_zeros]. intros [Hc Hs]%andb_prop.
  assert (c = "0"%char) as ->.
  { apply Z.eqb_eq in Hc. unfold char_code in Hc.
    rewrite <- (ascii_N_embedding c).
    replace (N_of_ascii c) with 48%N by lia. reflexivity. }
  simpl. apply IH, Hs.
Qed.

(** Two decimal digits read in base 16 fit a byte of the packet. *)
Lemma digit_pair_byte (a b : ascii) :
  is_digit a = true -> is_digit b = true ->
  Num (ToUint8 (parseInt16 (String a (String b EmptyString))))
  = parseInt16 (String a (String b EmptyString)).
Proof.
  intros Ha%is_digit_cases Hb%is_digit_cases.
  simpl in Ha, Hb.
  repeat match goal with
         | H : _ \/ _ |- _ => destruct H as [H|H]
         | H : False |- _ => destruct H
         end; subst a b; vm_compute; reflexivity.
Qed.

Lemma parsePhoneNumber_bytes (s : string) :
  all_digits s = true -> (String.length s <= 12)%nat ->
  map Num (Uint8Array (parsePhoneNumber (Str s))) = parsePhoneNumber (Str s).
Proof.
  intros Hdig Hlen.
  unfold parsePhoneNumber. cbn [String_of]. cbv zeta.
  assert (Hp : String.length (padStart 12 "0" s) = 12%nat)
    by (unfold padStart; rewrite length_replicate_append; lia).
  assert (Hd : all_digits (padStart 12 "0" s) = true)
    by (apply all_digits_replicate_zeros, Hdig).
  revert Hp Hd. generalize (padStart 12 "0" s) as p. intros p Hp Hd.
  do 12 (destruct p as [|? p]; [discriminate Hp|]).
  destruct p; [|discriminate Hp].
  cbn [all_digits] in Hd.
  repeat match type of Hd with
         | (_ && _) = true => apply andb_prop in Hd; destruct Hd as [? Hd]
         end.
  unfold Uint8Array. cbn [substr substring map].
  rewrite !digit_pair_byte by assumption.
  reflexivity.
Qed.

End UserId.

(** C10. For a string [s] of 1 to 12 decimal digits with a nonzero
    digit, [parseUserId(parsePhoneNumber(s))] is [s] without its leading
    zeros; for a string of zeros it is the empty string. *)
Theorem parseUserId_roundtrip (s : string) :
  all_digits s = true -> (1 <= String.length s <= 12)%nat ->
  (all_zeros s = false ->
     parseUserId (parsePhoneNumber (Str s)) = strip_leading_zeros s)
  /\ (all_zeros s = true -> parseUserId (parsePhoneNumber (Str s)) = EmptyString).
Proof.
  intros Hdig [_ Hlen]. split.
  - intros _. apply parseUserId_parsePhoneNumber; assumption.
  - intros Hz. rewrite parseUserId_parsePhoneNumber by assumption.
    apply strip_all_zeros, Hz.
Qed.

Lemma parseUserId_roundtrip_witness :
  parseUserId (parsePhoneNumber (Str "001000")) = "1000"
  /\ parseUserId (parsePhoneNumber (Str "0000")) = EmptyString.
Proof.
  split.
  - apply (parseUserId_roundtrip "001000"); [reflexivity|simpl; lia|reflexivity].
  - apply (parseUserId_roundtrip "0000"); [reflexivity|simpl; lia|reflexivity].
Defined.

(** The id decoded from a user record whose id bytes are those that
    [createUser] put in the packet is the id that was encoded. *)
Corollary userId_of_record (s : string) (chunk : list Z) :
  all_digits s = true -> (String.length s <= 12)%nat ->
  slice 1 7 chunk = Uint8Array (parsePhoneNumber (Str s)) ->
  userId (parseRecord chunk) = strip_leading_zeros s.
Proof.
  intros Hdig Hlen Hid. unfold parseRecord. cbn [userId].
  rewrite Hid, parsePhoneNumber_bytes by assumption.
  apply parseUserId_parsePhoneNumber; assumption.
Qed.

(** ** Running driver code *)

Arguments createPacket : simpl never.
Arguments parseUserData : simpl never.
Arguments parseUserDataM : simpl never.
Arguments parseDateTimeM : simpl never.
Arguments parseRecordM : simpl never.
Arguments parseLogData : simpl never.
Arguments parsePhoneNumber : simpl never.
Arguments encryptData : simpl never.
Arguments Z_toString : simpl never.
Arguments fromCharCode : simpl never.
Arguments calculateBatteryPercentage : simpl never.
Arguments dateToBcd : simpl never.
Arguments yield : simpl never.
Arguments accepted_within : simpl never.
Arguments sleep : simpl never.
Arguments startWrite : simpl never.
Arguments writeValue : simpl never.
Arguments writeWithRetry : simpl never.
Arguments writeWithRetry_from : simpl never.
Arguments handleNotifications : simpl never.
Arguments authenticateAdmin : simpl never.
Arguments passwordLoop : simpl never.
Arguments pendingMap : simpl never.
Arguments fireTimer : simpl never.
Arguments deliver : simpl never.
Arguments deliverAll : simpl never.
Arguments newPromise : simpl never.
Arguments settle : simpl never.
Arguments setTimeout : simpl never.
Arguments clearTimeout : simpl never.

Ltac run :=
  repeat (progress (unfold bind, ret, throw, try_catch, gets, getsH, modify, modifyH,
                      emit, console, when, btDebug; cbn)).

(** *** Guards of the user-management operations *)

(** C7. While [isAuthenticated] is false, [createUser] and
    [deleteAllUsers] throw the not-authenticated error and leave the
    whole world, the transport included, as it was: nothing is written. *)
Theorem user_management_requires_authentication
    (w : World) (userId : value) (startDate endDate : Date) (options : Options) :
  isAuthenticated (session w) = false ->
  createUser userId startDate endDate options w
    = (Throw (Error "Please authenticate first."), w)
  /\ deleteAllUsers w = (Throw (Error "Please authenticate first."), w).
Proof.
  intros Hauth. unfold createUser, deleteAllUsers.
  run. rewrite Hauth. cbn. split; reflexivity.
Qed.

Lemma user_management_requires_authentication_witness :
  createUser (Number (Num 1000)) some_date some_date (mkOptions true)
             (mkWorld connected_session (fresh_host reliable))
    = (Throw (Error "Please authenticate first."),
       mkWorld connected_session (fresh_host reliable))
  /\ deleteAllUsers (mkWorld connected_session (fresh_host reliable))
    = (Throw (Error "Please authenticate first."),
       mkWorld connected_session (fresh_host reliable)).
Proof.
  apply user_management_requires_authentication. reflexivity.
Defined.

(** *** Writes with retry, when no event arrives meanwhile *)

Section Retry.

Lemma quiet_refl (w : World) : quiet w w.
Proof.
  unfold quiet. repeat split. exists []. rewrite app_nil_r. reflexivity.
Qed.

Lemma quiet_trans (w1 w2 w3 : World) : quiet w1 w2 -> quiet w2 w3 -> quiet w1 w3.
Proof.
  unfold quiet.
  intros (Hs1 & Hl1 & Hp1 & Ht1 & Hi1 & tr1 & Htr1) (Hs2 & Hl2 & Hp2 & Ht2 & Hi2 & tr2 & Htr2).
  repeat split; try congruence.
  exists (tr1 ++ tr2). rewrite Htr2, Htr1, app_assoc. reflexivity.
Qed.

Lemma quiet_emit (w : World) (e : Effect) : quiet w (emit e w).2.
Proof.
  unfold quiet. run. repeat split. exists [e]. reflexivity.
Qed.

Lemma yield_idle (w : World) : inbox (host w) = [] -> yield w = (Return tt, w).
Proof. intros Hin. unfold yield. run. rewrite Hin. reflexivity. Qed.

(** One awaited write on an idle session. *)
Lemma writeValue_idle (w : World) (packet : list Z) :
  inbox (host w) = [] ->
  exists r w', writeValue packet w = (r, w') /\ quiet w w'
    /\ match writeCharacteristic (session w) with
       | None => attempts (host w') = attempts (host w) /\ exists e, r = Throw e
       | Some _ =>
           attempts (host w') = S (attempts (host w))
           /\ if link (host w) (attempts (host w)) then r = Return tt
              else exists e, r = Throw e
       end.
Proof.
  intros Hin. unfold writeValue, startWrite. run.
  destruct (writeCharacteristic (session w)) as [c|] eqn:Hwc; cbn.
  - destruct (link (host w) (attempts (host w))) eqn:Hacc; cbn.
    + rewrite yield_idle by exact Hin. cbn.
      eexists _, _. split; [reflexivity|]. split; [|split; reflexivity].
      unfold quiet; cbn. repeat split. eexists. reflexivity.
    + rewrite yield_idle by exact Hin. cbn.
      eexists _, _. split; [reflexivity|]. split; [|split; [reflexivity|eauto]].
      unfold quiet; cbn. repeat split. exists []. rewrite app_nil_r. reflexivity.
  - eexists _, _. split; [reflexivity|]. split; [apply quiet_refl|eauto].
Qed.

Lemma writeWithRetry_from_step (todo i : nat) (packet : list Z) (retries : nat) :
  writeWithRetry_from (S todo) i packet retries
  = try_catch
      (when btDebug (console "Writing packet:" (Bytes packet));;
       writeValue packet)
      (fun e =>
         console ("Write error (attempt " +:+ Z_toString 10 (Z.of_nat i + 1) +:+ "):")
                 (Thrown e);;
         if (Z.of_nat i =? Z.of_nat retries - 1) then throw e
         else sleep 100;; writeWithRetry_from todo (S i) packet retries).
Proof. reflexivity. Qed.

(** The loop of [writeWithRetry] on an idle session: it returns exactly
    when the characteristic is there and one of the attempts left is
    accepted, and it moves nothing but the transport. *)
Lemma writeWithRetry_from_idle (packet : list Z) (retries todo : nat) :
  forall (i : nat) (w : World),
    inbox (host w) = [] -> (i + todo = retries)%nat ->
    exists r w', writeWithRetry_from todo i packet retries w = (r, w')
      /\ quiet w w'
      /\ match writeCharacteristic (session w) with
         | None => todo <> 0%nat -> exists e, r = Throw e
         | Some _ =>
             if accepted_within todo (host w) then r = Return tt
             else todo <> 0%nat -> exists e, r = Throw e
         end.
Proof.
  induction todo as [|todo IH]; intros i w Hin Hi.
  - exists (Return tt), w. split; [reflexivity|]. split; [apply quiet_refl|].
    destruct (writeCharacteristic (session w)); cbn; congruence.
  - rewrite writeWithRetry_from_step. run.
    set (w0 := {| session := session w;
                  host := set_trace (trace (host w) ++ [Console "Writing packet:" (Bytes packet)])
                                    (host w) |}).
    assert (Hq0 : quiet w w0) by apply (quiet_emit w).
    destruct (writeValue_idle w0 packet Hin) as (r1 & w1 & Hrun & Hq1 & Hres).
    rewrite Hrun.
    assert (Hq01 : quiet w w1) by (eapply quiet_trans; eassumption).
    change (writeCharacteristic (session w0)) with (writeCharacteristic (session w)) in Hres.
    change (link (host w0)) with (link (host w)) in Hres.
    change (attempts (host w0)) with (attempts (host w)) in Hres.
    assert (Hcases :
      (r1 = Return tt /\ exists c, writeCharacteristic (session w) = Some c
                                   /\ link (host w) (attempts (host w)) = true)
      \/ (exists e, r1 = Throw e
           /\ (writeCharacteristic (session w) = None
               \/ link (host w) (attempts (host w)) = false
                  /\ attempts (host w1) = S (attempts (host w))))).
    { destruct (writeCharacteristic (session w)) as [c|].
      - destruct Hres as [Hatt Hres].
        destruct (link (host w) (attempts (host w))).
        + left. split; [exact Hres|]. exists c. split; reflexivity.
        + right. destruct Hres as [e ->]. exists e. split; [reflexivity|].
          right. split; [reflexivity|exact Hatt].
      - right. destruct Hres as [_ [e ->]]. exists e. split; [reflexivity|].
        left. reflexivity. }
    clear Hres.
    destruct Hcases as [(-> & c & Hwc & Hacc)|(e & -> & Hwhy)].
    { exists (Return tt), w1. split; [reflexivity|]. split; [exact Hq01|].
      rewrite Hwc. unfold accepted_within. cbn [accepted_from]. rewrite Hacc. reflexivity. }
    { match goal with |- context [{| session := session w1; host := ?h |}] =>
        set (w2 := {| session := session w1; host := h |}) end.
      assert (Hq2 : quiet w w2).
      { eapply quiet_trans; [exact Hq01|]. apply (quiet_emit w1). }
      destruct (Z.of_nat i =? Z.of_nat retries - 1) eqn:Hlast.
      - exists (Throw e), w2. split; [reflexivity|]. split; [exact Hq2|].
        apply Z.eqb_eq in Hlast. assert (todo = 0%nat) as -> by lia.
        destruct Hwhy as [->|[Hrej _]]; [eauto|].
        destruct (writeCharacteristic (session w)); [|eauto].
        unfold accepted_within. cbn. rewrite Hrej. cbn. eauto.
      - apply Z.eqb_neq in Hlast.
        unfold sleep. run.
        match goal with |- context [yield ?x] => set (w3 := x) end.
        assert (Hq3 : quiet w w3).
        { eapply quiet_trans; [exact Hq2|]. apply (quiet_emit w2). }
        assert (Hin3 : inbox (host w3) = []).
        { destruct Hq3 as (_ & _ & _ & _ & -> & _). exact Hin. }
        rewrite yield_idle by exact Hin3.
        destruct (IH (S i) w3 Hin3) as (r & w' & Hrun' & Hq' & Hres'); [lia|].
        exists r, w'. split; [exact Hrun'|]. split; [eapply quiet_trans; eassumption|].
        destruct Hq3 as (Hs3 & Hl3 & _).
        rewrite Hs3 in Hres'.
        destruct Hwhy as [Hnone|[Hrej Hatt]].
        + rewrite Hnone in Hres' |- *. intros _. apply Hres'. lia.
        + destruct (writeCharacteristic (session w)); [|intros _; apply Hres'; lia].
          unfold accepted_within in Hres' |- *. cbn [accepted_from].
          rewrite Hrej. cbn [orb].
          rewrite Hl3 in Hres'.
          change (attempts (host w3)) with (attempts (host w1)) in Hres'.
          rewrite Hatt in Hres'.
          destruct (accepted_from (link (host w)) (S (attempts (host w))) todo);
            [exact Hres'|intros _; apply Hres'; lia]. }
Qed.

(** [writeWithRetry(packet)] on an idle session. *)
Lemma writeWithRetry_idle (packet : list Z) (w : World) :
  inbox (host w) = [] ->
  exists r w', writeWithRetry packet 3 w = (r, w')
    /\ quiet w w'
    /\ match writeCharacteristic (session w) with
       | None => exists e, r = Throw e
       | Some _ =>
           if accepted_within 3 (host w) then r = Return tt else exists e, r = Throw e
       end.
Proof.
  intros Hin.
  destruct (writeWithRetry_from_idle packet 3 3 0 w Hin eq_refl) as (r & w' & Hrun & Hq & Hres).
  exists r, w'. split; [exact Hrun|]. split; [exact Hq|].
  destruct (writeCharacteristic (session w)).
  - destruct (accepted_within 3 (host w)); [exact Hres|apply Hres; lia].
  - apply Hres. lia.
Qed.

End Retry.

(** ** Effects that only print *)

Lemma logged_nil (w : World) : logged [] w = w.
Proof.
  destruct w as [s [l a p t tr i]]. unfold logged, set_trace. cbn.
  rewrite app_nil_r. reflexivity.
Qed.

Lemma logged_app (tr1 tr2 : list Effect) (w : World) :
  logged tr2 (logged tr1 w) = logged (tr1 ++ tr2) w.
Proof. unfold logged, set_trace. cbn. rewrite app_assoc. reflexivity. Qed.

(** ** Ignored frames *)

(** A frame the handler ignores is logged and nothing else happens. *)
Lemma ignored_frame_logged (w : World) (response : list Z) :
  ignored response = true ->
  handleNotifications response w
  = (Return tt, logged [Console "Received response:" (Bytes response)] w).
Proof.
  unfold ignored, handleNotifications. cbv zeta.
  destruct (same (response !! 1%nat) 0x0F) eqn:E0F;
  destruct (same (response !! 1%nat) 0x20) eqn:E20;
  destruct (same (response !! 1%nat) 0x21) eqn:E21;
  destruct (same (response !! 1%nat) 0x60) eqn:E60;
  destruct (same (response !! 1%nat) 0x6C) eqn:E6C;
  destruct (same (response !! 1%nat) 0x68) eqn:E68;
  destruct (same (response !! 1%nat) 0x6B) eqn:E6B;
  destruct (same (response !! 1%nat) 0x72) eqn:E72;
  cbn [orb negb andb]; try discriminate;
  destruct (same (response !! 2%nat) 0x10) eqn:S10;
  destruct (same (response !! 2%nat) 0x24) eqn:S24;
  cbn [orb negb andb]; try discriminate; intros _; run; reflexivity.
Qed.

Section Calm.

(** A batch of ignored frames moves nothing but the trace. *)
Lemma deliverAll_harmless (batch : list Event) :
  forallb harmless batch = true ->
  forall w, exists tr, deliverAll batch w = (Return tt, logged tr w).
Proof.
  induction batch as [|e batch IH]; intros Hbatch w.
  - exists []. rewrite logged_nil. reflexivity.
  - cbn [forallb] in Hbatch. apply andb_prop in Hbatch as [He Hbatch].
    destruct e as [response|t]; [|discriminate He]. cbn [harmless] in He.
    destruct (IH Hbatch (logged [Console "Received response:" (Bytes response)] w))
      as (tr & Hrun).
    exists ([Console "Received response:" (Bytes response)] ++ tr).
    change (deliverAll (Notification response :: batch))
      with (deliver (Notification response);; deliverAll batch).
    unfold bind, deliver, try_catch, dispatch.
    rewrite (ignored_frame_logged w response He), Hrun, logged_app. reflexivity.
Qed.

(** A suspension point on a calm host. *)
Lemma yield_calm (w : World) :
  calm (host w) = true ->
  exists w', yield w = (Return tt, w')
    /\ session w' = session w
    /\ link (host w') = link (host w)
    /\ attempts (host w') = attempts (host w)
    /\ calm (host w') = true.
Proof.
  unfold calm, yield. run.
  destruct (inbox (host w)) as [|batch rest] eqn:Hin; intros Hcalm.
  - exists w. rewrite Hin. repeat split. 
  - cbn [forallb] in Hcalm. apply andb_prop in Hcalm as [Hbatch Hrest].
    run.
    match goal with |- context [deliverAll batch ?x] =>
      destruct (deliverAll_harmless batch Hbatch x) as (tr & ->) end.
    eexists. split; [reflexivity|]. cbn. repeat split. exact Hrest.
Qed.

(** One awaited write on a calm host. *)
Lemma writeValue_calm (w : World) (packet : list Z) :
  calm (host w) = true ->
  exists r w', writeValue packet w = (r, w')
    /\ session w' = session w
    /\ link (host w') = link (host w)
    /\ calm (host w') = true
    /\ match writeCharacteristic (session w) with
       | None => attempts (host w') = attempts (host w)
                 /\ exists text, r = Throw (TypeError text)
       | Some _ =>
           attempts (host w') = S (attempts (host w))
           /\ r = if link (host w) (attempts (host w)) then Return tt
                  else Throw (WriteError (attempts (host w)))
       end.
Proof.
  intros Hcalm. unfold writeValue, startWrite. run.
  destruct (writeCharacteristic (session w)) as [c|] eqn:Hwc; cbn.
  - destruct (link (host w) (attempts (host w))) eqn:Hacc; cbn.
    + match goal with |- context [yield ?x] =>
        destruct (yield_calm x Hcalm) as (w' & -> & Hs & Hl & Ha & Hc) end.
      exists (Return tt), w'. split; [reflexivity|]. repeat split; assumption.
    + match goal with |- context [yield ?x] =>
        destruct (yield_calm x Hcalm) as (w' & -> & Hs & Hl & Ha & Hc) end.
      eexists _, w'. split; [reflexivity|]. repeat split; assumption.
  - eexists _, w. split; [reflexivity|]. repeat split; eauto.
Qed.

(** The loop of [writeWithRetry] on a calm host: it returns exactly
    when the characteristic is there and one of the attempts left is
    accepted; otherwise it throws the error of the last attempt. *)
Lemma writeWithRetry_from_calm (packet : list Z) (retries todo : nat) :
  forall (i : nat) (w : World),
    calm (host w) = true -> (i + todo = retries)%nat ->
    exists r w', writeWithRetry_from todo i packet retries w = (r, w')
      /\ session w' = session w
      /\ link (host w') = link (host w)
      /\ calm (host w') = true
      /\ (todo <> 0%nat ->
          match writeCharacteristic (session w) with
          | None => exists text, r = Throw (TypeError text)
          | Some _ =>
              r = if accepted_within todo (host w) then Return tt
                  else Throw (WriteError (attempts (host w) + todo - 1))
          end).
Proof.
  induction todo as [|todo IH]; intros i w Hcalm Hi.
  - exists (Return tt), w. split; [reflexivity|]. repeat split; [exact Hcalm|congruence].
  - rewrite writeWithRetry_from_step. run.
    match goal with |- context [writeValue packet ?x] => set (w0 := x) end.
    destruct (writeValue_calm w0 packet Hcalm) as (r1 & w1 & Hrun & Hs1 & Hl1 & Hc1 & Hres).
    rewrite Hrun.
    change (session w0) with (session w) in Hs1, Hres.
    change (link (host w0)) with (link (host w)) in Hl1, Hres.
    change (attempts (host w0)) with (attempts (host w)) in Hres.
    destruct (writeCharacteristic (session w)) as [c|] eqn:Hwc.
    + destruct Hres as [Hatt ->].
      unfold accepted_within. cbn [accepted_from].
      destruct (link (host w) (attempts (host w))) eqn:Hacc; cbn [orb].
      * exists (Return tt), w1. split; [reflexivity|]. repeat split; assumption.
      * run.
        destruct (Z.of_nat i =? Z.of_nat retries - 1) eqn:Hlast.
        -- apply Z.eqb_eq in Hlast. assert (todo = 0%nat) as -> by lia.
           eexists _, _. split; [reflexivity|]. cbn. 
           split; [exact Hs1|]. split; [exact Hl1|]. split; [exact Hc1|].
           intros _. cbn [accepted_from]. f_equal. f_equal. lia.
        -- apply Z.eqb_neq in Hlast. unfold sleep. run.
           match goal with |- context [yield ?x] =>
             destruct (yield_calm x Hc1) as (w2 & -> & Hs2 & Hl2 & Ha2 & Hc2) end.
           cbn in Hs2, Hl2, Ha2.
           destruct (IH (S i) w2 Hc2) as (r & w' & Hrun' & Hs' & Hl' & Hc' & Hres'); [lia|].
           exists r, w'. split; [exact Hrun'|].
           split; [congruence|]. split; [congruence|]. split; [exact Hc'|].
           intros _. assert (Htodo : todo <> 0%nat) by lia.
           specialize (Hres' Htodo). rewrite Hs2, Hs1, Hwc in Hres'.
           unfold accepted_within in Hres'. rewrite Hl2, Hl1, Ha2, Hatt in Hres'.
           rewrite Hres'.
           destruct (accepted_from (link (host w)) (S (attempts (host w))) todo);
             [reflexivity|]. f_equal. f_equal. lia.
    + destruct Hres as [Hatt [text ->]]. run.
      destruct (Z.of_nat i =? Z.of_nat retries - 1) eqn:Hlast.
      * eexists _, _. split; [reflexivity|]. cbn.
        split; [exact Hs1|]. split; [exact Hl1|]. split; [exact Hc1|]. eauto.
      * apply Z.eqb_neq in Hlast. unfold sleep. run.
        match goal with |- context [yield ?x] =>
          destruct (yield_calm x Hc1) as (w2 & -> & Hs2 & Hl2 & Ha2 & Hc2) end.
        cbn in Hs2, Hl2, Ha2.
        destruct (IH (S i) w2 Hc2) as (r & w' & Hrun' & Hs' & Hl' & Hc' & Hres'); [lia|].
        exists r, w'. split; [exact Hrun'|].
        split; [congruence|]. split; [congruence|]. split; [exact Hc'|].
        intros _. assert (Htodo : todo <> 0%nat) by lia.
        specialize (Hres' Htodo). rewrite Hs2, Hs1, Hwc in Hres'. exact Hres'.
Qed.

(** [writeWithRetry(packet)] on a calm host. *)
Lemma writeWithRetry_calm (packet : list Z) (w : World) :
  calm (host w) = true ->
  exists r w', writeWithRetry packet 3 w = (r, w')
    /\ session w' = session w
    /\ calm (host w') = true
    /\ match writeCharacteristic (session w) with
       | None => exists text, r = Throw (TypeError text)
       | Some _ =>
           r = if accepted_within 3 (host w) then Return tt
               else Throw (WriteError (attempts (host w) + 2))
       end.
Proof.
  intros Hcalm.
  destruct (writeWithRetry_from_calm packet 3 3 0 w Hcalm eq_refl)
    as (r & w' & Hrun & Hs & _ & Hc & Hres).
  exists r, w'. split; [exact Hrun|]. split; [exact Hs|]. split; [exact Hc|].
  specialize (Hres ltac:(lia)).
  destruct (writeCharacteristic (session w)); [|exact Hres].
  rewrite Hres. destruct (accepted_within 3 (host w)); [reflexivity|].
  f_equal. f_equal. lia.
Qed.

End Calm.

(** ** System exit *)

Lemma bind_Return_inv {A B} (m : M A) (k : A -> M B) (w w' : World) (b : B) :
  bind m k w = (Return b, w') ->
  exists a w1, m w = (Return a, w1) /\ k a w1 = (Return b, w').
Proof.
  unfold bind. destruct (m w) as [[a|e] w1]; intros H; [eauto|discriminate H].
Qed.

(** What [systemExit] resets once the write has gone through, whatever
    arrived while it was suspended. *)
Lemma systemExit_returns (w w' : World) :
  systemExit w = (Return tt, w') ->
  bluetoothDevice (session w') = None
  /\ writeCharacteristic (session w') = None
  /\ isAuthenticated (session w') = false.
Proof.
  unfold systemExit, try_catch.
  match goal with |- context [match ?body w with _ => _ end] =>
    destruct (body w) as [[[]|e] w1] eqn:Hbody end.
  - intros [= <-].
    apply bind_Return_inv in Hbody as (_ & w2 & _ & Hbody).
    apply bind_Return_inv in Hbody as (_ & w3 & _ & Hbody).
    apply bind_Return_inv in Hbody as (dev & w4 & _ & Hbody).
    apply bind_Return_inv in Hbody as (_ & w5 & _ & Hbody).
    revert Hbody. run. intros [= <-]. cbn. repeat split.
  - run. discriminate.
Qed.

(** On a calm host whose transport accepts one of the three attempts,
    [systemExit] returns and touches no other variable. *)
Lemma systemExit_accepted (w : World) (c : Characteristic) :
  writeCharacteristic (session w) = Some c ->
  calm (host w) = true ->
  accepted_within 3 (host w) = true ->
  exists w', systemExit w = (Return tt, w')
    /\ CONFIG (session w') = CONFIG (session w)
    /\ notifyCharacteristic (session w') = notifyCharacteristic (session w)
    /\ randomCode (session w') = randomCode (session w)
    /\ userDataBuffer (session w') = userDataBuffer (session w)
    /\ pendingBatteryResolve (session w') = pendingBatteryResolve (session w)
    /\ pendingCreateUserPassword (session w') = pendingCreateUserPassword (session w)
    /\ latestPasswords (session w') = latestPasswords (session w).
Proof.
  intros Hwc Hcalm Hacc.
  destruct (writeWithRetry_calm (createPacket 0x6F []) w Hcalm) as (r & w1 & Hrun & Hs & Hc1 & Hres).
  rewrite Hwc, Hacc in Hres. subst r.
  unfold systemExit, sleep. run. rewrite Hrun. run.
  match goal with |- context [yield ?x] =>
    destruct (yield_calm x Hc1) as (w2 & -> & Hs2 & _ & _ & Hc2) end.
  cbn in Hs2. run.
  destruct (bluetoothDevice (session w2)) as [[name [|]]|]; run.
  - match goal with |- context [yield ?x] =>
      destruct (yield_calm x Hc2) as (w3 & -> & Hs3 & _) end.
    cbn in Hs3. run.
    eexists. split; [reflexivity|]. cbn. rewrite Hs3. cbn. rewrite Hs2, Hs. repeat split.
  - eexists. split; [reflexivity|]. cbn. rewrite Hs2, Hs. repeat split.
  - eexists. split; [reflexivity|]. cbn. rewrite Hs2, Hs. repeat split.
Qed.

(** When the write fails for good on a calm host, [systemExit] rethrows
    the error of the last attempt and resets nothing. *)
Lemma systemExit_rejected (w : World) :
  calm (host w) = true ->
  match writeCharacteristic (session w) with
  | None =>
      exists text w', systemExit w = (Throw (TypeError text), w') /\ session w' = session w
  | Some _ =>
      accepted_within 3 (host w) = false ->
      exists w', systemExit w = (Throw (WriteError (attempts (host w) + 2)), w')
                 /\ session w' = session w
  end.
Proof.
  intros Hcalm.
  destruct (writeWithRetry_calm (createPacket 0x6F []) w Hcalm) as (r & w1 & Hrun & Hs & _ & Hres).
  destruct (writeCharacteristic (session w)) as [c|].
  - intros Hrej. rewrite Hrej in Hres. subst r.
    unfold systemExit. run. rewrite Hrun.
    eexists. split; [reflexivity|]. exact Hs.
  - destruct Hres as [text ->].
    unfold systemExit. run. rewrite Hrun.
    eexists _, _. split; [reflexivity|]. exact Hs.
Qed.

(** C3, as first stated, fails twice: a write that fails on all three
    attempts leaves the session authenticated and connected, and a
    successful exit still keeps the random code and the notify
    characteristic. *)
Lemma systemExit_keeps_state :
  (exists e w', systemExit (mkWorld authenticated_session (fresh_host broken)) = (Throw e, w')
     /\ isAuthenticated (session w') = true
     /\ bluetoothDevice (session w') <> None
     /\ writeCharacteristic (session w') <> None)
  /\ (exists w', systemExit (mkWorld authenticated_session (fresh_host reliable)) = (Return tt, w')
     /\ randomCode (session w') = Some 0x7A
     /\ notifyCharacteristic (session w') <> None).
Proof.
  split.
  - eexists _, _. split; [vm_compute; reflexivity|]. cbn. repeat split; discriminate.
  - eexists. split; [vm_compute; reflexivity|]. cbn. split; [reflexivity|discriminate].
Qed.

(** C3. Every execution of [systemExit] that returns has reset
    [bluetoothDevice], [writeCharacteristic] and [isAuthenticated],
    whatever arrived during the call. When nothing but frames the
    handler ignores arrives during the call (the reply to the shutdown
    command is one), [systemExit] returns whenever the transport
    accepts one of the three write attempts, no acknowledgement being
    awaited, and the configuration, the notify characteristic, the
    random code, the fragment buffer, the pending slots and the
    recorded passwords are then as they were; when every attempt is
    refused it rethrows the error of the third attempt, and with no
    write characteristic the [TypeError] of the call, the session being
    unchanged in both cases. *)
Theorem systemExit_reset :
  (forall w w' : World,
     systemExit w = (Return tt, w') ->
     bluetoothDevice (session w') = None
     /\ writeCharacteristic (session w') = None
     /\ isAuthenticated (session w') = false)
  /\ (forall (w : World) (c : Characteristic),
        writeCharacteristic (session w) = Some c ->
        calm (host w) = true ->
        accepted_within 3 (host w) = true ->
        exists w', systemExit w = (Return tt, w')
          /\ CONFIG (session w') = CONFIG (session w)
          /\ notifyCharacteristic (session w') = notifyCharacteristic (session w)
          /\ randomCode (session w') = randomCode (session w)
          /\ userDataBuffer (session w') = userDataBuffer (session w)
          /\ pendingBatteryResolve (session w') = pendingBatteryResolve (session w)
          /\ pendingCreateUserPassword (session w') = pendingCreateUserPassword (session w)
          /\ latestPasswords (session w') = latestPasswords (session w))
  /\ (forall (w : World) (c : Characteristic),
        writeCharacteristic (session w) = Some c ->
        calm (host w) = true ->
        accepted_within 3 (host w) = false ->
        exists w', systemExit w = (Throw (WriteError (attempts (host w) + 2)), w')
                   /\ session w' = session w)
  /\ (forall w : World,
        writeCharacteristic (session w) = None ->
        calm (host w) = true ->
        exists text w', systemExit w = (Throw (TypeError text), w')
                        /\ session w' = session w).
Proof.
  split; [exact systemExit_returns|].
  split; [exact systemExit_accepted|].
  split.
  - intros w c Hwc Hcalm Hrej.
    pose proof (systemExit_rejected w Hcalm) as H. rewrite Hwc in H. exact (H Hrej).
  - intros w Hwc Hcalm.
    pose proof (systemExit_rejected w Hcalm) as H. rewrite Hwc in H. exact H.
Qed.

(** The lock's reply to the shutdown command arrives while [systemExit]
    waits: it is logged, and the exit goes on as without it. *)
Lemma systemExit_reset_witness :
  let acknowledged :=
    set_inbox [[]; [Notification (notification 0x6F 0x10 [])]] (fresh_host reliable) in
  exists w', systemExit (mkWorld authenticated_session acknowledged) = (Return tt, w')
    /\ isAuthenticated (session w') = false
    /\ randomCode (session w') = Some 0x7A
    /\ In (Console "Received response:" (Bytes (notification 0x6F 0x10 [])))
          (trace (host w')).
Proof.
  cbv zeta.
  destruct systemExit_reset as (Hreset & Hkeep & _).
  destruct (Hkeep (mkWorld authenticated_session
                     (set_inbox [[]; [Notification (notification 0x6F 0x10 [])]]
                                (fresh_host reliable)))
                  (mkCharacteristic "0000fff2-0000-1000-8000-00805f9b34fb")
                  eq_refl eq_refl eq_refl)
    as (w' & Hrun & _ & _ & Hcode & _).
  exists w'. split; [exact Hrun|]. split; [|split; [exact Hcode|]].
  - exact (proj2 (proj2 (Hreset _ _ Hrun))).
  - assert (Hw : w' = (systemExit (mkWorld authenticated_session
                     (set_inbox [[]; [Notification (notification 0x6F 0x10 [])]]
                                (fresh_host reliable)))).2)
      by (rewrite Hrun; reflexivity).
    rewrite Hw. vm_compute. tauto.
Defined.

(** ** Passwords of created users *)

(** The handler and [createUser] name the map [pendingCreateUserPasswords],
    which no declaration binds. *)
Lemma pendingMap_undeclared :
  pendingMap "pendingCreateUserPasswords"
  = throw (ReferenceError "pendingCreateUserPasswords").
Proof. reflexivity. Qed.

Lemma createUser_ReferenceError
    (w : World) (userId : value) (startDate endDate : Date) (options : Options) :
  isAuthenticated (session w) = true ->
  createUser userId startDate endDate options w
  = (Throw (ReferenceError "pendingCreateUserPasswords"), w).
Proof.
  intros Hauth. unfold createUser. rewrite pendingMap_undeclared.
  run. rewrite Hauth. reflexivity.
Qed.

Lemma password_notification_ReferenceError (w : World) (response : list Z) :
  response !! 1%nat = Some 0x68 -> response !! 2%nat = Some 0x10 ->
  handleNotifications response w
  = (Throw (ReferenceError "pendingCreateUserPasswords"),
     (console "Received response:" (Bytes response) w).2).
Proof.
  intros Hcmd Hstatus. unfold handleNotifications.
  rewrite Hcmd, Hstatus, pendingMap_undeclared. reflexivity.
Qed.

(** Under the declared name the loop does what the handler is after:
    the oldest entry without a recorded password is resolved and removed. *)
Lemma passwordLoop_declared_name :
  let run_loop password :=
    entries <- pendingMap "pendingCreateUserPassword";;
    passwordLoop "pendingCreateUserPassword" password
                 (notification 0x68 0x10 (ascii_bytes password)) entries in
  exists w1 w2,
    run_loop "AAAAAA" two_pending = (Return tt, w1)
    /\ promises (host w1) = [Fulfilled (PasswordValue "AAAAAA"); Pending]
    /\ run_loop "BBBBBB" w1 = (Return tt, w2)
    /\ promises (host w2)
       = [Fulfilled (PasswordValue "AAAAAA"); Fulfilled (PasswordValue "BBBBBB")]
    /\ pendingCreateUserPassword (session w2) = [].
Proof.
  eexists _, _. split; [vm_compute; reflexivity|].
  split; [reflexivity|]. split; [vm_compute; reflexivity|].
  split; reflexivity.
Qed.

(** C2. Failing input: with the session authenticated, the calls
    [createUser(1000, ...)] and [createUser(1001, ...)] both throw a
    [ReferenceError] before anything is written, and each 0x68
    notification with status 0x10 makes the handler throw the same
    error: no promise is created or resolved and no password recorded. *)
Theorem createUser_scenario_throws :
  let w0 := mkWorld authenticated_session (fresh_host reliable) in
  let unbound := ReferenceError "pendingCreateUserPasswords" in
  createUser (Number (Num 1000)) some_date some_date (mkOptions false) w0 = (Throw unbound, w0)
  /\ createUser (Number (Num 1001)) some_date some_date (mkOptions false) w0 = (Throw unbound, w0)
  /\ exists w1 w2,
       handleNotifications (notification 0x68 0x10 (ascii_bytes "AAAAAA")) w0 = (Throw unbound, w1)
       /\ handleNotifications (notification 0x68 0x10 (ascii_bytes "BBBBBB")) w1 = (Throw unbound, w2)
       /\ promises (host w2) = []
       /\ latestPasswords (session w2) = ∅
       /\ attempts (host w2) = 0%nat.
Proof.
  cbv zeta. split; [apply createUser_ReferenceError; reflexivity|].
  split; [apply createUser_ReferenceError; reflexivity|].
  eexists _, _.
  split; [apply password_notification_ReferenceError; reflexivity|].
  split; [apply password_notification_ReferenceError; reflexivity|].
  repeat split.
Qed.

(** ** Reassembly of the user list *)

Section Reassembly.

Lemma notification_cmd (cmd status : Z) (payload : list Z) :
  notification cmd status payload !! 1%nat = Some cmd.
Proof. reflexivity. Qed.

Lemma notification_status (cmd status : Z) (payload : list Z) :
  notification cmd status payload !! 2%nat = Some status.
Proof. reflexivity. Qed.

Lemma notification_dataLength (cmd status : Z) (payload : list Z) :
  (length payload <= 255)%nat ->
  notification cmd status payload !! 3%nat = Some (Z.of_nat (length payload)).
Proof.
  intros Hlen. unfold notification. cbn [app lookup list_lookup].
  rewrite Z.mod_small by lia. reflexivity.
Qed.

Lemma notification_payload (cmd status : Z) (payload : list Z) :
  payloadOf (notification cmd status payload) (Some (Z.of_nat (length payload))) = payload.
Proof.
  unfold payloadOf, slice, notification. rewrite Nat2Z.id.
  cbn [app drop]. replace (6 + length payload - 6)%nat with (length payload) by lia.
  apply firstn_all.
Qed.

(** Two chunks of 24 bytes are two records. *)
Lemma parseUserData_two (p1 p2 : list Z) :
  length p1 = 24%nat -> length p2 = 24%nat ->
  parseUserData (p1 ++ p2) = [parseRecord p1; parseRecord p2].
Proof.
  intros H1 H2.
  assert (Hlen : length (p1 ++ p2) = 48%nat) by (rewrite length_app; lia).
  assert (Hc1 : slice 0 24 (p1 ++ p2) = p1).
  { unfold slice. rewrite drop_0. apply take_app_length'. lia. }
  assert (Hc2 : slice 24 48 (p1 ++ p2) = p2).
  { unfold slice. change (48 - 24)%nat with 24%nat.
    replace (drop 24 (p1 ++ p2)) with p2
      by (rewrite <- H1; symmetry; apply drop_app_length).
    rewrite <- H2. apply firstn_all. }
  unfold parseUserData. rewrite Hlen.
  rewrite parseUserData_from_step, Hlen.
  change (0 + 24)%nat with 24%nat. rewrite Hc1, H1.
  change (0 <? 48)%nat with true. change (24 <? 24)%nat with false. cbv iota.
  rewrite parseUserData_from_step, Hlen.
  change (24 + 24)%nat with 48%nat. rewrite Hc2, H2.
  change (24 <? 48)%nat with true. change (24 <? 24)%nat with false. cbv iota.
  rewrite parseUserData_from_step, Hlen. reflexivity.
Qed.

(** The parser as it runs returns what [parseUserData] computes; on
    the way it prints one line per invalid date and touches nothing
    else. *)
Lemma parseDateTimeM_run (bytes : list Z) (w : World) :
  exists tr, date_errors tr
    /\ parseDateTimeM bytes w = (Return (parseDateTime bytes), logged tr w).
Proof.
  unfold parseDateTimeM, parseDateTime. cbv zeta.
  destruct (bcd_at bytes 1 <? 1); [|destruct (12 <? bcd_at bytes 1)];
    [| |destruct (bcd_at bytes 2 <? 1); [|destruct (31 <? bcd_at bytes 2)];
        [| |destruct (23 <? bcd_at bytes 3); [|destruct (59 <? bcd_at bytes 4)]]];
    run;
    first [ exists []; split; [constructor|]; rewrite logged_nil; reflexivity
          | eexists [_]; split; [repeat constructor; eexists; reflexivity|reflexivity] ].
Qed.

Lemma parseRecordM_run (chunk : list Z) (w : World) :
  exists tr, date_errors tr
    /\ parseRecordM chunk w = (Return (parseRecord chunk), logged tr w).
Proof.
  unfold parseRecordM, parseRecord. cbv zeta. unfold bind.
  destruct (parseDateTimeM_run (slice 13 18 chunk) w) as (tr1 & H1 & ->).
  destruct (parseDateTimeM_run (slice 18 23 chunk) (logged tr1 w)) as (tr2 & H2 & ->).
  exists (tr1 ++ tr2). split; [apply Forall_app; split; assumption|].
  rewrite logged_app. reflexivity.
Qed.

Lemma parseUserDataM_from_run (dataBuffer : list Z) (fuel : nat) :
  forall (i : nat) (w : World),
    exists tr, date_errors tr
      /\ parseUserDataM_from fuel i dataBuffer w
         = (Return (parseUserData_from fuel i dataBuffer), logged tr w).
Proof.
  induction fuel as [|fuel IH]; intros i w.
  - exists []. split; [constructor|]. rewrite logged_nil. reflexivity.
  - cbn [parseUserDataM_from parseUserData_from].
    destruct (i <? length dataBuffer)%nat;
      [|exists []; split; [constructor|]; rewrite logged_nil; reflexivity].
    cbv zeta.
    destruct (length (slice i (i + 24) dataBuffer) <? 24)%nat;
      [exists []; split; [constructor|]; rewrite logged_nil; reflexivity|].
    unfold bind.
    destruct (parseRecordM_run (slice i (i + 24) dataBuffer) w) as (tr1 & H1 & ->).
    destruct (IH (i + 24)%nat (logged tr1 w)) as (tr2 & H2 & ->).
    exists (tr1 ++ tr2). split; [apply Forall_app; split; assumption|].
    rewrite logged_app. reflexivity.
Qed.

Lemma parseUserDataM_run (dataBuffer : list Z) (w : World) :
  exists tr, date_errors tr
    /\ parseUserDataM dataBuffer w = (Return (parseUserData dataBuffer), logged tr w).
Proof. apply parseUserDataM_from_run. Qed.

Lemma date_errors_user_lists (tr : list Effect) : date_errors tr -> user_lists tr = [].
Proof.
  induction 1 as [|e tr [x ->] _ IH]; [reflexivity|exact IH].
Qed.

Lemma user_lists_app (tr1 tr2 : list Effect) :
  user_lists (tr1 ++ tr2) = user_lists tr1 ++ user_lists tr2.
Proof.
  induction tr1 as [|e tr1 IH]; [reflexivity|].
  destruct e as [| | |text [| | | | | |]|]; cbn; rewrite ?IH; reflexivity.
Qed.

(** A partial fragment appends its payload to the buffer. *)
Lemma partial_fragment (w : World) (response : list Z) :
  response !! 1%nat = Some 0x6C -> response !! 2%nat = Some 0x24 ->
  let payload := payloadOf response (response !! 3%nat) in
  handleNotifications response w
  = (Return tt,
     mkWorld
       (set_userDataBuffer (userDataBuffer (session w) ++ payload) (session w))
       (set_trace
          (trace (host w)
           ++ [Console "Received response:" (Bytes response);
               Console "Received packet/part:" (Bytes [Z.of_nat (length payload)])])
          (host w))).
Proof.
  intros Hcmd Hstatus payload. subst payload.
  unfold handleNotifications. rewrite Hcmd, Hstatus. run.
  rewrite <- app_assoc. reflexivity.
Qed.

(** A final fragment appends its payload, parses the whole buffer and
    empties it. *)
Lemma final_fragment (w : World) (response : list Z) :
  response !! 1%nat = Some 0x6C -> response !! 2%nat = Some 0x10 ->
  let payload := payloadOf response (response !! 3%nat) in
  exists errors, date_errors errors
    /\ handleNotifications response w
       = (Return tt,
          mkWorld
            (set_userDataBuffer [] (session w))
            (set_trace
               (trace (host w)
                ++ [Console "Received response:" (Bytes response);
                    Console "Last packet/part received:" (Bytes [Z.of_nat (length payload)])]
                ++ errors
                ++ [Console "All users:"
                      (Users (parseUserData (userDataBuffer (session w) ++ payload)))])
               (host w))).
Proof.
  intros Hcmd Hstatus payload. subst payload.
  unfold handleNotifications. rewrite Hcmd, Hstatus. run.
  match goal with |- context [parseUserDataM ?buf ?x] =>
    destruct (parseUserDataM_run buf x) as (errors & Herrors & ->) end.
  exists errors. split; [exact Herrors|]. run.
  rewrite <- !app_assoc. reflexivity.
Qed.

End Reassembly.

Lemma record_of_parseRecord (chunk : list Z) : record_of chunk (parseRecord chunk).
Proof.
  unfold record_of, parseRecord, slice. cbn [valid type userId password validFrom validTo raw].
  rewrite drop_0. repeat split.
Qed.

(** The claim as first stated fails when the buffer still holds the
    bytes of an earlier listing whose final fragment never came: the
    two fragments of 24 bytes then give three records, not two. *)
Lemma user_list_reassembly_stale_buffer :
  let stale :=
    mkWorld (set_userDataBuffer record_1002 authenticated_session) (fresh_host reliable) in
  exists w1 w2 users,
    handleNotifications (notification 0x6C 0x24 record_1000) stale = (Return tt, w1)
    /\ handleNotifications (notification 0x6C 0x10 record_1001) w1 = (Return tt, w2)
    /\ user_lists (trace (host w2)) = [users]
    /\ length users = 3%nat
    /\ map userId users = ["1002"; "1000"; "1001"].
Proof.
  eexists _, _, _. split; [vm_compute; reflexivity|].
  split; [vm_compute; reflexivity|].
  split; [reflexivity|]. split; reflexivity.
Qed.

(** C5. A partial fragment (status 0x24) with 24 payload bytes followed
    by a final fragment (status 0x10) with 24 payload bytes: the handler
    returns on both, prints one list of records, parsed from what the
    buffer held before followed by the 48 bytes, and leaves the buffer
    empty. From an empty buffer these are exactly 2 records, the first
    read from the first payload and the second from the second. After
    any final fragment the buffer is empty, whatever it held and
    whatever the bytes are. *)
Theorem user_list_reassembly :
  (forall (w : World) (p1 p2 : list Z),
     length p1 = 24%nat -> length p2 = 24%nat ->
     exists w1 w2 users,
       handleNotifications (notification 0x6C 0x24 p1) w = (Return tt, w1)
       /\ handleNotifications (notification 0x6C 0x10 p2) w1 = (Return tt, w2)
       /\ userDataBuffer (session w2) = []
       /\ user_lists (trace (host w2)) = user_lists (trace (host w)) ++ [users]
       /\ users = parseUserData (userDataBuffer (session w) ++ p1 ++ p2)
       /\ (userDataBuffer (session w) = [] ->
           exists u1 u2, users = [u1; u2] /\ record_of p1 u1 /\ record_of p2 u2))
  /\ (forall (w : World) (response : list Z),
        response !! 1%nat = Some 0x6C -> response !! 2%nat = Some 0x10 ->
        exists w', handleNotifications response w = (Return tt, w')
                   /\ userDataBuffer (session w') = []).
Proof.
  split.
  - intros w p1 p2 H1 H2.
    pose proof (partial_fragment w (notification 0x6C 0x24 p1) eq_refl eq_refl) as Hfirst.
    cbv zeta in Hfirst.
    rewrite notification_dataLength, notification_payload in Hfirst by lia.
    match type of Hfirst with _ = (_, ?x) => set (w1 := x) in * end.
    destruct (final_fragment w1 (notification 0x6C 0x10 p2) eq_refl eq_refl)
      as (errors & Herrors & Hsecond).
    rewrite notification_dataLength, notification_payload in Hsecond by lia.
    eexists w1, _, _.
    split; [exact Hfirst|]. split; [exact Hsecond|].
    split; [reflexivity|].
    split; [|split].
    + cbn [host session trace set_trace]. subst w1. cbn [host session trace set_trace].
      rewrite !user_lists_app, (date_errors_user_lists errors Herrors).
      cbn [user_lists app]. rewrite app_nil_r. reflexivity.
    + subst w1. cbn [session userDataBuffer set_userDataBuffer].
      rewrite <- app_assoc. reflexivity.
    + intros Hbuf. rewrite Hbuf. cbn [app].
      exists (parseRecord p1), (parseRecord p2).
      split; [apply parseUserData_two; assumption|].
      split; apply record_of_parseRecord.
  - intros w response Hcmd Hstatus.
    destruct (final_fragment w response Hcmd Hstatus) as (errors & _ & Hrun).
    eexists. split; [exact Hrun|]. reflexivity.
Qed.

Lemma user_list_reassembly_witness :
  exists w1 w2,
    handleNotifications (notification 0x6C 0x24 record_1000)
                        (mkWorld authenticated_session (fresh_host reliable)) = (Return tt, w1)
    /\ handleNotifications (notification 0x6C 0x10 record_1001) w1 = (Return tt, w2)
    /\ userDataBuffer (session w2) = []
    /\ user_lists (trace (host w2))
       = [[ {| valid := true; type := "Periodic user"; userId := "1000";
               password := "123456"; validFrom := "2025-01-15 12:30";
               validTo := "2025-02-15 12:30"; raw := record_1000 |};
            {| valid := true; type := "Once code/user"; userId := "1001";
               password := "654321"; validFrom := "2025-01-15 12:30";
               validTo := "Invalid date/time (25:13:15:12:30)"; raw := record_1001 |} ]].
Proof.
  destruct (proj1 user_list_reassembly
              (mkWorld authenticated_session (fresh_host reliable))
              record_1000 record_1001 eq_refl eq_refl)
    as (w1 & w2 & users & Hfirst & Hsecond & Hbuf & Hlists & Husers & _).
  exists w1, w2. split; [exact Hfirst|]. split; [exact Hsecond|]. split; [exact Hbuf|].
  rewrite Hlists, Husers. vm_compute. reflexivity.
Defined.

(** ** Battery requests *)

Section Battery.

Lemma battery_frame_refl (w : World) : battery_frame w w.
Proof. unfold battery_frame. auto. Qed.

Lemma battery_frame_trans (w1 w2 w3 : World) :
  battery_frame w1 w2 -> battery_frame w2 w3 -> battery_frame w1 w3.
Proof. unfold battery_frame. intros (? & ? & ?) (? & ? & ?). repeat split; congruence. Qed.

Lemma keeps_ret {A} (a : A) : keeps (ret a).
Proof. intros w. apply battery_frame_refl. Qed.

Lemma keeps_throw {A} (e : exn) : keeps (@throw A e).
Proof. intros w. apply battery_frame_refl. Qed.

Lemma keeps_gets {A} (f : Session -> A) : keeps (gets f).
Proof. intros w. apply battery_frame_refl. Qed.

Lemma keeps_getsH {A} (f : Host -> A) : keeps (getsH f).
Proof. intros w. apply battery_frame_refl. Qed.

Lemma keeps_bind {A B} (m : M A) (k : A -> M B) :
  keeps m -> (forall a, keeps (k a)) -> keeps (bind m k).
Proof.
  intros Hm Hk w. unfold bind. specialize (Hm w).
  destruct (m w) as [[a|e] w1]; cbn in Hm |- *; [|exact Hm].
  eapply battery_frame_trans; [exact Hm|apply Hk].
Qed.

Lemma keeps_bind_throw {A B} (e : exn) (k : A -> M B) : keeps (bind (throw e) k).
Proof. intros w. apply battery_frame_refl. Qed.

Lemma keeps_try_catch {A} (m : M A) (h : exn -> M A) :
  keeps m -> (forall e, keeps (h e)) -> keeps (try_catch m h).
Proof.
  intros Hm Hh w. unfold try_catch. specialize (Hm w).
  destruct (m w) as [[a|e] w1]; cbn in Hm |- *; [exact Hm|].
  eapply battery_frame_trans; [exact Hm|apply Hh].
Qed.

Lemma keeps_emit (e : Effect) : keeps (emit e).
Proof. intros w. unfold battery_frame. run. auto. Qed.

Lemma keeps_console (text : string) (data : LogData) : keeps (console text data).
Proof. apply keeps_emit. Qed.

Lemma keeps_when (b : bool) (m : M unit) : keeps m -> keeps (when b m).
Proof. intros Hm. destruct b; [exact Hm|apply keeps_ret]. Qed.

Lemma keeps_modify (f : Session -> Session) :
  (forall s, pendingBatteryResolve (f s) = pendingBatteryResolve s) -> keeps (modify f).
Proof. intros Hf w. unfold battery_frame. run. auto. Qed.

Lemma keeps_startWrite (packet : list Z) : keeps (startWrite packet).
Proof.
  unfold startWrite.
  apply keeps_bind; [apply keeps_gets|]. intros [c|]; [|apply keeps_throw].
  apply keeps_bind; [apply keeps_getsH|]. intros n.
  apply keeps_bind; [apply keeps_getsH|]. intros accept.
  apply keeps_bind; [intros w; unfold battery_frame; run; auto|]. intros _.
  destruct (accept n); [|apply keeps_ret].
  apply keeps_bind; [apply keeps_emit|]. intros _. apply keeps_ret.
Qed.

Lemma keeps_parseUserDataM (dataBuffer : list Z) : keeps (parseUserDataM dataBuffer).
Proof.
  intros w. destruct (parseUserDataM_run dataBuffer w) as (tr & _ & ->).
  unfold battery_frame. cbn. auto.
Qed.

Ltac keeps_step :=
  first
    [ apply keeps_ret | apply keeps_throw | apply keeps_gets | apply keeps_getsH
    | apply keeps_console | apply keeps_emit | apply keeps_startWrite
    | apply keeps_parseUserDataM
    | apply keeps_bind_throw
    | apply keeps_when
    | apply keeps_modify; intros ?; reflexivity
    | apply keeps_bind; [|intros ?]
    | match goal with
      | |- keeps (if ?b then _ else _) => destruct b
      | |- keeps (match ?x with _ => _ end) => destruct x
      end ].

Lemma keeps_authenticateAdmin : keeps authenticateAdmin.
Proof. unfold authenticateAdmin. repeat keeps_step. Qed.

(** A notification that is not a battery response leaves the battery
    request alone. *)
Lemma keeps_other_notification (response : list Z) :
  response !! 1%nat <> Some 0x60 -> keeps (handleNotifications response).
Proof.
  intros Hcmd.
  assert (H60 : same (response !! 1%nat) 0x60 = false).
  { destruct (response !! 1%nat) as [c|]; [|reflexivity].
    apply Z.eqb_neq. intros ->. apply Hcmd. reflexivity. }
  unfold handleNotifications. cbv zeta. rewrite H60, pendingMap_undeclared.
  apply keeps_bind; [repeat keeps_step|]. intros _.
  repeat match goal with
         | |- keeps (if ?b then _ else _) => destruct b
         end;
    try (repeat keeps_step; fail).
  - apply keeps_bind; [repeat keeps_step|]. intros _.
    apply keeps_bind; [repeat keeps_step|]. intros _.
    apply keeps_authenticateAdmin.
Qed.

End Battery.

Section BatteryRequest.

Lemma deliver_returns (e : Event) (w : World) :
  exists w', deliver e w = (Return tt, w').
Proof.
  unfold deliver, try_catch.
  destruct (dispatch e w) as [[[]|x] w1]; [eauto|].
  run. eauto.
Qed.

Lemma deliver_other_notification (response : list Z) (w : World) :
  response !! 1%nat <> Some 0x60 ->
  exists w', deliver (Notification response) w = (Return tt, w') /\ battery_frame w w'.
Proof.
  intros Hcmd.
  assert (Hk : keeps (deliver (Notification response))).
  { unfold deliver. apply keeps_try_catch.
    - apply keeps_other_notification, Hcmd.
    - intros x. apply keeps_emit. }
  destruct (deliver_returns (Notification response) w) as [w' Hrun].
  exists w'. split; [exact Hrun|].
  specialize (Hk w). rewrite Hrun in Hk. exact Hk.
Qed.

(** Any number of other notifications. *)
Lemma deliverAll_other_notifications (others : list (list Z)) :
  Forall (fun response => response !! 1%nat <> Some 0x60) others ->
  forall w, exists w',
    deliverAll (map Notification others) w = (Return tt, w') /\ battery_frame w w'.
Proof.
  induction 1 as [|response others Hcmd _ IH]; intros w.
  - exists w. split; [reflexivity|apply battery_frame_refl].
  - destruct (deliver_other_notification response w Hcmd) as (w1 & Hrun1 & Hf1).
    destruct (IH w1) as (w' & Hrun & Hf).
    exists w'. split; [|eapply battery_frame_trans; eassumption].
    change (deliverAll (map Notification (response :: others)))
      with (deliver (Notification response);; deliverAll (map Notification others)).
    unfold bind. rewrite Hrun1. exact Hrun.
Qed.

(** A second request while one is outstanding. *)
Lemma getBatteryLevel_busy (w : World) (r : BatteryResolver) :
  pendingBatteryResolve (session w) = Some r ->
  exists w', getBatteryLevel w = (Return (length (promises (host w))), w')
    /\ promises (host w')
       = promises (host w) ++ [Rejected (Error "There is already a battery request running.")]
    /\ session w' = session w
    /\ attempts (host w') = attempts (host w)
    /\ timers (host w') = timers (host w)
    /\ trace (host w') = trace (host w) ++ [Console "[Requesting Battery Status..." NoData].
Proof.
  intros Hbusy. unfold getBatteryLevel, newPromise, settle. run.
  rewrite Hbusy. run.
  rewrite lookup_app_r by lia. rewrite Nat.sub_diag. run.
  eexists. split; [reflexivity|]. cbn.
  rewrite insert_app_r_alt by lia. rewrite Nat.sub_diag. repeat split.
Qed.

(** A request on an idle session whose write is accepted. *)
Lemma getBatteryLevel_outstanding (w : World) (c : Characteristic) :
  pendingBatteryResolve (session w) = None ->
  writeCharacteristic (session w) = Some c ->
  inbox (host w) = [] ->
  accepted_within 3 (host w) = true ->
  let p := length (promises (host w)) in
  let t := length (timers (host w)) in
  exists w1, getBatteryLevel w = (Return p, w1)
    /\ promises (host w1) = promises (host w) ++ [Pending]
    /\ timers (host w1) = timers (host w) ++ [mkTimer 5000 (BatteryTimeout p) true]
    /\ pendingBatteryResolve (session w1) = Some (mkBatteryResolver t p).
Proof.
  intros Hfree Hwc Hin Hacc p t. subst p t.
  unfold getBatteryLevel, newPromise, setTimeout. run. rewrite Hfree. run.
  match goal with |- context [writeWithRetry ?pkt 3 ?x] =>
    destruct (writeWithRetry_idle pkt x Hin) as (r & w1 & Hrun & Hq & Hres);
    rewrite Hrun end.
  cbn in Hres. rewrite Hwc in Hres.
  change (accepted_within 3 _) with (accepted_within 3 (host w)) in Hres.
  rewrite Hacc in Hres. subst r.
  destruct Hq as (Hs & _ & Hp & Ht & _).
  exists w1. split; [reflexivity|]. rewrite Hs, Hp, Ht. repeat split.
Qed.

(** The timer of an outstanding request fires. *)
Lemma fireTimer_timeout (w : World) (t p : nat) :
  timers (host w) !! t = Some (mkTimer 5000 (BatteryTimeout p) true) ->
  promises (host w) !! p = Some Pending ->
  exists w', fireTimer t w = (Return tt, w')
    /\ promises (host w') = <[p := Rejected (Error "Timeout after 5 seconds")]> (promises (host w))
    /\ pendingBatteryResolve (session w') = None.
Proof.
  intros Ht Hp. unfold fireTimer, clearTimeout, runTimer, settle. run.
  rewrite Ht. run. rewrite Ht. run. rewrite Hp. run.
  eexists. split; [reflexivity|]. split; reflexivity.
Qed.

(** A battery response to the outstanding request resolves it, clears
    its timer and frees the slot. *)
Lemma battery_response_resolves (w : World) (response : list Z) (t p : nat) (tm : Timer) :
  response !! 1%nat = Some 0x60 -> response !! 2%nat = Some 0x10 ->
  pendingBatteryResolve (session w) = Some (mkBatteryResolver t p) ->
  timers (host w) !! t = Some tm ->
  promises (host w) !! p = Some Pending ->
  exists w' result,
    handleNotifications response w = (Return tt, w')
    /\ promises (host w') = <[p := Fulfilled (BatteryValue result)]> (promises (host w))
    /\ timers (host w') = <[t := mkTimer (delay tm) (action tm) false]> (timers (host w))
    /\ pendingBatteryResolve (session w') = None.
Proof.
  intros Hcmd Hstatus Hslot Htimer Hpending.
  unfold handleNotifications, callBatteryResolve, clearTimeout, settle.
  rewrite Hcmd, Hstatus. run. rewrite Hslot. run. rewrite Htimer. run.
  rewrite Hpending. run.
  eexists _, _. split; [reflexivity|]. repeat split.
Qed.

(** A battery response when no request is pending. *)
Lemma stray_battery_response (w : World) (response : list Z) :
  response !! 1%nat = Some 0x60 ->
  pendingBatteryResolve (session w) = None ->
  exists w', handleNotifications response w = (Return tt, w')
    /\ session w' = session w
    /\ promises (host w') = promises (host w)
    /\ timers (host w') = timers (host w).
Proof.
  intros Hcmd Hfree. unfold handleNotifications. rewrite Hcmd. run.
  destruct (same (response !! 2%nat) 16); run.
  - rewrite Hfree. eexists. split; [reflexivity|]. repeat split.
  - eexists. split; [reflexivity|]. repeat split.
Qed.

End BatteryRequest.

(** What the guard and the timer do by themselves: [getBatteryLevel]
    rejects at once, writing nothing, while the pending slot is
    occupied. With the slot free, once its write is accepted, the
    request holds the slot with a timer of 5000 ms; if only
    notifications other than 0x60 arrive before the timer fires, the
    promise is rejected with the timeout error and the slot is
    cleared, and a 0x60 notification after that returns normally and
    settles nothing. *)
Lemma getBatteryLevel_guard_and_timeout :
  (forall (w : World) (r : BatteryResolver),
     pendingBatteryResolve (session w) = Some r ->
     exists w', getBatteryLevel w = (Return (length (promises (host w))), w')
       /\ promises (host w')
          = promises (host w) ++ [Rejected (Error "There is already a battery request running.")]
       /\ session w' = session w
       /\ attempts (host w') = attempts (host w)
       /\ timers (host w') = timers (host w)
       /\ trace (host w') = trace (host w) ++ [Console "[Requesting Battery Status..." NoData])
  /\ (forall (w : World) (c : Characteristic) (others : list (list Z)) (stray : list Z),
        pendingBatteryResolve (session w) = None ->
        writeCharacteristic (session w) = Some c ->
        inbox (host w) = [] ->
        accepted_within 3 (host w) = true ->
        Forall (fun response => response !! 1%nat <> Some 0x60) others ->
        stray !! 1%nat = Some 0x60 ->
        let p := length (promises (host w)) in
        let t := length (timers (host w)) in
        exists w1 w2 w3 w4,
          getBatteryLevel w = (Return p, w1)
          /\ promises (host w1) !! p = Some Pending
          /\ timers (host w1) !! t = Some (mkTimer 5000 (BatteryTimeout p) true)
          /\ pendingBatteryResolve (session w1) = Some (mkBatteryResolver t p)
          /\ deliverAll (map Notification others) w1 = (Return tt, w2)
          /\ pendingBatteryResolve (session w2) = Some (mkBatteryResolver t p)
          /\ fireTimer t w2 = (Return tt, w3)
          /\ promises (host w3) !! p = Some (Rejected (Error "Timeout after 5 seconds"))
          /\ pendingBatteryResolve (session w3) = None
          /\ handleNotifications stray w3 = (Return tt, w4)
          /\ promises (host w4) = promises (host w3)
          /\ session w4 = session w3).
Proof.
  split; [exact getBatteryLevel_busy|].
  intros w c others stray Hfree Hwc Hin Hacc Hothers Hstray p t.
  destruct (getBatteryLevel_outstanding w c Hfree Hwc Hin Hacc) as (w1 & Hrun1 & Hp1 & Ht1 & Hslot1).
  fold p t in Hrun1, Hp1, Ht1, Hslot1.
  assert (Hpending : promises (host w1) !! p = Some Pending).
  { rewrite Hp1. subst p. rewrite lookup_app_r by lia. rewrite Nat.sub_diag. reflexivity. }
  assert (Htimer : timers (host w1) !! t = Some (mkTimer 5000 (BatteryTimeout p) true)).
  { rewrite Ht1. subst t. rewrite lookup_app_r by lia. rewrite Nat.sub_diag. reflexivity. }
  destruct (deliverAll_other_notifications others Hothers w1) as (w2 & Hrun2 & Hslot2 & Hp2 & Ht2).
  rewrite <- Hp2 in Hpending. rewrite <- Ht2 in Htimer.
  destruct (fireTimer_timeout w2 t p Htimer Hpending) as (w3 & Hrun3 & Hp3 & Hslot3).
  destruct (stray_battery_response w3 stray Hstray Hslot3) as (w4 & Hrun4 & Hs4 & Hp4 & _).
  exists w1, w2, w3, w4.
  rewrite Hp2 in Hpending. rewrite Ht2 in Htimer.
  repeat split; try assumption.
  - rewrite Hslot2. exact Hslot1.
  - rewrite Hp3. apply list_lookup_insert_eq.
    rewrite Hp2, Hp1, length_app, Nat.add_1_r. apply Nat.lt_succ_diag_r.
Qed.

Lemma getBatteryLevel_guard_and_timeout_sample :
  exists w1 w2 w3 w4,
    getBatteryLevel (mkWorld authenticated_session (fresh_host reliable)) = (Return 0%nat, w1)
    /\ deliverAll [Notification (notification 0x21 0x10 [])] w1 = (Return tt, w2)
    /\ fireTimer 0 w2 = (Return tt, w3)
    /\ promises (host w3) !! 0%nat = Some (Rejected (Error "Timeout after 5 seconds"))
    /\ handleNotifications (notification 0x60 0x10 [0; 0; 0x14; 0x50]) w3 = (Return tt, w4)
    /\ promises (host w4) = promises (host w3).
Proof.
  destruct (proj2 getBatteryLevel_guard_and_timeout
              (mkWorld authenticated_session (fresh_host reliable))
              (mkCharacteristic "0000fff2-0000-1000-8000-00805f9b34fb")
              [notification 0x21 0x10 []]
              (notification 0x60 0x10 [0; 0; 0x14; 0x50])
              eq_refl eq_refl eq_refl eq_refl)
    as (w1 & w2 & w3 & w4 & H1 & _ & _ & _ & H2 & _ & H3 & H4 & _ & H5 & H6 & _).
  - constructor; [discriminate|constructor].
  - reflexivity.
  - exists w1, w2, w3, w4. repeat split; assumption.
Defined.

(** When the write of a request fails, its timer stays armed; firing
    later, it empties the slot of a newer request, whose response is
    then dropped. *)
Lemma stale_timer_clears_newer_request :
  let flaky := fun n : nat => (3 <=? n)%nat in
  exists w1 w2 w3 w4,
    getBatteryLevel (mkWorld authenticated_session (fresh_host flaky)) = (Return 0%nat, w1)
    /\ promises (host w1) = [Rejected (WriteError 2)]
    /\ getBatteryLevel w1 = (Return 1%nat, w2)
    /\ pendingBatteryResolve (session w2) = Some (mkBatteryResolver 1 1)
    /\ fireTimer 0 w2 = (Return tt, w3)
    /\ pendingBatteryResolve (session w3) = None
    /\ handleNotifications (notification 0x60 0x10 [0; 0; 0x14; 0x50]) w3 = (Return tt, w4)
    /\ promises (host w4) = [Rejected (WriteError 2); Pending].
Proof.
  eexists _, _, _, _.
  split; [vm_compute; reflexivity|]. split; [reflexivity|].
  split; [vm_compute; reflexivity|]. split; [reflexivity|].
  split; [vm_compute; reflexivity|]. split; [reflexivity|].
  split; [vm_compute; reflexivity|]. reflexivity.
Qed.

(** C6. Failing input: a transport that refuses the first three writes
    and accepts the later ones. The first request is rejected with the
    write error, but its timer of 5000 ms stays armed: the [catch]
    frees the slot without [clearTimeout]. A second request is
    accepted and holds the slot. When the timer of the first request
    fires it empties the slot, so a third request is accepted while
    the second is still pending: two requests are in flight, and the
    reply of the lock fulfils the third, not the second. *)
Theorem getBatteryLevel_two_in_flight :
  let flaky := fun n : nat => (3 <=? n)%nat in
  exists w1 w2 w3 w4 w5 result,
    getBatteryLevel (mkWorld authenticated_session (fresh_host flaky)) = (Return 0%nat, w1)
    /\ promises (host w1) = [Rejected (WriteError 2)]
    /\ pendingBatteryResolve (session w1) = None
    /\ timers (host w1) = [mkTimer 5000 (BatteryTimeout 0) true]
    /\ getBatteryLevel w1 = (Return 1%nat, w2)
    /\ promises (host w2) = [Rejected (WriteError 2); Pending]
    /\ pendingBatteryResolve (session w2) = Some (mkBatteryResolver 1 1)
    /\ fireTimer 0 w2 = (Return tt, w3)
    /\ pendingBatteryResolve (session w3) = None
    /\ promises (host w3) = [Rejected (WriteError 2); Pending]
    /\ getBatteryLevel w3 = (Return 2%nat, w4)
    /\ promises (host w4) = [Rejected (WriteError 2); Pending; Pending]
    /\ wrotes (trace (host w4)) = [createPacket 0x60 []; createPacket 0x60 []]
    /\ handleNotifications (notification 0x60 0x10 [0; 0; 0x14; 0x50]) w4 = (Return tt, w5)
    /\ promises (host w5)
       = [Rejected (WriteError 2); Pending; Fulfilled (BatteryValue result)]
    /\ voltage result = 5200.
Proof.
  eexists _, _, _, _, _, _.
  split; [vm_compute; reflexivity|]. split; [reflexivity|].
  split; [reflexivity|]. split; [reflexivity|].
  split; [vm_compute; reflexivity|]. split; [reflexivity|]. split; [reflexivity|].
  split; [vm_compute; reflexivity|]. split; [reflexivity|]. split; [reflexivity|].
  split; [vm_compute; reflexivity|]. split; [reflexivity|]. split; [reflexivity|].
  split; [vm_compute; reflexivity|]. split; reflexivity.
Qed.

(** * Further properties of the codecs *)

(** ** Frames built by [createPacket] *)

Lemma ToUint8_byte (n : number) : is_byte (ToUint8 n).
Proof.
  unfold is_byte. destruct n as [|z]; cbn; [lia|].
  pose proof (Z.mod_pos_bound z 256). lia.
Qed.

Lemma Uint8Array_is_bytes (l : list number) : Forall is_byte (Uint8Array l).
Proof. unfold Uint8Array. apply Forall_map, Forall_forall. intros n _. apply ToUint8_byte. Qed.


(** X1. Whatever the command and the data, numbers that are [NaN]
    included, the frame has [6 + data.length] elements, all of them
    bytes, with 0xF5 first, the command modulo 256, 0x00, the length
    modulo 256 and 0x5F at index 4. *)
Theorem createPacket_shape (cmd : Z) (data : list number) :
  length (createPacket cmd data) = (6 + length data)%nat
  /\ Forall is_byte (createPacket cmd data)
  /\ take 5 (createPacket cmd data)
     = [0xF5; cmd mod 256; 0x00; Z.of_nat (length data) mod 256; 0x5F]
  /\ drop 6 (createPacket cmd data) = Uint8Array data.
Proof.
  unfold createPacket. split; [|split; [|split]].
  - unfold Uint8Array. rewrite length_map, !length_app. cbn. lia.
  - apply Uint8Array_is_bytes.
  - reflexivity.
  - reflexivity.
Qed.

Lemma mod256_sum (a b c d : Z) :
  (a + c + (b mod 256) + d) mod 256 = (a + c + b + d) mod 256.
Proof.
  rewrite <- (Z.add_mod_idemp_l (a + c + b mod 256) d) by lia.
  rewrite (Z.add_mod_idemp_r (a + c) b) by lia.
  rewrite Z.add_mod_idemp_l by lia. reflexivity.
Qed.

(** X2. For a command byte and data bytes of any length, byte 5 of the
    frame is the low byte of the sum of the five header bytes as sent
    and of the data bytes as sent: the frame checks out at the
    receiver even when the length byte has wrapped. *)
Theorem createPacket_checksum (cmd : Z) (data : list Z) :
  is_byte cmd -> Forall is_byte data ->
  let frame := createPacket cmd (map Num data) in
  frame !! 5%nat
  = Some ((reduce_addZ (take 5 frame) + reduce_addZ (drop 6 frame)) mod 256)
  /\ drop 6 frame = data.
Proof.
  intros Hc Hd frame. subst frame.
  rewrite createPacket_bytes by assumption.
  cbn [app take drop lookup list_lookup]. split; [|reflexivity].
  f_equal. rewrite !reduce_addZ_cons, drop_0. change (reduce_addZ []) with 0.
  transitivity ((245 + cmd + Z.of_nat (length data) + (95 + reduce_addZ data)) mod 256);
    [f_equal; lia|].
  rewrite <- (mod256_sum 245 (Z.of_nat (length data)) cmd (95 + reduce_addZ data)).
  f_equal. lia.
Qed.

Lemma createPacket_checksum_witness :
  let frame := createPacket 0x0F (map Num (repeat 0x39 256)) in
  frame !! 5%nat
  = Some ((reduce_addZ (take 5 frame) + reduce_addZ (drop 6 frame)) mod 256)
  /\ drop 6 frame = repeat 0x39 256.
Proof.
  apply createPacket_checksum.
  - unfold is_byte; lia.
  - apply Forall_forall. intros x Hx%list_elem_of_In%repeat_spec. unfold is_byte; lia.
Defined.

Lemma fold_add_NaN (l : list number) : fold_left add l NaN = NaN.
Proof. induction l as [|x l IH]; [reflexivity|exact IH]. Qed.

Lemma fold_add_with_NaN (l : list number) (a : number) :
  In NaN l -> fold_left add l a = NaN.
Proof.
  revert a. induction l as [|x l IH]; intros a Hin; [destruct Hin|].
  destruct Hin as [->|Hin]; cbn.
  - destruct a; apply fold_add_NaN.
  - apply IH, Hin.
Qed.

(** X3. When an element of the data is [NaN] (a pair of a phone number
    that is not hexadecimal), the sum is [NaN]: the checksum byte is 0
    and the element goes out as byte 0. *)
Theorem createPacket_NaN (cmd : Z) (data : list number) :
  In NaN data ->
  createPacket cmd data !! 5%nat = Some 0
  /\ drop 6 (createPacket cmd data) = map ToUint8 data
  /\ ToUint8 NaN = 0.
Proof.
  intros Hnan. unfold createPacket, reduce_add.
  rewrite (fold_add_with_NaN data (Num 0) Hnan).
  replace (add _ NaN) with NaN by (destruct (fold_left add _ _); reflexivity).
  repeat split.
Qed.

Lemma createPacket_NaN_witness :
  createPacket 0x68 (Num 0x02 :: parsePhoneNumber (Str "12x4")) !! 5%nat = Some 0.
Proof.
  apply createPacket_NaN. vm_compute. tauto.
Defined.

(** X4. The payload slice of the handler never reads past the frame:
    its length is the smaller of the length byte and of what follows
    the six header bytes; a frame without a length byte has no payload. *)
Theorem payloadOf_length (response : list Z) :
  payloadOf response None = []
  /\ forall n : Z,
       length (payloadOf response (Some n))
       = Nat.min (Z.to_nat n) (length response - 6).
Proof.
  split; [reflexivity|]. intros n. unfold payloadOf, slice.
  rewrite length_take, length_drop. lia.
Qed.

(** ** BCD bytes and dates *)

Lemma bcdToDec_decToBcd (n : Z) : 0 <= n <= 99 -> bcdToDec (decToBcd n) = n.
Proof.
  intros Hn. apply Z.eqb_eq.
  apply (forallb_range (fun n => bcdToDec (decToBcd n) =? n) 0 100 bcd_roundtrip_check).
  lia.
Qed.

Lemma bcd_inverse_check :
  forallb (fun b => implb (is_bcd b)
                      ((decToBcd (bcdToDec b) =? b) && (bcdToDec b <=? 99)))
          (map (fun i => 0 + Z.of_nat i) (seq 0 256)) = true.
Proof. vm_compute. reflexivity. Qed.

Lemma decToBcd_bcd_check :
  forallb (fun n => is_bcd (decToBcd n))
          (map (fun i => 0 + Z.of_nat i) (seq 0 100)) = true.
Proof. vm_compute. reflexivity. Qed.

(** X5. [decToBcd] always returns a byte; on 0..99 the byte has two
    decimal nibbles; and for every byte with two decimal nibbles
    [decToBcd(bcdToDec(b)) = b], with [bcdToDec(b)] in 0..99. *)
Theorem bcd_bytes :
  (forall n : Z, is_byte (decToBcd n))
  /\ (forall n : Z, 0 <= n <= 99 -> is_bcd (decToBcd n) = true)
  /\ (forall b : Z, is_byte b -> is_bcd b = true ->
        decToBcd (bcdToDec b) = b /\ 0 <= bcdToDec b <= 99).
Proof.
  split; [|split].
  - intros n. unfold decToBcd.
    change 0xFF with (Z.ones 8). rewrite Z.land_ones by lia. unfold is_byte.
    pose proof (Z.mod_pos_bound (Z.lor (wrap32 (Z.shiftl (wrap32 (n / 10)) 4))
                                       (wrap32 (Z.rem n 10))) (2 ^ 8)) as Hmod.
    change (2 ^ 8) with 256 in *. lia.
  - intros n Hn.
    apply (forallb_range (fun n => is_bcd (decToBcd n)) 0 100 decToBcd_bcd_check). lia.
  - intros b Hb Hbcd. unfold is_byte in Hb.
    pose proof (forallb_range _ 0 256 bcd_inverse_check b ltac:(lia)) as Hchk.
    cbv beta in Hchk. rewrite Hbcd in Hchk. cbn [implb] in Hchk.
    apply andb_prop in Hchk as [H1 H2].
    apply Z.eqb_eq in H1. apply Z.leb_le in H2.
    split; [exact H1|]. split; [|exact H2].
    clear H1 H2. unfold bcdToDec. cbv zeta.
    pose proof (Z.land_nonneg (Z.shiftr (wrap32 b) 4) 0x0F) as [_ Hh].
    pose proof (Z.land_nonneg (wrap32 b) 0x0F) as [_ Hl].
    specialize (Hh ltac:(right; lia)). specialize (Hl ltac:(right; lia)). lia.
Qed.

Lemma bcd_bytes_witness :
  is_bcd (decToBcd 59) = true
  /\ decToBcd (bcdToDec 0x59) = 0x59 /\ 0 <= bcdToDec 0x59 <= 99.
Proof.
  destruct bcd_bytes as (_ & Hto & Hfrom). split.
  - apply Hto. lia.
  - apply Hfrom; [unfold is_byte; lia|reflexivity].
Defined.

(** X6. A date encoded by [dateToBcd] prints back from [parseDateTime]
    as the same month (1-based), day, hour and minute, and as the year
    2000 plus its last two digits: years outside 2000..2099 come back
    in that century. *)
Theorem date_roundtrip (d : Date) :
  0 <= getFullYear d ->
  0 <= getMonth d <= 11 -> 1 <= getDate d <= 31 ->
  0 <= getHours d <= 23 -> 0 <= getMinutes d <= 59 ->
  parseDateTime (dateToBcd d)
  = Z_toString 10 (2000 + getFullYear d mod 100) +:+ "-" +:+ pad2 (getMonth d + 1)
    +:+ "-" +:+ pad2 (getDate d) +:+ " " +:+ pad2 (getHours d)
    +:+ ":" +:+ pad2 (getMinutes d).
Proof.
  intros Hy Hmo Hd Hh Hmi.
  unfold parseDateTime, dateToBcd, bcd_at.
  cbn [lookup list_lookup from_option id].
  rewrite Z.rem_mod_nonneg by lia.
  pose proof (Z.mod_pos_bound (getFullYear d) 100 ltac:(lia)) as Hyy.
  rewrite !bcdToDec_decToBcd by lia.
  replace (getMonth d + 1 <? 1) with false by (symmetry; apply Z.ltb_ge; lia).
  replace (12 <? getMonth d + 1) with false by (symmetry; apply Z.ltb_ge; lia).
  replace (getDate d <? 1) with false by (symmetry; apply Z.ltb_ge; lia).
  replace (31 <? getDate d) with false by (symmetry; apply Z.ltb_ge; lia).
  replace (23 <? getHours d) with false by (symmetry; apply Z.ltb_ge; lia).
  replace (59 <? getMinutes d) with false by (symmetry; apply Z.ltb_ge; lia).
  cbn [orb]. rewrite (Z.add_comm _ 2000). reflexivity.
Qed.

Lemma date_roundtrip_witness :
  parseDateTime (dateToBcd (mkDate 2025 11 31 23 59)) = "2025-12-31 23:59".
Proof.
  apply (date_roundtrip (mkDate 2025 11 31 23 59)); cbn; lia.
Defined.

(** ** Lists of user records *)

Lemma parseUserData_from_records (buf : list Z) (fuel : nat) :
  forall i : nat,
    (length buf - i <= 24 * fuel)%nat ->
    parseUserData_from fuel i buf
    = map (fun k => parseRecord (slice (i + 24 * k) (i + 24 * k + 24) buf))
          (seq 0 ((length buf - i) / 24)).
Proof.
  induction fuel as [|fuel IH]; intros i Hfuel.
  - replace (length buf - i)%nat with 0%nat by lia. reflexivity.
  - rewrite parseUserData_from_step.
    destruct (i <? length buf)%nat eqn:Hi.
    + apply Nat.ltb_lt in Hi.
      assert (Hchunk : length (slice i (i + 24) buf) = Nat.min 24 (length buf - i)).
      { unfold slice. rewrite length_take, length_drop. lia. }
      destruct (length (slice i (i + 24) buf) <? 24)%nat eqn:Hshort.
      * apply Nat.ltb_lt in Hshort.
        rewrite Nat.div_small by lia. reflexivity.
      * apply Nat.ltb_ge in Hshort.
        replace (length buf - i)%nat with (1 * 24 + (length buf - (i + 24)))%nat by lia.
        rewrite Nat.div_add_l by lia.
        cbn [Nat.add seq map]. rewrite <- seq_shift, map_map.
        f_equal.
        -- f_equal; f_equal; lia.
        -- rewrite IH by lia. apply map_ext. intros k. f_equal. f_equal; lia.
    + apply Nat.ltb_ge in Hi.
      replace (length buf - i)%nat with 0%nat by lia. reflexivity.
Qed.

Lemma parseUserData_chunks (buf : list Z) :
  parseUserData buf
  = map (fun k => parseRecord (slice (24 * k) (24 * k + 24) buf))
        (seq 0 (length buf / 24)).
Proof.
  unfold parseUserData. rewrite parseUserData_from_records by lia.
  rewrite Nat.sub_0_r. reflexivity.
Qed.

(** X7. [parseUserData] returns one record per complete 24-byte chunk
    of the buffer, in order, each read from its own chunk; a trailing
    remainder shorter than 24 bytes, an empty buffer included, yields
    nothing. *)
Theorem parseUserData_records (buf : list Z) :
  parseUserData buf
  = map (fun k => parseRecord (slice (24 * k) (24 * k + 24) buf))
        (seq 0 (length buf / 24))
  /\ length (parseUserData buf) = (length buf / 24)%nat.
Proof.
  split; [apply parseUserData_chunks|].
  rewrite parseUserData_chunks, length_map, length_seq. reflexivity.
Qed.

(** Records in front of more data are parsed the same. *)
Lemma parseUserData_app (a b : list Z) (n : nat) :
  length a = (24 * n)%nat ->
  parseUserData (a ++ b) = parseUserData a ++ parseUserData b.
Proof.
  intros Ha.
  rewrite !parseUserData_chunks.
  rewrite length_app, Ha.
  replace (24 * n + length b)%nat with (n * 24 + length b)%nat by lia.
  rewrite Nat.div_add_l by lia.
  replace (24 * n / 24)%nat with n by (rewrite Nat.mul_comm, Nat.div_mul; lia).
  rewrite seq_app, map_app. f_equal.
  - apply map_ext_in. intros k Hk%in_seq. f_equal.
    unfold slice. rewrite !drop_app_le by lia.
    replace (24 * k + 24 - 24 * k)%nat with 24%nat by lia.
    rewrite take_app_le by (rewrite length_drop; lia). reflexivity.
  - cbn [Nat.add]. rewrite <- (Nat.add_0_r n) at 1.
    rewrite <- (fmap_add_seq n 0). change (fmap ?f ?l) with (map f l). rewrite map_map.
    apply map_ext. intros k. f_equal. unfold slice.
    replace (24 * (n + k))%nat with (length a + 24 * k)%nat by lia.
    rewrite drop_app_add. f_equal. lia.
Qed.

(** ** User ids, from bytes and from numbers *)

Section UserIdBytes.

Lemma hex_pair_check :
  forallb (fun b =>
             match padStart 2 "0" (Z_toString 16 b) with
             | String c1 (String c2 EmptyString) =>
                 match parseInt16 (String c1 (String c2 EmptyString)) with
                 | Num v => v =? b
                 | NaN => false
                 end
             | _ => false
             end)
          (map (fun i => 0 + Z.of_nat i) (seq 0 256)) = true.
Proof. vm_compute. reflexivity. Qed.

(** A byte prints as two hexadecimal digits that read back as the byte. *)
Lemma hex_pair (b : Z) :
  is_byte b ->
  exists c1 c2,
    padStart 2 "0" (toString 16 (Num b)) = String c1 (String c2 EmptyString)
    /\ parseInt16 (String c1 (String c2 EmptyString)) = Num b.
Proof.
  intros Hb. unfold is_byte in Hb.
  pose proof (forallb_range _ 0 256 hex_pair_check b ltac:(lia)) as Hchk.
  cbv beta in Hchk. cbn [toString].
  destruct (padStart 2 "0" (Z_toString 16 b)) as [|c1 [|c2 [|c3 r]]]; try discriminate Hchk.
  exists c1, c2. split; [reflexivity|].
  destruct (parseInt16 (String c1 (String c2 EmptyString))) as [|v]; [discriminate Hchk|].
  apply Z.eqb_eq in Hchk. subst v. reflexivity.
Qed.

Lemma strip_keeps_nonzero (c : ascii) (r : string) :
  c <> "0"%char -> strip_leading_zeros (String c r) = String c r.
Proof.
  intros Hc.
  destruct c as [[] [] [] [] [] [] [] []]; try reflexivity.
  exfalso. apply Hc. reflexivity.
Qed.

Lemma strip_length (s : string) :
  (String.length (strip_leading_zeros s) <= String.length s)%nat.
Proof.
  induction s as [|c s IH]; [reflexivity|].
  destruct (ascii_dec c "0") as [->|Hc].
  - cbn. lia.
  - rewrite strip_keeps_nonzero by exact Hc. reflexivity.
Qed.

(** Padding with zeros undoes the stripping of leading zeros. *)
Lemma padStart_strip (s : string) :
  padStart (String.length s) "0" (strip_leading_zeros s) = s.
Proof.
  induction s as [|c s IH]; [reflexivity|].
  destruct (ascii_dec c "0") as [->|Hc].
  - change (strip_leading_zeros (String "0" s)) with (strip_leading_zeros s).
    unfold padStart in IH |- *. pose proof (strip_length s) as Hlen.
    cbn [String.length].
    replace (S (String.length s) - String.length (strip_leading_zeros s))%nat
      with (S (String.length s - String.length (strip_leading_zeros s))) by lia.
    cbn [replicate_char].
    transitivity (String "0" (replicate_char
                    (String.length s - String.length (strip_leading_zeros s)) "0"
                  +:+ strip_leading_zeros s)); [reflexivity|].
    rewrite IH. reflexivity.
  - rewrite strip_keeps_nonzero by exact Hc.
    unfold padStart. rewrite Nat.sub_diag. reflexivity.
Qed.

End UserIdBytes.

(** X8. Decoding six id bytes with [parseUserId] and encoding the
    string again with [parsePhoneNumber] gives back the six bytes, for
    all byte values (hexadecimal letters included). *)
Theorem userId_bytes_roundtrip (bytes : list Z) :
  length bytes = 6%nat -> Forall is_byte bytes ->
  parsePhoneNumber (Str (parseUserId (map Num bytes))) = map Num bytes.
Proof.
  intros Hlen Hbytes.
  do 6 (destruct bytes as [|? bytes]; [discriminate Hlen|]).
  destruct bytes; [|discriminate Hlen].
  repeat match goal with
         | H : Forall is_byte (_ :: _) |- _ => apply Forall_cons in H; destruct H as [? H]
         end.
  repeat match goal with
         | H : is_byte ?b |- _ =>
             let c1 := fresh "c" in let c2 := fresh "c" in
             let Hs := fresh "Hs" in let Hp := fresh "Hp" in
             destruct (hex_pair b H) as (c1 & c2 & Hs & Hp); clear H
         end.
  unfold parseUserId, parsePhoneNumber. cbn [map String_of].
  repeat match goal with H : padStart 2 _ _ = _ |- _ => rewrite H; clear H end.
  cbv [String.concat String.append].
  match goal with |- context [strip_leading_zeros ?p] =>
    change 12%nat with (String.length p); rewrite (padStart_strip p) end.
  cbv [substr substring].
  repeat match goal with H : parseInt16 _ = _ |- _ => rewrite H; clear H end.
  reflexivity.
Qed.

Lemma userId_bytes_roundtrip_witness :
  parsePhoneNumber (Str (parseUserId (map Num [0x00; 0x0A; 0xFF; 0x10; 0x00; 0x7B])))
  = map Num [0x00; 0x0A; 0xFF; 0x10; 0x00; 0x7B].
Proof.
  apply userId_bytes_roundtrip; [reflexivity|].
  repeat constructor; unfold is_byte; lia.
Defined.

Section Decimal.

Lemma digit_char_digit (d : Z) :
  0 <= d <= 9 -> is_digit (digit_char d) = true /\ (digit_char d = "0"%char -> d = 0).
Proof.
  intros Hd.
  assert (Hcases : d = 0 \/ d = 1 \/ d = 2 \/ d = 3 \/ d = 4 \/ d = 5 \/ d = 6
                   \/ d = 7 \/ d = 8 \/ d = 9) by lia.
  repeat destruct Hcases as [->|Hcases]; try subst d;
    (split; [reflexivity|]); intros Heq; try reflexivity; vm_compute in Heq; discriminate Heq.
Qed.

Lemma append_cons (x : ascii) (a b : string) : String x a +:+ b = String x (a +:+ b).
Proof. reflexivity. Qed.

Lemma append_nil_right (s : string) : s +:+ EmptyString = s.
Proof.
  induction s as [|x s IH]; [reflexivity|]. rewrite append_cons, IH. reflexivity.
Qed.

Lemma append_assoc_char (a b : string) (c : ascii) :
  a +:+ String c b = (a +:+ String c EmptyString) +:+ b.
Proof.
  induction a as [|x a IH]; [reflexivity|]. rewrite !append_cons, IH. reflexivity.
Qed.

Lemma all_digits_snoc (a : string) (c : ascii) :
  all_digits a = true -> is_digit c = true ->
  all_digits (a +:+ String c EmptyString) = true.
Proof.
  intros Ha Hc. induction a as [|x a IH].
  - change (is_digit c && true = true). rewrite Hc. reflexivity.
  - rewrite append_cons. cbn [all_digits] in Ha |- *.
    apply andb_prop in Ha as [Hx Ha]. rewrite Hx, IH by exact Ha. reflexivity.
Qed.

Lemma length_snoc (a : string) (c : ascii) :
  String.length (a +:+ String c EmptyString) = S (String.length a).
Proof.
  induction a as [|x a IH]; [reflexivity|].
  rewrite append_cons. cbn [String.length]. rewrite IH. reflexivity.
Qed.

(** The digits [digits_of] puts in front of [acc], given enough fuel:
    decimal digits, at most [k] of them for a number below [10^k], the
    first of them not a zero for a positive number. *)
Lemma digits_of_decimal (fuel : nat) :
  forall (n : Z) (acc : string) (k : nat),
    (1 <= fuel)%nat ->
    0 <= n < 2 ^ Z.of_nat fuel -> n < 10 ^ Z.of_nat k -> (1 <= k)%nat ->
    exists (c : ascii) (D : string),
      digits_of fuel 10 n acc = String c D +:+ acc
      /\ all_digits (String c D) = true
      /\ (String.length (String c D) <= k)%nat
      /\ (0 < n -> c <> "0"%char).
Proof.
  induction fuel as [|fuel IH]; intros n acc k Hfuel Hn Hk Hk1; [lia|].
  cbn [digits_of].
  {
    assert (Hmod : 0 <= n mod 10 <= 9) by (pose proof (Z.mod_pos_bound n 10); lia).
    destruct (digit_char_digit (n mod 10) Hmod) as [Hdig Hzero].
    destruct (n / 10 =? 0) eqn:Hq.
    + apply Z.eqb_eq in Hq.
      exists (digit_char (n mod 10)), EmptyString. repeat split.
      * cbn. rewrite Hdig. reflexivity.
      * cbn. lia.
      * intros Hpos Heq. apply Hzero in Heq.
        pose proof (Z.div_mod n 10 ltac:(lia)). lia.
    + apply Z.eqb_neq in Hq.
      assert (Hn10 : 10 <= n).
      { destruct (Z_lt_le_dec n 10) as [Hlt|]; [|assumption].
        exfalso. apply Hq. apply Z.div_small. lia. }
      assert (Hk2 : (2 <= k)%nat).
      { destruct k as [|[|k]]; [lia| |lia]. cbn in Hk. lia. }
      assert (Hq1 : 1 <= n / 10) by (apply Z.div_le_lower_bound; lia).
      assert (Hq2 : n / 10 < 2 ^ Z.of_nat fuel).
      { apply Z.div_lt_upper_bound; [lia|].
        rewrite Nat2Z.inj_succ, Z.pow_succ_r in Hn by lia. lia. }
      destruct (IH (n / 10) (String (digit_char (n mod 10)) acc) (k - 1)%nat)
        as (c & D & Hrun & Hall & Hlen & Hfirst).
      * destruct fuel as [|fuel']; [cbn in Hq2; lia|lia].
      * split; [apply Z.div_pos; lia|].
        apply Z.div_lt_upper_bound; [lia|].
        rewrite Nat2Z.inj_succ, Z.pow_succ_r in Hn by lia. lia.
      * apply Z.div_lt_upper_bound; [lia|].
        replace (Z.of_nat k) with (Z.succ (Z.of_nat (k - 1))) in Hk by lia.
        rewrite Z.pow_succ_r in Hk by lia. lia.
      * lia.
      * exists c, (D +:+ String (digit_char (n mod 10)) EmptyString).
        split; [|split; [|split]].
        -- rewrite Hrun, !append_cons. f_equal. apply append_assoc_char.
        -- change (String c (D +:+ String (digit_char (n mod 10)) EmptyString))
             with (String c D +:+ String (digit_char (n mod 10)) EmptyString).
           apply all_digits_snoc; assumption.
        -- cbn [String.length] in Hlen |- *. rewrite length_snoc. lia.
        -- intros _. apply Hfirst.
           assert (1 <= n / 10) by (apply Z.div_le_lower_bound; lia). lia.
  }
Qed.

Lemma Z_toString_decimal (n : Z) (k : nat) :
  0 < n < 10 ^ Z.of_nat k ->
  all_digits (Z_toString 10 n) = true
  /\ (String.length (Z_toString 10 n) <= k)%nat
  /\ strip_leading_zeros (Z_toString 10 n) = Z_toString 10 n.
Proof.
  intros Hn. unfold Z_toString.
  replace (n <? 0) with false by (symmetry; apply Z.ltb_ge; lia).
  assert (Hk1 : (1 <= k)%nat).
  { destruct k as [|k]; [cbn in Hn; lia|lia]. }
  destruct (digits_of_decimal (S (Z.to_nat (Z.log2 n))) n EmptyString k)
    as (c & D & Hrun & Hall & Hlen & Hfirst).
  - lia.
  - split; [lia|].
    rewrite Nat2Z.inj_succ, Z2Nat.id by apply Z.log2_nonneg.
    apply Z.log2_spec. lia.
  - lia.
  - exact Hk1.
  - rewrite append_nil_right in Hrun. rewrite Hrun.
    split; [exact Hall|]. split; [exact Hlen|].
    apply strip_keeps_nonzero, Hfirst. lia.
Qed.

End Decimal.

(** X9. A numeric id [n] with [0 < n < 10^12], as the README passes
    them, comes back from [parseUserId(parsePhoneNumber(n))] as the
    decimal digits of [n]. *)
Theorem numeric_userId_roundtrip (n : Z) :
  0 < n < 10 ^ 12 ->
  parseUserId (parsePhoneNumber (Number (Num n))) = Z_toString 10 n.
Proof.
  intros Hn.
  destruct (Z_toString_decimal n 12 Hn) as (Hall & Hlen & Hstrip).
  change (parsePhoneNumber (Number (Num n)))
    with (parsePhoneNumber (Str (Z_toString 10 n))).
  rewrite parseUserId_parsePhoneNumber by assumption.
  exact Hstrip.
Qed.

Lemma numeric_userId_roundtrip_witness :
  parseUserId (parsePhoneNumber (Number (Num 1000))) = "1000".
Proof. apply (numeric_userId_roundtrip 1000). lia. Defined.

(** X10. Only the first 12 characters of an id count: a longer string
    is encoded as its first 12 characters. *)
Theorem parsePhoneNumber_truncates (s : string) :
  (12 <= String.length s)%nat ->
  parsePhoneNumber (Str s) = parsePhoneNumber (Str (substring 0 12 s)).
Proof.
  intros Hlen.
  do 12 (destruct s as [|? s]; [cbn in Hlen; lia|]).
  unfold parsePhoneNumber, padStart.
  cbv [String_of String.length Nat.sub replicate_char String.append substr substring].
  destruct s; reflexivity.
Qed.

Lemma parsePhoneNumber_truncates_witness :
  parsePhoneNumber (Str "1234567890123456") = parsePhoneNumber (Str "123456789012").
Proof. apply (parsePhoneNumber_truncates "1234567890123456"). cbn. lia. Defined.

(** ** Passwords of user records *)

Lemma code_char_char_code (c : ascii) : code_char (char_code c) = c.
Proof.
  unfold code_char, char_code.
  pose proof (N_ascii_bounded c) as Hb.
  rewrite Z.mod_small by lia.
  rewrite N2Z.id. apply ascii_N_embedding.
Qed.

Lemma remove_nul_padding (n : nat) :
  remove_nul (fromCharCode (repeat 0 n)) = EmptyString.
Proof. induction n as [|n IH]; [reflexivity|exact IH]. Qed.

(** X11. [parsePassword] gives back a password stored as its character
    codes followed by any number of zero bytes, when the password has
    no character of code 0. *)
Theorem parsePassword_padded (pw : string) (n : nat) :
  nul_free pw = true ->
  parsePassword (ascii_bytes pw ++ repeat 0 n) = pw.
Proof.
  intros Hpw. unfold parsePassword, ascii_bytes.
  induction pw as [|c pw IH].
  - apply remove_nul_padding.
  - cbn [nul_free] in Hpw. apply andb_prop in Hpw as [Hc Hpw].
    cbn [list_ascii_of_string map app]. unfold fromCharCode in IH |- *.
    cbn [map string_of_list_ascii remove_nul].
    rewrite code_char_char_code.
    apply negb_true_iff in Hc. rewrite Hc.
    rewrite (IH Hpw). reflexivity.
Qed.

Lemma parsePassword_padded_witness :
  parsePassword (ascii_bytes "1234" ++ repeat 0 2) = "1234".
Proof. apply parsePassword_padded. reflexivity. Defined.

(** ** Log entries *)

Lemma log_phone_byte_check :
  forallb (fun b =>
             ToUint8 (Number_of_hex_string (Z_toString 16 b))
             =? (if is_bcd b then bcdToDec b else 0))
          (map (fun i => 0 + Z.of_nat i) (seq 0 256)) = true.
Proof. vm_compute. reflexivity. Qed.

Lemma log_phone_byte (b : Z) :
  is_byte b ->
  ToUint8 (Number_of_hex_string (Z_toString 16 b)) = if is_bcd b then bcdToDec b else 0.
Proof.
  intros Hb. unfold is_byte in Hb. apply Z.eqb_eq.
  apply (forallb_range _ 0 256 log_phone_byte_check b). lia.
Qed.

Lemma show_at_drop (bytes : list Z) (n i : nat) :
  show_at (drop n bytes) i = show_at bytes (n + i).
Proof. unfold show_at. rewrite lookup_drop. reflexivity. Qed.

(** X12. [parseLogData] skips five bytes of the six-byte header: the
    actor type is read from frame byte 5 (the checksum), the phone from
    bytes 6..11, the date from bytes 12..14 and the time from bytes
    15..16, these printed in decimal. A phone byte prints as the
    decimal reading of its two hexadecimal digits when both are decimal
    digits, and as 0 otherwise. *)
Theorem parseLogData_fields (response : list Z) :
  Forall is_byte response ->
  parseLogData response
  = {| log_type :=
         if decide (response !! 5%nat = Some 0x01) then "Beheerder" else "Gebruiker";
       telefoonnummer :=
         String.concat ":"
           (map (fun b => Z_toString 10 (if is_bcd b then bcdToDec b else 0))
                (slice 6 12 response));
       datum := show_at response 12 +:+ "-" +:+ show_at response 13
                +:+ "-" +:+ show_at response 14;
       tijd := show_at response 15 +:+ ":" +:+ show_at response 16 |}.
Proof.
  intros Hbytes. unfold parseLogData.
  rewrite !show_at_drop. rewrite lookup_drop.
  assert (Hslice : slice 1 7 (drop 5 response) = slice 6 12 response).
  { unfold slice. rewrite drop_drop. reflexivity. }
  rewrite Hslice.
  assert (Hphone :
    map (Z_toString 10)
        (Uint8Array (map (fun b => Number_of_hex_string (Z_toString 16 b))
                         (slice 6 12 response)))
    = map (fun b => Z_toString 10 (if is_bcd b then bcdToDec b else 0))
          (slice 6 12 response)).
  { unfold Uint8Array. rewrite !map_map. apply map_ext_Forall.
    unfold slice. apply Forall_take, Forall_drop.
    eapply Forall_impl; [exact Hbytes|].
    intros b Hb. cbv beta. rewrite log_phone_byte by exact Hb. reflexivity. }
  rewrite Hphone. reflexivity.
Qed.

Lemma parseLogData_fields_witness :
  telefoonnummer
    (parseLogData [0xF5; 0x72; 0x10; 0x0B; 0x5F; 0x01;
                   0x01; 0x58; 0x1A; 0x0F; 0x54; 0x70; 25; 12; 31; 23; 59])
  = "1:58:0:0:54:70".
Proof.
  rewrite parseLogData_fields; [reflexivity|].
  repeat constructor; unfold is_byte; lia.
Defined.

(** * Further properties of the session *)

(** ** Writes with retry *)

Lemma wrotes_app (tr1 tr2 : list Effect) : wrotes (tr1 ++ tr2) = wrotes tr1 ++ wrotes tr2.
Proof.
  induction tr1 as [|e tr1 IH]; [reflexivity|].
  destruct e; cbn; rewrite IH; reflexivity.
Qed.

(** [writeWithRetry(packet)] on an idle session with a write
    characteristic, by the answers of the transport to the next three
    attempts. *)
Lemma writeWithRetry_attempts (w : World) (c : Characteristic) (packet : list Z) :
  writeCharacteristic (session w) = Some c ->
  inbox (host w) = [] ->
  exists r w' tr,
    writeWithRetry packet 3 w = (r, w')
    /\ session w' = session w
    /\ link (host w') = link (host w)
    /\ promises (host w') = promises (host w)
    /\ timers (host w') = timers (host w)
    /\ inbox (host w') = []
    /\ trace (host w') = trace (host w) ++ tr
    /\ (if accepted_within 3 (host w)
        then r = Return tt /\ wrotes tr = [packet]
        else r = Throw (WriteError (attempts (host w) + 2)) /\ wrotes tr = []
             /\ attempts (host w') = (attempts (host w) + 3)%nat)
    /\ (attempts (host w) < attempts (host w') <= attempts (host w) + 3)%nat
    /\ sleeps tr = repeat 100 (attempts (host w') - attempts (host w) - 1).
Proof.
  intros Hwc Hin.
  assert (Hd1 : (S (attempts (host w)) - attempts (host w) - 1 = 0)%nat) by lia.
  assert (Hd2 : (S (S (attempts (host w))) - attempts (host w) - 1 = 1)%nat) by lia.
  assert (Hd3 : (S (S (S (attempts (host w)))) - attempts (host w) - 1 = 2)%nat) by lia.
  unfold accepted_within. cbn [accepted_from].
  cbv [writeWithRetry writeWithRetry_from]. unfold writeValue, startWrite, sleep.
  change (Z.of_nat 0 =? Z.of_nat 3 - 1) with false.
  change (Z.of_nat 1 =? Z.of_nat 3 - 1) with false.
  change (Z.of_nat 2 =? Z.of_nat 3 - 1) with true.
  run. rewrite Hwc. run.
  destruct (link (host w) (attempts (host w))) eqn:H0; run;
    rewrite yield_idle by exact Hin; run.
  { eexists _, _, _. split; [reflexivity|]. cbn.
    repeat split; try assumption; try lia.
    - rewrite <- app_assoc. reflexivity.
    - reflexivity.
    - rewrite Hd1. reflexivity. }
  rewrite yield_idle by exact Hin. run. rewrite Hwc. run.
  destruct (link (host w) (S (attempts (host w)))) eqn:H1; run;
    rewrite yield_idle by exact Hin; run.
  { eexists _, _, _. split; [reflexivity|]. cbn.
    repeat split; try assumption; try lia.
    - rewrite <- !app_assoc. reflexivity.
    - reflexivity.
    - rewrite Hd2. reflexivity. }
  rewrite yield_idle by exact Hin. run. rewrite Hwc. run.
  destruct (link (host w) (S (S (attempts (host w))))) eqn:H2; run;
    rewrite yield_idle by exact Hin; run.
  { eexists _, _, _. split; [reflexivity|]. cbn.
    repeat split; try assumption; try lia.
    - rewrite <- !app_assoc. reflexivity.
    - reflexivity.
    - rewrite Hd3. reflexivity. }
  eexists _, _, _. split; [reflexivity|]. cbn.
  repeat split; try assumption; try lia.
  - rewrite <- !app_assoc. reflexivity.
  - f_equal. f_equal. lia.
  - reflexivity.
  - rewrite Hd3. reflexivity.
Qed.

(** Without a write characteristic every attempt throws before it
    reaches the transport. *)
Lemma writeWithRetry_no_characteristic (w : World) (packet : list Z) :
  writeCharacteristic (session w) = None ->
  inbox (host w) = [] ->
  exists text w' tr,
    writeWithRetry packet 3 w = (Throw (TypeError text), w')
    /\ session w' = session w
    /\ attempts (host w') = attempts (host w)
    /\ promises (host w') = promises (host w)
    /\ timers (host w') = timers (host w)
    /\ trace (host w') = trace (host w) ++ tr
    /\ wrotes tr = []
    /\ sleeps tr = [100; 100].
Proof.
  intros Hwc Hin.
  cbv [writeWithRetry writeWithRetry_from]. unfold writeValue, startWrite, sleep.
  change (Z.of_nat 0 =? Z.of_nat 3 - 1) with false.
  change (Z.of_nat 1 =? Z.of_nat 3 - 1) with false.
  change (Z.of_nat 2 =? Z.of_nat 3 - 1) with true.
  run. rewrite Hwc. run. rewrite yield_idle by exact Hin. run.
  rewrite Hwc. run. rewrite yield_idle by exact Hin. run.
  rewrite Hwc. run.
  eexists _, _, _. split; [reflexivity|]. cbn.
  repeat split.
  - rewrite <- !app_assoc. reflexivity.
  - reflexivity.
  - reflexivity.
Qed.

(** X13. On a session with a write characteristic and no event
    arriving meanwhile, [writeWithRetry] makes between one and three
    attempts, sleeping 100 ms between two attempts. It returns exactly
    when the transport accepts one of them, and then the packet has
    gone out exactly once; otherwise it throws the error of the third
    attempt and nothing has gone out. The session, the promises and the
    timers are untouched. *)
Theorem writeWithRetry_once (w : World) (c : Characteristic) (packet : list Z) :
  writeCharacteristic (session w) = Some c ->
  inbox (host w) = [] ->
  exists r w' tr,
    writeWithRetry packet 3 w = (r, w')
    /\ session w' = session w
    /\ promises (host w') = promises (host w)
    /\ timers (host w') = timers (host w)
    /\ trace (host w') = trace (host w) ++ tr
    /\ (if accepted_within 3 (host w)
        then r = Return tt /\ wrotes tr = [packet]
        else r = Throw (WriteError (attempts (host w) + 2)) /\ wrotes tr = []
             /\ attempts (host w') = (attempts (host w) + 3)%nat)
    /\ (attempts (host w) < attempts (host w') <= attempts (host w) + 3)%nat
    /\ sleeps tr = repeat 100 (attempts (host w') - attempts (host w) - 1).
Proof.
  intros Hwc Hin.
  destruct (writeWithRetry_attempts w c packet Hwc Hin)
    as (r & w' & tr & Hrun & Hs & _ & Hp & Ht & _ & Htr & Hres & Hatt & Hsl).
  exists r, w', tr. repeat split; try assumption; apply Hatt.
Qed.

Lemma writeWithRetry_once_witness :
  exists w' tr,
    writeWithRetry (createPacket 0x6B [])  3
                   (mkWorld authenticated_session (fresh_host (fun n => (1 <=? n)%nat)))
    = (Return tt, w')
    /\ trace (host w') = tr
    /\ wrotes tr = [createPacket 0x6B []]
    /\ sleeps tr = [100].
Proof.
  destruct (writeWithRetry_once
              (mkWorld authenticated_session (fresh_host (fun n => (1 <=? n)%nat)))
              (mkCharacteristic "0000fff2-0000-1000-8000-00805f9b34fb")
              (createPacket 0x6B []) eq_refl eq_refl)
    as (r & w' & tr & Hrun & _ & _ & _ & Htr & Hres & _ & Hsl).
  change (accepted_within 3 _) with true in Hres. destruct Hres as [-> Hw].
  exists w', tr. split; [exact Hrun|]. split; [exact Htr|]. split; [exact Hw|].
  rewrite Hsl. replace w' with (writeWithRetry (createPacket 0x6B []) 3
       (mkWorld authenticated_session (fresh_host (fun n => (1 <=? n)%nat)))).2
    by (rewrite Hrun; reflexivity).
  reflexivity.
Defined.

(** ** Pairing *)


(** X14. Without a pairing password, or with an empty one,
    [pairAndAuthenticate] throws its configuration error and leaves
    the world as it was: nothing is written. *)
Theorem pairAndAuthenticate_unconfigured (w : World) :
  PAIRING_PASSWORD (CONFIG (session w)) = None
  \/ PAIRING_PASSWORD (CONFIG (session w)) = Some EmptyString ->
  pairAndAuthenticate w
  = (Throw (Error "CONFIG.PAIRING_PASSWORD is missing or empty!"), w).
Proof.
  intros Hpw. unfold pairAndAuthenticate. run.
  destruct Hpw as [->| ->]; reflexivity.
Qed.

Lemma pairAndAuthenticate_unconfigured_witness :
  pairAndAuthenticate (mkWorld initial_session (fresh_host reliable))
  = (Throw (Error "CONFIG.PAIRING_PASSWORD is missing or empty!"),
     mkWorld initial_session (fresh_host reliable)).
Proof. apply pairAndAuthenticate_unconfigured. left. reflexivity. Defined.



(** ** The handshake *)

Section Handshake.

(** A write the handler does not wait for. *)
Lemma startWrite_run (w : World) (c : Characteristic) (packet : list Z) :
  writeCharacteristic (session w) = Some c ->
  startWrite packet w
  = (Return (if link (host w) (attempts (host w)) then None
             else Some (WriteError (attempts (host w)))),
     mkWorld (session w)
       (set_trace
          (trace (host w)
           ++ (if link (host w) (attempts (host w)) then [Wrote packet] else []))
          (set_attempts (S (attempts (host w))) (host w)))).
Proof.
  intros Hwc. unfold startWrite. run. rewrite Hwc. run.
  destruct (link (host w) (attempts (host w))); run; [reflexivity|].
  rewrite app_nil_r. reflexivity.
Qed.

(** The pairing acknowledgement asks for the random code. *)
Lemma pairing_ack_run (w : World) (c : Characteristic) (response : list Z) :
  response !! 1%nat = Some 0x0F -> response !! 2%nat = Some 0x10 ->
  writeCharacteristic (session w) = Some c ->
  exists w',
    handleNotifications response w = (Return tt, w')
    /\ session w' = session w
    /\ link (host w') = link (host w)
    /\ attempts (host w') = S (attempts (host w))
    /\ wrotes (trace (host w'))
       = wrotes (trace (host w))
         ++ (if link (host w) (attempts (host w)) then [createPacket 0x20 []] else []).
Proof.
  intros Hcmd Hstatus Hwc. unfold handleNotifications.
  rewrite Hcmd, Hstatus. run.
  match goal with |- context [startWrite ?pkt ?x] =>
    rewrite (startWrite_run x c pkt) by exact Hwc end.
  run. eexists. split; [reflexivity|]. cbn. repeat split.
  rewrite !wrotes_app. cbn [wrotes]. rewrite !app_nil_r.
  destruct (link (host w) (attempts (host w))); reflexivity.
Qed.

(** The random code is stored and the admin credentials go out,
    encrypted with it. *)
Lemma random_code_run (w : World) (c : Characteristic) (response : list Z) (pw : string) :
  response !! 1%nat = Some 0x20 -> response !! 2%nat = Some 0x10 ->
  ADMIN_PASSWORD (CONFIG (session w)) = Some pw ->
  writeCharacteristic (session w) = Some c ->
  let adminData :=
    Num 0x01 :: parsePhoneNumber (ADMIN_PHONE (CONFIG (session w)))
      ++ map (fun c => Num (char_code c)) (list_ascii_of_string pw) in
  let key := match last response with Some k => Num k | None => NaN end in
  exists w',
    handleNotifications response w = (Return tt, w')
    /\ session w' = set_randomCode (last response) (session w)
    /\ link (host w') = link (host w)
    /\ attempts (host w') = S (attempts (host w))
    /\ wrotes (trace (host w'))
       = wrotes (trace (host w))
         ++ (if link (host w) (attempts (host w))
             then [createPacket 0x21 (encryptData adminData key)] else []).
Proof.
  intros Hcmd Hstatus Hpw Hwc adminData key. subst adminData key.
  unfold handleNotifications, authenticateAdmin.
  rewrite Hcmd, Hstatus. run. rewrite Hpw. run.
  match goal with |- context [startWrite ?pkt ?x] =>
    rewrite (startWrite_run x c pkt) by exact Hwc end.
  run. eexists. split; [reflexivity|]. cbn. repeat split.
  rewrite !wrotes_app. cbn [wrotes]. rewrite !app_nil_r.
  destruct (link (host w) (attempts (host w))); reflexivity.
Qed.

(** The authentication result sets the flag and nothing else. *)
Lemma auth_result_run (w : World) (response : list Z) (status : Z) :
  response !! 1%nat = Some 0x21 -> response !! 2%nat = Some status ->
  exists w',
    handleNotifications response w = (Return tt, w')
    /\ session w' = set_isAuthenticated (status =? 0x10) (session w)
    /\ link (host w') = link (host w)
    /\ attempts (host w') = attempts (host w)
    /\ promises (host w') = promises (host w)
    /\ timers (host w') = timers (host w)
    /\ wrotes (trace (host w')) = wrotes (trace (host w)).
Proof.
  intros Hcmd Hstatus. unfold handleNotifications.
  rewrite Hcmd, Hstatus. run.
  destruct (status =? 16) eqn:Hok; run.
  - eexists. split; [reflexivity|]. cbn. repeat split.
    rewrite !wrotes_app. cbn [wrotes]. rewrite !app_nil_r. reflexivity.
  - eexists. split; [reflexivity|]. cbn. repeat split.
    rewrite !wrotes_app. cbn [wrotes]. rewrite !app_nil_r. reflexivity.
Qed.

End Handshake.

(** ** What a notification can and cannot change *)

Section Holds.

Variable R : World -> World -> Prop.
Hypothesis R_refl : forall w, R w w.
Hypothesis R_trans : forall w1 w2 w3, R w1 w2 -> R w2 w3 -> R w1 w3.

Lemma holds_ret {A} (a : A) : holds R (ret a).
Proof. intros w. apply R_refl. Qed.

Lemma holds_throw {A} (e : exn) : holds R (@throw A e).
Proof. intros w. apply R_refl. Qed.

Lemma holds_gets {A} (f : Session -> A) : holds R (gets f).
Proof. intros w. apply R_refl. Qed.

Lemma holds_getsH {A} (f : Host -> A) : holds R (getsH f).
Proof. intros w. apply R_refl. Qed.

Lemma holds_bind {A B} (m : M A) (k : A -> M B) :
  holds R m -> (forall a, holds R (k a)) -> holds R (bind m k).
Proof.
  intros Hm Hk w. unfold bind. specialize (Hm w).
  destruct (m w) as [[a|e] w1]; cbn in Hm |- *; [|exact Hm].
  eapply R_trans; [exact Hm|apply Hk].
Qed.

Lemma holds_bind_throw {A B} (e : exn) (k : A -> M B) : holds R (bind (throw e) k).
Proof. intros w. apply R_refl. Qed.

Lemma holds_try_catch {A} (m : M A) (h : exn -> M A) :
  holds R m -> (forall e, holds R (h e)) -> holds R (try_catch m h).
Proof.
  intros Hm Hh w. unfold try_catch. specialize (Hm w).
  destruct (m w) as [[a|e] w1]; cbn in Hm |- *; [exact Hm|].
  eapply R_trans; [exact Hm|apply Hh].
Qed.

Lemma holds_when (b : bool) (m : M unit) : holds R m -> holds R (when b m).
Proof. intros Hm. destruct b; [exact Hm|apply holds_ret]. Qed.

End Holds.

Lemma handler_frame_refl (cmd : option Z) (w : World) : handler_frame cmd w w.
Proof. unfold handler_frame. repeat split. Qed.

Lemma handler_frame_trans (cmd : option Z) (w1 w2 w3 : World) :
  handler_frame cmd w1 w2 -> handler_frame cmd w2 w3 -> handler_frame cmd w1 w3.
Proof.
  unfold handler_frame.
  intros (A1 & A2 & A3 & A4 & A5 & A6 & A7 & A8 & A9 & A10 & A11 & A12 & A13)
         (B1 & B2 & B3 & B4 & B5 & B6 & B7 & B8 & B9 & B10 & B11 & B12 & B13).
  repeat split; try congruence.
  - intros H. rewrite (B9 H). apply (A9 H).
  - intros H. rewrite (B10 H). apply (A10 H).
  - intros H. rewrite (B11 H). apply (A11 H).
  - destruct (A12 H) as (? & ? & ?). destruct (B12 H) as (? & ? & ?). congruence.
  - destruct (A12 H) as (? & ? & ?). destruct (B12 H) as (? & ? & ?). congruence.
  - destruct (A12 H) as (? & ? & ?). destruct (B12 H) as (? & ? & ?). congruence.
  - destruct (A13 H H0) as (? & ?). destruct (B13 H H0) as (? & ?). congruence.
  - destruct (A13 H H0) as (? & ?). destruct (B13 H H0) as (? & ?). congruence.
Qed.

Lemma date_errors_wrotes (tr : list Effect) : date_errors tr -> wrotes tr = [].
Proof.
  induction 1 as [|e tr [x ->] _ IH]; [reflexivity|exact IH].
Qed.

Lemma parseUserDataM_frame (cmd : option Z) (dataBuffer : list Z) :
  holds (handler_frame cmd) (parseUserDataM dataBuffer).
Proof.
  intros w. destruct (parseUserDataM_run dataBuffer w) as (tr & Htr & ->).
  unfold handler_frame, logged. cbn.
  rewrite wrotes_app, (date_errors_wrotes tr Htr), app_nil_r.
  repeat split.
Qed.

(** A step that moves only what the command allows. *)
Ltac frame_leaf :=
  intros ?w; unfold handler_frame; run;
  repeat split; intros;
  rewrite ?wrotes_app; cbn [wrotes]; rewrite ?app_nil_r;
  solve [reflexivity | congruence].

Ltac frame_step :=
  match goal with
  | |- holds (handler_frame ?cmd) _ =>
      first
        [ apply (holds_ret _ (handler_frame_refl cmd))
        | apply (holds_throw _ (handler_frame_refl cmd))
        | apply (holds_gets _ (handler_frame_refl cmd))
        | apply (holds_getsH _ (handler_frame_refl cmd))
        | apply (holds_bind_throw _ (handler_frame_refl cmd))
        | apply (holds_when _ (handler_frame_refl cmd))
        | apply parseUserDataM_frame
        | apply (holds_bind _ (handler_frame_trans cmd)); [|intros ?]
        | frame_leaf
        | match goal with
          | |- holds _ (if ?b then _ else _) => destruct b
          | |- holds _ (match ?x with _ => _ end) => destruct x
          end ]
  end.

Lemma handleNotifications_frame (response : list Z) :
  holds (handler_frame (response !! 1%nat)) (handleNotifications response).
Proof.
  unfold handleNotifications, authenticateAdmin, callBatteryResolve, clearTimeout,
    settle, startWrite.
  cbv zeta. rewrite pendingMap_undeclared.
  destruct (response !! 1%nat) as [c|]; unfold same.
  - apply (holds_bind _ (handler_frame_trans (Some c))); [repeat frame_step|].
    intros _.
    repeat match goal with
           | |- holds _ (if (c =? ?k) then _ else _) =>
               let H := fresh "H" in
               destruct (c =? k) eqn:H;
               [apply Z.eqb_eq in H; subst c|apply Z.eqb_neq in H]
           end;
      repeat frame_step.
  - repeat frame_step.
Qed.

(** X16. A pairing acknowledgement, a random-code response and an
    authentication result, all with status 0x10, handled in this order
    on a session with a write characteristic and an admin password
    whose two writes the transport accepts: the session ends
    authenticated, with the last byte of the random-code frame as
    random code, nothing else changed, and exactly two packets written,
    the random-code request and the authentication packet whose data is
    the admin data encrypted with the random code. *)
Theorem handshake_authenticates
    (w : World) (c : Characteristic) (pw : string) (ack code result : list Z) :
  ack !! 1%nat = Some 0x0F -> ack !! 2%nat = Some 0x10 ->
  code !! 1%nat = Some 0x20 -> code !! 2%nat = Some 0x10 ->
  result !! 1%nat = Some 0x21 -> result !! 2%nat = Some 0x10 ->
  writeCharacteristic (session w) = Some c ->
  ADMIN_PASSWORD (CONFIG (session w)) = Some pw ->
  link (host w) (attempts (host w)) = true ->
  link (host w) (S (attempts (host w))) = true ->
  let adminData :=
    Num 0x01 :: parsePhoneNumber (ADMIN_PHONE (CONFIG (session w)))
      ++ map (fun c => Num (char_code c)) (list_ascii_of_string pw) in
  let key := match last code with Some k => Num k | None => NaN end in
  exists w',
    (handleNotifications ack;; handleNotifications code;; handleNotifications result) w
      = (Return tt, w')
    /\ session w' = set_isAuthenticated true (set_randomCode (last code) (session w))
    /\ wrotes (trace (host w'))
       = wrotes (trace (host w))
         ++ [createPacket 0x20 []; createPacket 0x21 (encryptData adminData key)].
Proof.
  intros Ha1 Ha2 Hc1 Hc2 Hr1 Hr2 Hwc Hpw Hl0 Hl1 adminData key.
  destruct (pairing_ack_run w c ack Ha1 Ha2 Hwc) as (w1 & Hrun1 & Hs1 & Hk1 & Hat1 & Hw1).
  assert (Hwc1 : writeCharacteristic (session w1) = Some c) by (rewrite Hs1; exact Hwc).
  assert (Hpw1 : ADMIN_PASSWORD (CONFIG (session w1)) = Some pw) by (rewrite Hs1; exact Hpw).
  destruct (random_code_run w1 c code pw Hc1 Hc2 Hpw1 Hwc1)
    as (w2 & Hrun2 & Hs2 & Hk2 & Hat2 & Hw2).
  destruct (auth_result_run w2 result 0x10 Hr1 Hr2) as (w3 & Hrun3 & Hs3 & _ & _ & _ & _ & Hw3).
  exists w3. unfold bind. rewrite Hrun1, Hrun2, Hrun3.
  split; [reflexivity|]. split.
  - rewrite Hs3, Hs2, Hs1. reflexivity.
  - rewrite Hw3, Hw2, Hw1, Hk1, Hat1, Hl0, Hl1, Hs1, <- app_assoc. reflexivity.
Qed.

Lemma handshake_authenticates_witness :
  exists w',
    (handleNotifications (notification 0x0F 0x10 []);;
     handleNotifications (notification 0x20 0x10 [0x7A]);;
     handleNotifications (notification 0x21 0x10 []))
      (mkWorld connected_session (fresh_host reliable)) = (Return tt, w')
    /\ isAuthenticated (session w') = true
    /\ randomCode (session w') = Some 0x7A.
Proof.
  destruct (handshake_authenticates
              (mkWorld connected_session (fresh_host reliable))
              (mkCharacteristic "0000fff2-0000-1000-8000-00805f9b34fb") "000000"
              (notification 0x0F 0x10 []) (notification 0x20 0x10 [0x7A])
              (notification 0x21 0x10 [])
              eq_refl eq_refl eq_refl eq_refl eq_refl eq_refl eq_refl eq_refl eq_refl eq_refl)
    as (w' & Hrun & Hs & _).
  exists w'. split; [exact Hrun|]. rewrite Hs. split; reflexivity.
Defined.




(** X18. When no admin password is configured, a random-code response
    with status 0x10 makes the handler throw: the random code is
    stored, but no authentication packet is written. *)
Theorem random_code_without_admin_password (w : World) (response : list Z) :
  response !! 1%nat = Some 0x20 -> response !! 2%nat = Some 0x10 ->
  ADMIN_PASSWORD (CONFIG (session w)) = None ->
  exists e w',
    handleNotifications response w = (Throw e, w')
    /\ session w' = set_randomCode (last response) (session w)
    /\ attempts (host w') = attempts (host w)
    /\ wrotes (trace (host w')) = wrotes (trace (host w)).
Proof.
  intros Hcmd Hstatus Hpw. unfold handleNotifications, authenticateAdmin.
  rewrite Hcmd, Hstatus. run. rewrite Hpw. run.
  eexists _, _. split; [reflexivity|]. cbn. repeat split.
  rewrite !wrotes_app. cbn [wrotes]. rewrite !app_nil_r. reflexivity.
Qed.

Lemma random_code_without_admin_password_witness :
  exists e w',
    handleNotifications (notification 0x20 0x10 [0x7A])
                        (mkWorld initial_session (fresh_host reliable)) = (Throw e, w')
    /\ randomCode (session w') = Some 0x7A
    /\ attempts (host w') = 0%nat.
Proof.
  destruct (random_code_without_admin_password
              (mkWorld initial_session (fresh_host reliable))
              (notification 0x20 0x10 [0x7A]) eq_refl eq_refl eq_refl)
    as (e & w' & Hrun & Hs & Hat & _).
  exists e, w'. split; [exact Hrun|]. rewrite Hs. split; [reflexivity|exact Hat].
Defined.

(** X19. An authentication result sets [isAuthenticated] to whether
    its status is 0x10, whatever the flag was: a later result with
    another status takes the authentication away. Nothing else in the
    session changes and nothing is written. A frame that ends after the
    command byte clears the flag and then throws. *)
Theorem auth_result_sets_flag (w : World) (response : list Z) :
  response !! 1%nat = Some 0x21 ->
  (forall status : Z, response !! 2%nat = Some status ->
     exists w',
       handleNotifications response w = (Return tt, w')
       /\ session w' = set_isAuthenticated (status =? 0x10) (session w)
       /\ attempts (host w') = attempts (host w)
       /\ wrotes (trace (host w')) = wrotes (trace (host w)))
  /\ (response !! 2%nat = None ->
      exists e w',
        handleNotifications response w = (Throw e, w')
        /\ session w' = set_isAuthenticated false (session w)).
Proof.
  intros Hcmd. split.
  - intros status Hstatus.
    destruct (auth_result_run w response status Hcmd Hstatus)
      as (w' & Hrun & Hs & _ & Hat & _ & _ & Hw).
    exists w'. repeat split; assumption.
  - intros Hnone. unfold handleNotifications. rewrite Hcmd, Hnone. run.
    eexists _, _. split; reflexivity.
Qed.

Lemma auth_result_sets_flag_witness :
  exists w',
    handleNotifications (notification 0x21 0x11 [])
                        (mkWorld authenticated_session (fresh_host reliable)) = (Return tt, w')
    /\ isAuthenticated (session w') = false.
Proof.
  destruct (proj1 (auth_result_sets_flag
                     (mkWorld authenticated_session (fresh_host reliable))
                     (notification 0x21 0x11 []) eq_refl) 0x11 eq_refl)
    as (w' & Hrun & Hs & _).
  exists w'. split; [exact Hrun|]. rewrite Hs. reflexivity.
Defined.

(** X20. Whatever the frame, the handler leaves the configuration,
    the device and characteristic handles, the map of pending
    passwords and the recorded passwords alone. It changes
    [isAuthenticated] only on command 0x21, the random code only on
    0x20, the fragment buffer only on 0x6C, the battery slot, the
    promises and the timers only on 0x60, and it writes to the
    transport only on 0x0F and 0x20. This holds whether it returns
    or throws. *)
Theorem handleNotifications_touches_only (w : World) (response : list Z) :
  handler_frame (response !! 1%nat) w (handleNotifications response w).2.
Proof. apply handleNotifications_frame. Qed.

(** X21. A frame whose command is unknown or missing, or whose status
    is not one its command acts on, is only logged: the handler returns
    and the world is as before but for the log entry. A battery
    response with an error status thus leaves the request pending. *)
Theorem ignored_frames (w : World) (response : list Z) :
  ignored response = true ->
  handleNotifications response w
  = (Return tt, (console "Received response:" (Bytes response) w).2).
Proof.
  intros Hignored. rewrite (ignored_frame_logged w response Hignored).
  reflexivity.
Qed.

Lemma ignored_frames_witness :
  handleNotifications (notification 0x60 0x11 [])
                      (mkWorld authenticated_session (fresh_host reliable))
  = (Return tt,
     (console "Received response:" (Bytes (notification 0x60 0x11 []))
              (mkWorld authenticated_session (fresh_host reliable))).2).
Proof. apply ignored_frames. reflexivity. Defined.

(** X22. On a session with a write characteristic and an admin
    password, the handler returns normally on every frame of at least
    three bytes whose command is not 0x68, whatever the bytes are. *)
Theorem handleNotifications_returns
    (w : World) (c : Characteristic) (pw : string) (response : list Z) :
  writeCharacteristic (session w) = Some c ->
  ADMIN_PASSWORD (CONFIG (session w)) = Some pw ->
  (3 <= length response)%nat ->
  response !! 1%nat <> Some 0x68 ->
  exists w', handleNotifications response w = (Return tt, w').
Proof.
  intros Hwc Hpw Hlen Hcmd.
  destruct (lookup_lt_is_Some_2 response 1) as [cmd Hc]; [lia|].
  destruct (lookup_lt_is_Some_2 response 2) as [status Hs]; [lia|].
  assert (H68 : (cmd =? 0x68) = false).
  { apply Z.eqb_neq. intros ->. apply Hcmd. exact Hc. }
  unfold handleNotifications, authenticateAdmin, callBatteryResolve, clearTimeout, settle.
  rewrite Hc, Hs. unfold same. run.
  destruct (cmd =? 15); [destruct (status =? 16); run|].
  { rewrite (startWrite_run _ c) by exact Hwc. run. eauto. }
  { eauto. }
  destruct (cmd =? 32); [destruct (status =? 16); run|].
  { rewrite Hpw. run. rewrite (startWrite_run _ c) by exact Hwc. run. eauto. }
  { eauto. }
  destruct (cmd =? 33); [destruct (status =? 16); run; eauto|].
  destruct (cmd =? 96); [destruct (status =? 16); run|].
  { destruct (pendingBatteryResolve (session w)) as [r|]; run; [|eauto].
    destruct (timers (host w) !! br_timeout r); run;
      destruct (promises (host w) !! br_promise r) as [[| |]|]; run; eauto. }
  { eauto. }
  destruct (cmd =? 108);
    [destruct (status =? 36); [run; eauto|destruct (status =? 16); run; [|eauto]]|].
  { match goal with |- context [parseUserDataM ?buf ?x] =>
      destruct (parseUserDataM_run buf x) as (errors & _ & ->) end.
    run. eauto. }
  rewrite H68.
  destruct (cmd =? 107); [destruct (status =? 16); run; eauto|].
  destruct (cmd =? 114); [destruct (status =? 16); run; eauto|].
  run. eauto.
Qed.

Lemma handleNotifications_returns_witness :
  exists w',
    handleNotifications [0x00; 0x60; 0x10]
                        (mkWorld connected_session (fresh_host broken)) = (Return tt, w').
Proof.
  apply (handleNotifications_returns _
           (mkCharacteristic "0000fff2-0000-1000-8000-00805f9b34fb") "000000");
    [reflexivity|reflexivity|cbn; lia|discriminate].
Defined.

(** ** Fragments of the user list, in general *)

Lemma deliver_partial_fragment (w : World) (response : list Z) :
  response !! 1%nat = Some 0x6C -> response !! 2%nat = Some 0x24 ->
  exists w',
    deliver (Notification response) w = (Return tt, w')
    /\ userDataBuffer (session w')
       = userDataBuffer (session w) ++ payloadOf response (response !! 3%nat).
Proof.
  intros Hcmd Hstatus. unfold deliver, try_catch, dispatch.
  rewrite (partial_fragment w response Hcmd Hstatus).
  eexists. split; reflexivity.
Qed.

(** X23. Any number of partial fragments (status 0x24) followed by a
    final fragment (status 0x10): the bytes parsed are what the buffer
    held before the first of them, then the payloads in order of
    arrival; the records are logged under "All users:" and the buffer
    is empty afterwards. Bytes left by an earlier listing that never
    got its final fragment are thus parsed in front of the new ones. *)
Theorem fragments_reassembled (partials : list (list Z)) (final : list Z) :
  Forall (fun r => r !! 1%nat = Some 0x6C /\ r !! 2%nat = Some 0x24) partials ->
  final !! 1%nat = Some 0x6C -> final !! 2%nat = Some 0x10 ->
  forall w : World,
    exists w1 w2,
      deliverAll (map Notification partials) w = (Return tt, w1)
      /\ userDataBuffer (session w1)
         = userDataBuffer (session w)
           ++ concat (map (fun r => payloadOf r (r !! 3%nat)) partials)
      /\ handleNotifications final w1 = (Return tt, w2)
      /\ userDataBuffer (session w2) = []
      /\ last (trace (host w2))
         = Some (Console "All users:"
                   (Users (parseUserData
                             (userDataBuffer (session w)
                              ++ concat (map (fun r => payloadOf r (r !! 3%nat)) partials)
                              ++ payloadOf final (final !! 3%nat))))).
Proof.
  intros Hpartials Hcmd Hstatus.
  assert (Hacc : forall w, exists w1,
    deliverAll (map Notification partials) w = (Return tt, w1)
    /\ userDataBuffer (session w1)
       = userDataBuffer (session w)
         ++ concat (map (fun r => payloadOf r (r !! 3%nat)) partials)).
  { induction Hpartials as [|r partials [Hr1 Hr2] _ IH]; intros w.
    - exists w. split; [reflexivity|]. cbn. rewrite app_nil_r. reflexivity.
    - destruct (deliver_partial_fragment w r Hr1 Hr2) as (w0 & Hrun0 & Hbuf0).
      destruct (IH w0) as (w1 & Hrun1 & Hbuf1).
      exists w1. split.
      + change (deliverAll (map Notification (r :: partials)))
          with (deliver (Notification r);; deliverAll (map Notification partials)).
        unfold bind. rewrite Hrun0. exact Hrun1.
      + rewrite Hbuf1, Hbuf0. cbn [map concat]. rewrite <- app_assoc. reflexivity. }
  intros w. destruct (Hacc w) as (w1 & Hrun1 & Hbuf1).
  destruct (final_fragment w1 final Hcmd Hstatus) as (errors & _ & Hfinal).
  eexists w1, _. split; [exact Hrun1|]. split; [exact Hbuf1|].
  split; [exact Hfinal|].
  split; [reflexivity|].
  cbn [host trace set_trace]. rewrite Hbuf1, <- app_assoc.
  rewrite !app_assoc, last_snoc. rewrite <- !app_assoc. reflexivity.
Qed.

Lemma fragments_reassembled_witness :
  exists w1 w2,
    deliverAll (map Notification [notification 0x6C 0x24 (repeat 1 30);
                                  notification 0x6C 0x24 (repeat 2 30)])
               (mkWorld authenticated_session (fresh_host reliable)) = (Return tt, w1)
    /\ handleNotifications (notification 0x6C 0x10 (repeat 3 12)) w1 = (Return tt, w2)
    /\ userDataBuffer (session w2) = [].
Proof.
  destruct (fragments_reassembled
              [notification 0x6C 0x24 (repeat 1 30); notification 0x6C 0x24 (repeat 2 30)]
              (notification 0x6C 0x10 (repeat 3 12))
              ltac:(repeat constructor) eq_refl eq_refl
              (mkWorld authenticated_session (fresh_host reliable)))
    as (w1 & w2 & H1 & _ & H2 & H3 & _).
  exists w1, w2. split; [exact H1|]. split; [exact H2|exact H3].
Defined.

(** ** Battery requests, resolved and failed *)

Section BatteryOutcomes.

Lemma voltage_check :
  forallb (fun hi =>
             forallb (fun lo =>
                        Z.lor (wrap32 (Z.shiftl (wrap32 hi) 8)) (wrap32 lo) =? 256 * hi + lo)
                     (map (fun i => 0 + Z.of_nat i) (seq 0 256)))
          (map (fun i => 0 + Z.of_nat i) (seq 0 256)) = true.
Proof. vm_compute. reflexivity. Qed.

Lemma voltage_bytes (hi lo : Z) :
  is_byte hi -> is_byte lo ->
  Z.lor (wrap32 (Z.shiftl (wrap32 hi) 8)) (wrap32 lo) = 256 * hi + lo.
Proof.
  unfold is_byte. intros Hhi Hlo. apply Z.eqb_eq.
  pose proof (forallb_range _ 0 256 voltage_check hi ltac:(lia)) as Hrow.
  cbv beta in Hrow.
  apply (forallb_range _ 0 256 Hrow lo). lia.
Qed.

(** The result handed to the promise of a battery request. *)
Lemma battery_response_result
    (w : World) (response : list Z) (t p : nat) (tm : Timer) (hi lo : Z) :
  response !! 1%nat = Some 0x60 -> response !! 2%nat = Some 0x10 ->
  response !! 8%nat = Some hi -> response !! 9%nat = Some lo ->
  is_byte hi -> is_byte lo ->
  pendingBatteryResolve (session w) = Some (mkBatteryResolver t p) ->
  timers (host w) !! t = Some tm ->
  promises (host w) !! p = Some Pending ->
  exists w' result,
    handleNotifications response w = (Return tt, w')
    /\ promises (host w') = <[p := Fulfilled (BatteryValue result)]> (promises (host w))
    /\ timers (host w') = <[t := mkTimer (delay tm) (action tm) false]> (timers (host w))
    /\ pendingBatteryResolve (session w') = None
    /\ voltage result = 256 * hi + lo
    /\ voltageString result = Z_toString 10 (256 * hi + lo) +:+ "mV"
    /\ battery_raw result = response.
Proof.
  intros Hcmd Hstatus Hhi Hlo Bhi Blo Hslot Htimer Hpending.
  unfold handleNotifications, callBatteryResolve, clearTimeout, settle.
  rewrite Hcmd, Hstatus, Hhi, Hlo. run. rewrite Hslot. run. rewrite Htimer. run.
  rewrite Hpending. run.
  eexists _, _. split; [reflexivity|]. cbn.
  rewrite (voltage_bytes hi lo Bhi Blo). repeat split.
Qed.

(** A timer that was cleared does nothing when its time comes. *)
Lemma fireTimer_cleared (w : World) (t : nat) (tm : Timer) :
  timers (host w) !! t = Some tm -> active tm = false ->
  fireTimer t w = (Return tt, w).
Proof.
  intros Ht Hoff. unfold fireTimer. run. rewrite Ht, Hoff. reflexivity.
Qed.

End BatteryOutcomes.

(** X24. A battery request whose write was accepted is resolved by the
    first 0x60 response with status 0x10: its promise is fulfilled
    with the voltage [256 * byte 8 + byte 9] of the frame, the frame
    itself as raw data, the slot is freed and the timer cleared, so
    that the timer does nothing when its 5000 ms are over and a second
    response settles nothing. *)
Theorem battery_request_resolved_once
    (w : World) (c : Characteristic) (response : list Z) (hi lo : Z) :
  pendingBatteryResolve (session w) = None ->
  writeCharacteristic (session w) = Some c ->
  inbox (host w) = [] ->
  accepted_within 3 (host w) = true ->
  response !! 1%nat = Some 0x60 -> response !! 2%nat = Some 0x10 ->
  response !! 8%nat = Some hi -> response !! 9%nat = Some lo ->
  is_byte hi -> is_byte lo ->
  let p := length (promises (host w)) in
  let t := length (timers (host w)) in
  exists w1 w2 w3 result,
    getBatteryLevel w = (Return p, w1)
    /\ handleNotifications response w1 = (Return tt, w2)
    /\ promises (host w2) !! p = Some (Fulfilled (BatteryValue result))
    /\ voltage result = 256 * hi + lo
    /\ voltageString result = Z_toString 10 (256 * hi + lo) +:+ "mV"
    /\ battery_raw result = response
    /\ pendingBatteryResolve (session w2) = None
    /\ fireTimer t w2 = (Return tt, w2)
    /\ handleNotifications response w2 = (Return tt, w3)
    /\ promises (host w3) = promises (host w2).
Proof.
  intros Hfree Hwc Hin Hacc Hcmd Hstatus Hhi Hlo Bhi Blo p t.
  destruct (getBatteryLevel_outstanding w c Hfree Hwc Hin Hacc)
    as (w1 & Hrun1 & Hp1 & Ht1 & Hslot1).
  fold p t in Hrun1, Hp1, Ht1, Hslot1.
  assert (Hpending : promises (host w1) !! p = Some Pending).
  { rewrite Hp1. subst p. rewrite lookup_app_r by lia. rewrite Nat.sub_diag. reflexivity. }
  assert (Htimer : timers (host w1) !! t = Some (mkTimer 5000 (BatteryTimeout p) true)).
  { rewrite Ht1. subst t. rewrite lookup_app_r by lia. rewrite Nat.sub_diag. reflexivity. }
  destruct (battery_response_result w1 response t p _ hi lo
              Hcmd Hstatus Hhi Hlo Bhi Blo Hslot1 Htimer Hpending)
    as (w2 & result & Hrun2 & Hp2 & Ht2 & Hslot2 & Hv & Hvs & Hraw).
  destruct (stray_battery_response w2 response Hcmd Hslot2) as (w3 & Hrun3 & _ & Hp3 & _).
  exists w1, w2, w3, result.
  repeat split; try assumption.
  - rewrite Hp2. apply list_lookup_insert_eq.
    rewrite Hp1, length_app, Nat.add_1_r. apply Nat.lt_succ_diag_r.
  - apply (fireTimer_cleared w2 t (mkTimer 5000 (BatteryTimeout p) false)); [|reflexivity].
    rewrite Ht2. apply list_lookup_insert_eq.
    rewrite Ht1, length_app, Nat.add_1_r. apply Nat.lt_succ_diag_r.
Qed.

Lemma battery_request_resolved_once_witness :
  exists w1 w2 result,
    getBatteryLevel (mkWorld authenticated_session (fresh_host reliable)) = (Return 0%nat, w1)
    /\ handleNotifications (notification 0x60 0x10 [0; 0; 0x14; 0x50]) w1 = (Return tt, w2)
    /\ promises (host w2) !! 0%nat = Some (Fulfilled (BatteryValue result))
    /\ voltage result = 5200.
Proof.
  destruct (battery_request_resolved_once
              (mkWorld authenticated_session (fresh_host reliable))
              (mkCharacteristic "0000fff2-0000-1000-8000-00805f9b34fb")
              (notification 0x60 0x10 [0; 0; 0x14; 0x50]) 0x14 0x50
              eq_refl eq_refl eq_refl eq_refl eq_refl eq_refl eq_refl eq_refl
              ltac:(unfold is_byte; lia) ltac:(unfold is_byte; lia))
    as (w1 & w2 & w3 & result & H1 & H2 & H3 & H4 & _).
  exists w1, w2, result. repeat split; assumption.
Defined.

(** X25. On a session with no battery request pending and no event
    arriving during the call: when the write of a battery request
    fails for good, the promise is rejected with the error of the
    failed write (that of the third attempt, or the [TypeError] of the
    missing characteristic) and the slot is freed at once, nothing
    having gone out; but the 5000 ms timer of the request stays armed,
    and when it fires in a later world it empties the slot, whichever
    request holds it then. *)
Theorem battery_request_write_failure (w : World) :
  pendingBatteryResolve (session w) = None ->
  inbox (host w) = [] ->
  writeCharacteristic (session w) = None \/ accepted_within 3 (host w) = false ->
  let p := length (promises (host w)) in
  let t := length (timers (host w)) in
  exists e w1,
    getBatteryLevel w = (Return p, w1)
    /\ match writeCharacteristic (session w) with
       | Some _ => e = WriteError (attempts (host w) + 2)
       | None => exists text, e = TypeError text
       end
    /\ promises (host w1) = promises (host w) ++ [Rejected e]
    /\ pendingBatteryResolve (session w1) = None
    /\ timers (host w1) = timers (host w) ++ [mkTimer 5000 (BatteryTimeout p) true]
    /\ wrotes (trace (host w1)) = wrotes (trace (host w))
    /\ forall w2 : World,
         timers (host w2) !! t = Some (mkTimer 5000 (BatteryTimeout p) true) ->
         exists w3, fireTimer t w2 = (Return tt, w3)
                    /\ pendingBatteryResolve (session w3) = None.
Proof.
  intros Hfree Hin Hwhy p t.
  assert (Hfire : forall w2 : World,
    timers (host w2) !! t = Some (mkTimer 5000 (BatteryTimeout p) true) ->
    exists w3, fireTimer t w2 = (Return tt, w3) /\ pendingBatteryResolve (session w3) = None).
  { intros w2 Ht2. unfold fireTimer, clearTimeout, runTimer, settle. run.
    rewrite Ht2. run. rewrite Ht2. run.
    destruct (_ !! p) as [[| |]|]; run; eexists; split; reflexivity. }
  subst p t.
  unfold getBatteryLevel, newPromise, setTimeout, settle. run. rewrite Hfree. run.
  destruct (writeCharacteristic (session w)) as [c|] eqn:Hwc.
  - destruct Hwhy as [Hnone|Hrej]; [discriminate Hnone|].
    match goal with |- context [writeWithRetry ?pkt 3 ?x] =>
      destruct (writeWithRetry_attempts x c pkt Hwc Hin)
        as (r & w' & tr & Hrun & Hs & _ & Hp & Ht & _ & Htr & Hres & _) end.
    change (accepted_within 3 _) with (accepted_within 3 (host w)) in Hres.
    rewrite Hrej in Hres. destruct Hres as (-> & Hw & _).
    rewrite Hrun. run. rewrite Hp. run.
    rewrite lookup_app_r by lia. rewrite Nat.sub_diag. run.
    eexists _, _. split; [reflexivity|]. cbn.
    rewrite Ht, Htr. cbn.
    rewrite insert_app_r_alt by lia. rewrite Nat.sub_diag.
    repeat split; [|exact Hfire].
    rewrite !wrotes_app, Hw. cbn [wrotes]. rewrite !app_nil_r. reflexivity.
  - match goal with |- context [writeWithRetry ?pkt 3 ?x] =>
      destruct (writeWithRetry_no_characteristic x pkt Hwc Hin)
        as (text & w' & tr & Hrun & Hs & _ & Hp & Ht & Htr & Hw & _) end.
    rewrite Hrun. run. rewrite Hp. run.
    rewrite lookup_app_r by lia. rewrite Nat.sub_diag. run.
    eexists _, _. split; [reflexivity|]. cbn.
    rewrite Ht, Htr. cbn.
    rewrite insert_app_r_alt by lia. rewrite Nat.sub_diag.
    split; [eexists; reflexivity|].
    repeat split; [|exact Hfire].
    rewrite !wrotes_app, Hw. cbn [wrotes]. rewrite !app_nil_r. reflexivity.
Qed.

Lemma battery_request_write_failure_witness :
  exists w1,
    getBatteryLevel (mkWorld authenticated_session (fresh_host broken)) = (Return 0%nat, w1)
    /\ promises (host w1) = [Rejected (WriteError 2)]
    /\ timers (host w1) = [mkTimer 5000 (BatteryTimeout 0) true].
Proof.
  destruct (battery_request_write_failure
              (mkWorld authenticated_session (fresh_host broken))
              eq_refl eq_refl (or_intror eq_refl))
    as (e & w1 & H1 & He & H2 & _ & H3 & _).
  cbn in He. subst e.
  exists w1. split; [exact H1|]. split; [exact H2|exact H3].
Defined.

(** ** Requests that only write *)

(** X26. On an authenticated, idle session with a write
    characteristic, [deleteAllUsers] writes the packet
    F5 6B 00 00 5F BF exactly once and returns as soon as the transport
    has accepted it, without waiting for the 0x6B response; when all
    three attempts fail it throws and nothing has gone out. The session
    is unchanged either way. *)
Theorem deleteAllUsers_sends (w : World) (c : Characteristic) :
  isAuthenticated (session w) = true ->
  writeCharacteristic (session w) = Some c ->
  inbox (host w) = [] ->
  exists r w',
    deleteAllUsers w = (r, w')
    /\ session w' = session w
    /\ promises (host w') = promises (host w)
    /\ if accepted_within 3 (host w)
       then r = Return tt
            /\ wrotes (trace (host w'))
               = wrotes (trace (host w)) ++ [[0xF5; 0x6B; 0x00; 0x00; 0x5F; 0xBF]]
       else r = Throw (WriteError (attempts (host w) + 2))
            /\ wrotes (trace (host w')) = wrotes (trace (host w)).
Proof.
  intros Hauth Hwc Hin. unfold deleteAllUsers. run. rewrite Hauth. run.
  match goal with |- context [writeWithRetry ?pkt 3 ?x] =>
    destruct (writeWithRetry_attempts x c pkt Hwc Hin)
      as (r & w' & tr & Hrun & Hs & _ & Hp & _ & _ & Htr & Hres & _) end.
  change (accepted_within 3 _) with (accepted_within 3 (host w)) in Hres.
  exists r, w'. split; [exact Hrun|]. split; [exact Hs|]. split; [exact Hp|].
  rewrite Htr. cbn [host trace set_trace]. rewrite !wrotes_app. cbn [wrotes].
  rewrite app_nil_r.
  destruct (accepted_within 3 (host w)).
  - destruct Hres as [-> Hw]. split; [reflexivity|]. rewrite Hw. reflexivity.
  - destruct Hres as (-> & Hw & _). split; [reflexivity|]. rewrite Hw.
    rewrite app_nil_r. reflexivity.
Qed.

Lemma deleteAllUsers_sends_witness :
  exists w',
    deleteAllUsers (mkWorld authenticated_session (fresh_host reliable)) = (Return tt, w')
    /\ wrotes (trace (host w')) = [[0xF5; 0x6B; 0x00; 0x00; 0x5F; 0xBF]].
Proof.
  destruct (deleteAllUsers_sends
              (mkWorld authenticated_session (fresh_host reliable))
              (mkCharacteristic "0000fff2-0000-1000-8000-00805f9b34fb")
              eq_refl eq_refl eq_refl)
    as (r & w' & Hrun & _ & _ & Hres).
  change (accepted_within 3 _) with true in Hres. destruct Hres as [-> Hw].
  exists w'. split; [exact Hrun|exact Hw].
Defined.

Lemma single_write (w : World) (c : Characteristic) (packet : list Z) :
  writeCharacteristic (session w) = Some c ->
  inbox (host w) = [] ->
  exists w',
    writeValue packet w
    = (if link (host w) (attempts (host w)) then Return tt
       else Throw (WriteError (attempts (host w))), w')
    /\ session w' = session w
    /\ attempts (host w') = S (attempts (host w))
    /\ wrotes (trace (host w'))
       = wrotes (trace (host w))
         ++ (if link (host w) (attempts (host w)) then [packet] else []).
Proof.
  intros Hwc Hin. unfold writeValue. run.
  rewrite (startWrite_run w c packet Hwc). run.
  rewrite yield_idle by exact Hin.
  destruct (link (host w) (attempts (host w))); run.
  - eexists. split; [reflexivity|]. cbn. repeat split.
    rewrite wrotes_app. reflexivity.
  - eexists. split; [reflexivity|]. cbn. repeat split.
    rewrite !app_nil_r. reflexivity.
Qed.

(** X27. [getUsers] and [getLogs] do not check [isAuthenticated] and
    do not retry: on an idle session with a write characteristic each
    makes one write attempt, of F5 6C 00 00 5F C0 and F5 72 00 00 5F C6,
    and throws the error of that attempt if the transport refuses it.
    The session is unchanged. *)
Theorem listing_requests (w : World) (c : Characteristic) :
  writeCharacteristic (session w) = Some c ->
  inbox (host w) = [] ->
  let outcome := if link (host w) (attempts (host w)) then Return tt
                 else Throw (WriteError (attempts (host w))) in
  let sent packet := wrotes (trace (host w))
                     ++ (if link (host w) (attempts (host w)) then [packet] else []) in
  (exists w', getUsers w = (outcome, w')
     /\ session w' = session w
     /\ attempts (host w') = S (attempts (host w))
     /\ wrotes (trace (host w')) = sent [0xF5; 0x6C; 0x00; 0x00; 0x5F; 0xC0])
  /\ (exists w', getLogs w = (outcome, w')
     /\ session w' = session w
     /\ attempts (host w') = S (attempts (host w))
     /\ wrotes (trace (host w')) = sent [0xF5; 0x72; 0x00; 0x00; 0x5F; 0xC6]).
Proof.
  intros Hwc Hin outcome sent. subst outcome sent. cbv beta.
  split.
  - unfold getUsers. run.
    match goal with |- context [writeValue ?pkt ?x] =>
      destruct (single_write x c pkt Hwc Hin) as (w' & Hrun & Hs & Hat & Hw) end.
    exists w'. split; [exact Hrun|]. split; [exact Hs|]. split; [exact Hat|].
    rewrite Hw. cbn [host trace set_trace link attempts set_attempts].
    rewrite wrotes_app. cbn [wrotes]. rewrite app_nil_r. reflexivity.
  - unfold getLogs. run.
    match goal with |- context [writeValue ?pkt ?x] =>
      destruct (single_write x c pkt Hwc Hin) as (w' & Hrun & Hs & Hat & Hw) end.
    exists w'. split; [exact Hrun|]. split; [exact Hs|]. split; [exact Hat|].
    rewrite Hw. cbn [host trace set_trace link attempts set_attempts].
    rewrite wrotes_app. cbn [wrotes]. rewrite app_nil_r. reflexivity.
Qed.

Lemma listing_requests_witness :
  exists w',
    getUsers (mkWorld connected_session (fresh_host reliable)) = (Return tt, w')
    /\ wrotes (trace (host w')) = [[0xF5; 0x6C; 0x00; 0x00; 0x5F; 0xC0]].
Proof.
  destruct (proj1 (listing_requests
                     (mkWorld connected_session (fresh_host reliable))
                     (mkCharacteristic "0000fff2-0000-1000-8000-00805f9b34fb")
                     eq_refl eq_refl))
    as (w' & Hrun & _ & _ & Hw).
  exists w'. split; [exact Hrun|exact Hw].
Defined.
